(** * Langie: the staged customer-support workflow

    A shallow embedding of the workflow engine of [src/langgraph_agent.py],
    of the ability dispatch of [src/mcp_client.py], of the records of
    [src/models.py] and of the dependency-free variant of
    [src/simple_agent.py], followed by the properties of the engine: the
    escalation rule, the stage graph, the isolation of stage failures, the
    ability registry and the release of the provider connections.

    Conventions of the embedding.
    - Python objects that a stage mutates live in a heap record; an
      [async def] that may raise is a computation in the monad [M], a
      state-and-exception monad over that heap.  A raised exception keeps
      the heap as it was at the raise.
    - A [StageLog] is appended to [state.stage_logs] when its stage starts
      and is mutated afterwards through the local variable [stage_log]; the
      variable is modelled by the position of the log in the list.
    - Dynamically typed data (provider results, the fields they are copied
      into) are values of the type [value]; an operation applied to a value
      of the wrong type raises as Python does.
    - Wall-clock time is a counter that every [datetime.now()] reads and
      advances.
    - The language model, the remote servers and the parts of the Python
      runtime that are not modelled here (Unicode case mapping, [repr],
      key equality of dictionaries, lax coercions of pydantic) are fields
      of an environment record; the theorems hold for every environment.
    - The compiled graph runs the node functions along the edges of
      [_build_workflow] on the one state object, and [ainvoke] hands the
      fields of that object back: [final_state.get(k)] is the field [k] of
      the final state.  The output record keeps the logs and the final
      state themselves where the source stores their [dict()].
    - Only exceptions derived from [Exception] are modelled.  Logging and
      printing are omitted. *)

From stdpp Require Import base option list gmap strings pretty.
From Stdlib Require Import ZArith Lia PrimFloat Uint63 Ascii.

Set Default Proof Using "Type".
Set Warnings "-register-all,-inexact-float".

(** ** Python values *)

Inductive value : Type :=
  | VNone
  | VBool (b : bool)
  | VInt (n : Z)
  | VFloat (f : float)
  | VStr (s : string)
  | VList (xs : list value)
  | VDict (kvs : list (value * value)).

(** A [dict]: insertion-ordered pairs of a key and a value. *)
Abbreviation Dict := (list (value * value)).

(** An entry of a dictionary literal with a string key. *)
Notation "k :-> v" := (VStr k, v) (at level 60, no associativity).

Definition type_name (v : value) : string :=
  match v with
  | VNone => "NoneType"
  | VBool _ => "bool"
  | VInt _ => "int"
  | VFloat _ => "float"
  | VStr _ => "str"
  | VList _ => "list"
  | VDict _ => "dict"
  end.

(** ** Exceptions *)

Record exn : Type := Exception { exn_class : string; exn_text : string }.

(** [str(e)] *)
Definition str_exn (e : exn) : string := exn_text e.

Definition AttributeError (msg : string) : exn := Exception "AttributeError" msg.
Definition TypeError (msg : string) : exn := Exception "TypeError" msg.
Definition ValueError (msg : string) : exn := Exception "ValueError" msg.
Definition KeyError (k : string) : exn := Exception "KeyError" ("'" +:+ k +:+ "'").
Definition ValidationError (msg : string) : exn := Exception "ValidationError" msg.
Definition GraphRecursionError (msg : string) : exn := Exception "GraphRecursionError" msg.

(** ** The parts of the Python runtime left to the environment *)

Record Runtime : Type := {
  str_upper : string -> string;           (* str.upper *)
  str_lower : string -> string;           (* str.lower *)
  str_strip : string -> string;           (* str.strip *)
  str_chars : string -> list string;      (* iteration over a str *)
  py_repr : value -> string;              (* str() of a float, list or dict *)
  float_key_eq : value -> value -> bool;  (* equal dictionary keys, one a float *)
  py_hash : value -> Z;                   (* hash() of a hashable value *)
  isoformat : nat -> string;              (* datetime.isoformat *)
  lax_float : value -> bool               (* pydantic: a str or bool accepted as float *)
}.

(** ** Operations on dynamically typed values *)

Definition truthy (v : value) : bool :=
  match v with
  | VNone => false
  | VBool b => b
  | VInt n => negb (n =? 0)%Z
  | VFloat f => negb (PrimFloat.eqb f 0%float)
  | VStr s => negb (String.eqb s "")
  | VList xs => match xs with [] => false | _ => true end
  | VDict kvs => match kvs with [] => false | _ => true end
  end.

Definition is_str_key (k : string) (v : value) : bool :=
  match v with VStr s => String.eqb k s | _ => false end.

(** The entry of the string key [k], if any. *)
Fixpoint dict_lookup (d : Dict) (k : string) : option value :=
  match d with
  | [] => None
  | (k', v) :: d' => if is_str_key k k' then Some v else dict_lookup d' k
  end.

(** [d[k] = v] for a string key *)
Fixpoint dict_set (d : Dict) (k : string) (v : value) : Dict :=
  match d with
  | [] => [k :-> v]
  | (k', v') :: d' =>
      if is_str_key k k' then (k', v) :: d' else (k', v') :: dict_set d' k v
  end.

(** [k in d] *)
Definition dict_in (k : string) (d : Dict) : bool :=
  match dict_lookup d k with Some _ => true | None => false end.

(** [d.get(k, default)] on a dictionary *)
Definition dict_get (d : Dict) (k : string) (default : value) : value :=
  match dict_lookup d k with Some v => v | None => default end.

(** [x.get(k, default)] on any value: only a dictionary has the method. *)
Definition py_get (x : value) (k : string) (default : value) : exn + value :=
  match x with
  | VDict d => inr (dict_get d k default)
  | _ => inl (AttributeError ("'" +:+ type_name x +:+ "' object has no attribute 'get'"))
  end.

(** [x[k]] for a string key [k] *)
Definition py_getitem (x : value) (k : string) : exn + value :=
  match x with
  | VDict d => match dict_lookup d k with
               | Some v => inr v
               | None => inl (KeyError k)
               end
  | VStr _ => inl (TypeError "string indices must be integers, not 'str'")
  | VList _ => inl (TypeError "list indices must be integers or slices, not str")
  | _ => inl (TypeError ("'" +:+ type_name x +:+ "' object is not subscriptable"))
  end.

(** [for x in v] *)
Definition py_iter (rt : Runtime) (v : value) : exn + list value :=
  match v with
  | VList xs => inr xs
  | VDict kvs => inr (map fst kvs)
  | VStr s => inr (map VStr (str_chars rt s))
  | _ => inl (TypeError ("'" +:+ type_name v +:+ "' object is not iterable"))
  end.

(** [len(v)] *)
Definition py_len (rt : Runtime) (v : value) : exn + nat :=
  match v with
  | VList xs => inr (length xs)
  | VDict kvs => inr (length kvs)
  | VStr s => inr (length (str_chars rt s))
  | _ => inl (TypeError ("object of type '" +:+ type_name v +:+ "' has no len()"))
  end.

(** The float of an integer below 2^53 in absolute value. *)
Definition float_of_Z (n : Z) : float :=
  match n with
  | Z0 => 0%float
  | Zpos p => PrimFloat.of_uint63 (Uint63.of_Z (Zpos p))
  | Zneg p => PrimFloat.opp (PrimFloat.of_uint63 (Uint63.of_Z (Zpos p)))
  end.

(** [v < n] for an integer constant [n] that a float represents exactly
    (here always 90) *)
Definition py_lt (v : value) (n : Z) : exn + bool :=
  match v with
  | VInt m => inr (m <? n)%Z
  | VBool b => inr ((if b then 1 else 0) <? n)%Z
  | VFloat f => inr (PrimFloat.ltb f (float_of_Z n))
  | _ => inl (TypeError ("'<' not supported between instances of '"
                           +:+ type_name v +:+ "' and 'int'"))
  end.

(** [v >= n] *)
Definition py_ge (v : value) (n : Z) : exn + bool :=
  match v with
  | VInt m => inr (n <=? m)%Z
  | VBool b => inr (n <=? (if b then 1 else 0))%Z
  | VFloat f => inr (PrimFloat.leb (float_of_Z n) f)
  | _ => inl (TypeError ("'>=' not supported between instances of '"
                           +:+ type_name v +:+ "' and 'int'"))
  end.

(** [f"{v}"] *)
Definition py_format (rt : Runtime) (v : value) : string :=
  match v with
  | VNone => "None"
  | VBool b => if b then "True" else "False"
  | VInt n => pretty n
  | VStr s => s
  | _ => py_repr rt v
  end.

(** [hash(v)] fails on lists and dictionaries. *)
Definition hashable (v : value) : exn + value :=
  match v with
  | VList _ | VDict _ => inl (TypeError ("unhashable type: '" +:+ type_name v +:+ "'"))
  | _ => inr v
  end.

(** Two hashable values are the same dictionary key: equal strings, equal
    integers (a bool counts as 0 or 1), [None] with itself. *)
Definition key_eq (rt : Runtime) (a b : value) : bool :=
  let int_of v := match v with
                  | VInt n => Some n
                  | VBool b => Some (if b then 1 else 0)%Z
                  | _ => None
                  end in
  match a, b with
  | VStr s, VStr t => String.eqb s t
  | VNone, VNone => true
  | VFloat _, (VInt _ | VBool _ | VFloat _) | (VInt _ | VBool _), VFloat _ =>
      float_key_eq rt a b
  | _, _ => match int_of a, int_of b with
            | Some n, Some m => (n =? m)%Z
            | _, _ => false
            end
  end.

(** [d[k] = v] for any key; the key object already present is kept. *)
Fixpoint pydict_set (rt : Runtime) (d : Dict) (k v : value) : Dict :=
  match d with
  | [] => [(k, v)]
  | (k', v') :: d' =>
      if key_eq rt k' k then (k', v) :: d' else (k', v') :: pydict_set rt d' k v
  end.

(** One element of the sequence given to [dict.update]: it must itself
    be a sequence of two items. *)
Definition update_item (rt : Runtime) (i : nat) (item : value) : exn + (value * value) :=
  let items :=
    match item with
    | VList xs => inr xs
    | VDict kvs => inr (map fst kvs)
    | VStr s => inr (map VStr (str_chars rt s))
    | _ => inl (TypeError ("cannot convert dictionary update sequence element #"
                             +:+ pretty i +:+ " to a sequence"))
    end in
  match items with
  | inl e => inl e
  | inr [k; v] => match hashable k with
                  | inl e => inl e
                  | inr k => inr (k, v)
                  end
  | inr xs => inl (ValueError ("dictionary update sequence element #" +:+ pretty i
                                 +:+ " has length " +:+ pretty (length xs)
                                 +:+ "; 2 is required"))
  end.

(** The pairs are inserted one at a time: the pairs before a malformed
    element stay inserted when the update raises. *)
Fixpoint update_pairs (rt : Runtime) (i : nat) (d : Dict) (items : list value)
  : Dict * option exn :=
  match items with
  | [] => (d, None)
  | item :: rest =>
      match update_item rt i item with
      | inl e => (d, Some e)
      | inr (k, v) => update_pairs rt (S i) (pydict_set rt d k v) rest
      end
  end.

(** [d.update(v)]: the dictionary afterwards, and the exception if any. *)
Definition pydict_update (rt : Runtime) (d : Dict) (v : value) : Dict * option exn :=
  match v with
  | VDict kvs => (fold_left (fun acc kv => pydict_set rt acc (fst kv) (snd kv)) kvs d, None)
  | VList xs => update_pairs rt 0 d xs
  | VStr s => update_pairs rt 0 d (map VStr (str_chars rt s))
  | _ => (d, Some (TypeError ("'" +:+ type_name v +:+ "' object is not iterable")))
  end.

(** ** Data model ([src/models.py]) *)

Inductive Priority : Type := LOW | MEDIUM | HIGH | CRITICAL.

Definition Priority_value (p : Priority) : string :=
  match p with
  | LOW => "low"
  | MEDIUM => "medium"
  | HIGH => "high"
  | CRITICAL => "critical"
  end.

Inductive Status : Type := PENDING | RESOLVED | ESCALATED | CLOSED.

Definition Status_value (s : Status) : string :=
  match s with
  | PENDING => "pending"
  | RESOLVED => "resolved"
  | ESCALATED => "escalated"
  | CLOSED => "closed"
  end.

Inductive StageMode : Type :=
  | ENTRY_ONLY
  | DETERMINISTIC
  | NON_DETERMINISTIC
  | HUMAN_INTERACTION
  | OUTPUT_ONLY.

Definition StageMode_value (m : StageMode) : string :=
  match m with
  | ENTRY_ONLY => "entry_only"
  | DETERMINISTIC => "deterministic"
  | NON_DETERMINISTIC => "non_deterministic"
  | HUMAN_INTERACTION => "human_interaction"
  | OUTPUT_ONLY => "output_only"
  end.

(** The caller supplies [ticket_id]; the default factory of the source
    draws a fresh UUID. *)
Record InputPayload : Type := {
  customer_name : string;
  email : string;
  query : string;
  priority : Priority;
  ticket_id : string
}.

(** [InputPayload.dict()] *)
Definition InputPayload_dict (p : InputPayload) : Dict :=
  [ "customer_name" :-> VStr (customer_name p);
    "email" :-> VStr (email p);
    "query" :-> VStr (query p);
    "priority" :-> VStr (Priority_value (priority p));
    "ticket_id" :-> VStr (ticket_id p) ].

Module AbilityExecution.
Record t : Type := {
    ability_name : string;
    server_used : string;
    execution_time : nat;
    status : string;
    result : option Dict;
    error : option string
}.
End AbilityExecution.
Abbreviation AbilityExecution := AbilityExecution.t.

Module StageLog.
Record t : Type := {
    stage_name : string;
    stage_id : nat;
    emoji : string;
    mode : StageMode;
    abilities_executed : list AbilityExecution;
    start_time : nat;
    end_time : option nat;
    success : bool;
    error : option string
}.
End StageLog.
Abbreviation StageLog := StageLog.t.

Record CustomerSupportState : Type := {
  (* Original input *)
  input_payload : InputPayload;
  (* Processing state *)
  current_stage : nat;
  processing_complete : bool;
  (* Extracted and processed data *)
  extracted_entities : Dict;
  normalized_fields : Dict;
  enriched_data : Dict;
  knowledge_base_results : value;
  (* Decision making *)
  solution_scores : Dict;
  escalation_needed : value;
  escalation_reason : value;
  confidence_score : value;
  (* Human interaction *)
  clarification_requested : bool;
  clarification_question : value;
  human_response : value;
  (* Output generation *)
  generated_response : value;
  api_calls_executed : value;
  notifications_sent : value;
  (* Metadata *)
  ticket_status : Status;
  stage_logs : list StageLog;
  created_at : nat;
  updated_at : nat
}.

Module OutputPayload.
Record t : Type := {
    ticket_id : string;
    status : Status;
    response : value;
    confidence_score : value;
    escalation_reason : value;
    stage_logs : list StageLog;
    final_payload : CustomerSupportState;
    processing_time : nat;
    agent_name : string;
    agent_version : string;
    completion_time : nat
}.
End OutputPayload.
Abbreviation OutputPayload := OutputPayload.t.

(** *** Assignments to the fields of the state

    [set_f x s] is the state after [state.f = x]. *)

Definition set_current_stage (x : nat) (s : CustomerSupportState) : CustomerSupportState :=
  {| input_payload := input_payload s; current_stage := x;
     processing_complete := processing_complete s;
     extracted_entities := extracted_entities s;
     normalized_fields := normalized_fields s; enriched_data := enriched_data s;
     knowledge_base_results := knowledge_base_results s;
     solution_scores := solution_scores s; escalation_needed := escalation_needed s;
     escalation_reason := escalation_reason s; confidence_score := confidence_score s;
     clarification_requested := clarification_requested s;
     clarification_question := clarification_question s;
     human_response := human_response s; generated_response := generated_response s;
     api_calls_executed := api_calls_executed s;
     notifications_sent := notifications_sent s; ticket_status := ticket_status s;
     stage_logs := stage_logs s; created_at := created_at s;
     updated_at := updated_at s |}.

#[global] Arguments set_current_stage x s /.

Definition set_processing_complete (x : bool) (s : CustomerSupportState) : CustomerSupportState :=
  {| input_payload := input_payload s; current_stage := current_stage s;
     processing_complete := x; extracted_entities := extracted_entities s;
     normalized_fields := normalized_fields s; enriched_data := enriched_data s;
     knowledge_base_results := knowledge_base_results s;
     solution_scores := solution_scores s; escalation_needed := escalation_needed s;
     escalation_reason := escalation_reason s; confidence_score := confidence_score s;
     clarification_requested := clarification_requested s;
     clarification_question := clarification_question s;
     human_response := human_response s; generated_response := generated_response s;
     api_calls_executed := api_calls_executed s;
     notifications_sent := notifications_sent s; ticket_status := ticket_status s;
     stage_logs := stage_logs s; created_at := created_at s;
     updated_at := updated_at s |}.

#[global] Arguments set_processing_complete x s /.

Definition set_extracted_entities (x : Dict) (s : CustomerSupportState) : CustomerSupportState :=
  {| input_payload := input_payload s; current_stage := current_stage s;
     processing_complete := processing_complete s; extracted_entities := x;
     normalized_fields := normalized_fields s; enriched_data := enriched_data s;
     knowledge_base_results := knowledge_base_results s;
     solution_scores := solution_scores s; escalation_needed := escalation_needed s;
     escalation_reason := escalation_reason s; confidence_score := confidence_score s;
     clarification_requested := clarification_requested s;
     clarification_question := clarification_question s;
     human_response := human_response s; generated_response := generated_response s;
     api_calls_executed := api_calls_executed s;
     notifications_sent := notifications_sent s; ticket_status := ticket_status s;
     stage_logs := stage_logs s; created_at := created_at s;
     updated_at := updated_at s |}.

#[global] Arguments set_extracted_entities x s /.

Definition set_normalized_fields (x : Dict) (s : CustomerSupportState) : CustomerSupportState :=
  {| input_payload := input_payload s; current_stage := current_stage s;
     processing_complete := processing_complete s;
     extracted_entities := extracted_entities s; normalized_fields := x;
     enriched_data := enriched_data s;
     knowledge_base_results := knowledge_base_results s;
     solution_scores := solution_scores s; escalation_needed := escalation_needed s;
     escalation_reason := escalation_reason s; confidence_score := confidence_score s;
     clarification_requested := clarification_requested s;
     clarification_question := clarification_question s;
     human_response := human_response s; generated_response := generated_response s;
     api_calls_executed := api_calls_executed s;
     notifications_sent := notifications_sent s; ticket_status := ticket_status s;
     stage_logs := stage_logs s; created_at := created_at s;
     updated_at := updated_at s |}.

#[global] Arguments set_normalized_fields x s /.

Definition set_enriched_data (x : Dict) (s : CustomerSupportState) : CustomerSupportState :=
  {| input_payload := input_payload s; current_stage := current_stage s;
     processing_complete := processing_complete s;
     extracted_entities := extracted_entities s;
     normalized_fields := normalized_fields s; enriched_data := x;
     knowledge_base_results := knowledge_base_results s;
     solution_scores := solution_scores s; escalation_needed := escalation_needed s;
     escalation_reason := escalation_reason s; confidence_score := confidence_score s;
     clarification_requested := clarification_requested s;
     clarification_question := clarification_question s;
     human_response := human_response s; generated_response := generated_response s;
     api_calls_executed := api_calls_executed s;
     notifications_sent := notifications_sent s; ticket_status := ticket_status s;
     stage_logs := stage_logs s; created_at := created_at s;
     updated_at := updated_at s |}.

#[global] Arguments set_enriched_data x s /.

Definition set_knowledge_base_results (x : value) (s : CustomerSupportState) : CustomerSupportState :=
  {| input_payload := input_payload s; current_stage := current_stage s;
     processing_complete := processing_complete s;
     extracted_entities := extracted_entities s;
     normalized_fields := normalized_fields s; enriched_data := enriched_data s;
     knowledge_base_results := x; solution_scores := solution_scores s;
     escalation_needed := escalation_needed s;
     escalation_reason := escalation_reason s; confidence_score := confidence_score s;
     clarification_requested := clarification_requested s;
     clarification_question := clarification_question s;
     human_response := human_response s; generated_response := generated_response s;
     api_calls_executed := api_calls_executed s;
     notifications_sent := notifications_sent s; ticket_status := ticket_status s;
     stage_logs := stage_logs s; created_at := created_at s;
     updated_at := updated_at s |}.

#[global] Arguments set_knowledge_base_results x s /.

Definition set_solution_scores (x : Dict) (s : CustomerSupportState) : CustomerSupportState :=
  {| input_payload := input_payload s; current_stage := current_stage s;
     processing_complete := processing_complete s;
     extracted_entities := extracted_entities s;
     normalized_fields := normalized_fields s; enriched_data := enriched_data s;
     knowledge_base_results := knowledge_base_results s; solution_scores := x;
     escalation_needed := escalation_needed s;
     escalation_reason := escalation_reason s; confidence_score := confidence_score s;
     clarification_requested := clarification_requested s;
     clarification_question := clarification_question s;
     human_response := human_response s; generated_response := generated_response s;
     api_calls_executed := api_calls_executed s;
     notifications_sent := notifications_sent s; ticket_status := ticket_status s;
     stage_logs := stage_logs s; created_at := created_at s;
     updated_at := updated_at s |}.

#[global] Arguments set_solution_scores x s /.

Definition set_escalation_needed (x : value) (s : CustomerSupportState) : CustomerSupportState :=
  {| input_payload := input_payload s; current_stage := current_stage s;
     processing_complete := processing_complete s;
     extracted_entities := extracted_entities s;
     normalized_fields := normalized_fields s; enriched_data := enriched_data s;
     knowledge_base_results := knowledge_base_results s;
     solution_scores := solution_scores s; escalation_needed := x;
     escalation_reason := escalation_reason s; confidence_score := confidence_score s;
     clarification_requested := clarification_requested s;
     clarification_question := clarification_question s;
     human_response := human_response s; generated_response := generated_response s;
     api_calls_executed := api_calls_executed s;
     notifications_sent := notifications_sent s; ticket_status := ticket_status s;
     stage_logs := stage_logs s; created_at := created_at s;
     updated_at := updated_at s |}.

#[global] Arguments set_escalation_needed x s /.

Definition set_escalation_reason (x : value) (s : CustomerSupportState) : CustomerSupportState :=
  {| input_payload := input_payload s; current_stage := current_stage s;
     processing_complete := processing_complete s;
     extracted_entities := extracted_entities s;
     normalized_fields := normalized_fields s; enriched_data := enriched_data s;
     knowledge_base_results := knowledge_base_results s;
     solution_scores := solution_scores s; escalation_needed := escalation_needed s;
     escalation_reason := x; confidence_score := confidence_score s;
     clarification_requested := clarification_requested s;
     clarification_question := clarification_question s;
     human_response := human_response s; generated_response := generated_response s;
     api_calls_executed := api_calls_executed s;
     notifications_sent := notifications_sent s; ticket_status := ticket_status s;
     stage_logs := stage_logs s; created_at := created_at s;
     updated_at := updated_at s |}.

#[global] Arguments set_escalation_reason x s /.

Definition set_confidence_score (x : value) (s : CustomerSupportState) : CustomerSupportState :=
  {| input_payload := input_payload s; current_stage := current_stage s;
     processing_complete := processing_complete s;
     extracted_entities := extracted_entities s;
     normalized_fields := normalized_fields s; enriched_data := enriched_data s;
     knowledge_base_results := knowledge_base_results s;
     solution_scores := solution_scores s; escalation_needed := escalation_needed s;
     escalation_reason := escalation_reason s; confidence_score := x;
     clarification_requested := clarification_requested s;
     clarification_question := clarification_question s;
     human_response := human_response s; generated_response := generated_response s;
     api_calls_executed := api_calls_executed s;
     notifications_sent := notifications_sent s; ticket_status := ticket_status s;
     stage_logs := stage_logs s; created_at := created_at s;
     updated_at := updated_at s |}.

#[global] Arguments set_confidence_score x s /.

Definition set_clarification_requested (x : bool) (s : CustomerSupportState) : CustomerSupportState :=
  {| input_payload := input_payload s; current_stage := current_stage s;
     processing_complete := processing_complete s;
     extracted_entities := extracted_entities s;
     normalized_fields := normalized_fields s; enriched_data := enriched_data s;
     knowledge_base_results := knowledge_base_results s;
     solution_scores := solution_scores s; escalation_needed := escalation_needed s;
     escalation_reason := escalation_reason s; confidence_score := confidence_score s;
     clarification_requested := x; clarification_question := clarification_question s;
     human_response := human_response s; generated_response := generated_response s;
     api_calls_executed := api_calls_executed s;
     notifications_sent := notifications_sent s; ticket_status := ticket_status s;
     stage_logs := stage_logs s; created_at := created_at s;
     updated_at := updated_at s |}.

#[global] Arguments set_clarification_requested x s /.

Definition set_clarification_question (x : value) (s : CustomerSupportState) : CustomerSupportState :=
  {| input_payload := input_payload s; current_stage := current_stage s;
     processing_complete := processing_complete s;
     extracted_entities := extracted_entities s;
     normalized_fields := normalized_fields s; enriched_data := enriched_data s;
     knowledge_base_results := knowledge_base_results s;
     solution_scores := solution_scores s; escalation_needed := escalation_needed s;
     escalation_reason := escalation_reason s; confidence_score := confidence_score s;
     clarification_requested := clarification_requested s;
     clarification_question := x; human_response := human_response s;
     generated_response := generated_response s;
     api_calls_executed := api_calls_executed s;
     notifications_sent := notifications_sent s; ticket_status := ticket_status s;
     stage_logs := stage_logs s; created_at := created_at s;
     updated_at := updated_at s |}.

#[global] Arguments set_clarification_question x s /.

Definition set_human_response (x : value) (s : CustomerSupportState) : CustomerSupportState :=
  {| input_payload := input_payload s; current_stage := current_stage s;
     processing_complete := processing_complete s;
     extracted_entities := extracted_entities s;
     normalized_fields := normalized_fields s; enriched_data := enriched_data s;
     knowledge_base_results := knowledge_base_results s;
     solution_scores := solution_scores s; escalation_needed := escalation_needed s;
     escalation_reason := escalation_reason s; confidence_score := confidence_score s;
     clarification_requested := clarification_requested s;
     clarification_question := clarification_question s; human_response := x;
     generated_response := generated_response s;
     api_calls_executed := api_calls_executed s;
     notifications_sent := notifications_sent s; ticket_status := ticket_status s;
     stage_logs := stage_logs s; created_at := created_at s;
     updated_at := updated_at s |}.

#[global] Arguments set_human_response x s /.

Definition set_generated_response (x : value) (s : CustomerSupportState) : CustomerSupportState :=
  {| input_payload := input_payload s; current_stage := current_stage s;
     processing_complete := processing_complete s;
     extracted_entities := extracted_entities s;
     normalized_fields := normalized_fields s; enriched_data := enriched_data s;
     knowledge_base_results := knowledge_base_results s;
     solution_scores := solution_scores s; escalation_needed := escalation_needed s;
     escalation_reason := escalation_reason s; confidence_score := confidence_score s;
     clarification_requested := clarification_requested s;
     clarification_question := clarification_question s;
     human_response := human_response s; generated_response := x;
     api_calls_executed := api_calls_executed s;
     notifications_sent := notifications_sent s; ticket_status := ticket_status s;
     stage_logs := stage_logs s; created_at := created_at s;
     updated_at := updated_at s |}.

#[global] Arguments set_generated_response x s /.

Definition set_api_calls_executed (x : value) (s : CustomerSupportState) : CustomerSupportState :=
  {| input_payload := input_payload s; current_stage := current_stage s;
     processing_complete := processing_complete s;
     extracted_entities := extracted_entities s;
     normalized_fields := normalized_fields s; enriched_data := enriched_data s;
     knowledge_base_results := knowledge_base_results s;
     solution_scores := solution_scores s; escalation_needed := escalation_needed s;
     escalation_reason := escalation_reason s; confidence_score := confidence_score s;
     clarification_requested := clarification_requested s;
     clarification_question := clarification_question s;
     human_response := human_response s; generated_response := generated_response s;
     api_calls_executed := x; notifications_sent := notifications_sent s;
     ticket_status := ticket_status s; stage_logs := stage_logs s;
     created_at := created_at s; updated_at := updated_at s |}.

#[global] Arguments set_api_calls_executed x s /.

Definition set_notifications_sent (x : value) (s : CustomerSupportState) : CustomerSupportState :=
  {| input_payload := input_payload s; current_stage := current_stage s;
     processing_complete := processing_complete s;
     extracted_entities := extracted_entities s;
     normalized_fields := normalized_fields s; enriched_data := enriched_data s;
     knowledge_base_results := knowledge_base_results s;
     solution_scores := solution_scores s; escalation_needed := escalation_needed s;
     escalation_reason := escalation_reason s; confidence_score := confidence_score s;
     clarification_requested := clarification_requested s;
     clarification_question := clarification_question s;
     human_response := human_response s; generated_response := generated_response s;
     api_calls_executed := api_calls_executed s; notifications_sent := x;
     ticket_status := ticket_status s; stage_logs := stage_logs s;
     created_at := created_at s; updated_at := updated_at s |}.

#[global] Arguments set_notifications_sent x s /.

Definition set_ticket_status (x : Status) (s : CustomerSupportState) : CustomerSupportState :=
  {| input_payload := input_payload s; current_stage := current_stage s;
     processing_complete := processing_complete s;
     extracted_entities := extracted_entities s;
     normalized_fields := normalized_fields s; enriched_data := enriched_data s;
     knowledge_base_results := knowledge_base_results s;
     solution_scores := solution_scores s; escalation_needed := escalation_needed s;
     escalation_reason := escalation_reason s; confidence_score := confidence_score s;
     clarification_requested := clarification_requested s;
     clarification_question := clarification_question s;
     human_response := human_response s; generated_response := generated_response s;
     api_calls_executed := api_calls_executed s;
     notifications_sent := notifications_sent s; ticket_status := x;
     stage_logs := stage_logs s; created_at := created_at s;
     updated_at := updated_at s |}.

#[global] Arguments set_ticket_status x s /.

Definition set_stage_logs (x : list StageLog) (s : CustomerSupportState) : CustomerSupportState :=
  {| input_payload := input_payload s; current_stage := current_stage s;
     processing_complete := processing_complete s;
     extracted_entities := extracted_entities s;
     normalized_fields := normalized_fields s; enriched_data := enriched_data s;
     knowledge_base_results := knowledge_base_results s;
     solution_scores := solution_scores s; escalation_needed := escalation_needed s;
     escalation_reason := escalation_reason s; confidence_score := confidence_score s;
     clarification_requested := clarification_requested s;
     clarification_question := clarification_question s;
     human_response := human_response s; generated_response := generated_response s;
     api_calls_executed := api_calls_executed s;
     notifications_sent := notifications_sent s; ticket_status := ticket_status s;
     stage_logs := x; created_at := created_at s; updated_at := updated_at s |}.

#[global] Arguments set_stage_logs x s /.

Definition set_updated_at (x : nat) (s : CustomerSupportState) : CustomerSupportState :=
  {| input_payload := input_payload s; current_stage := current_stage s;
     processing_complete := processing_complete s;
     extracted_entities := extracted_entities s;
     normalized_fields := normalized_fields s; enriched_data := enriched_data s;
     knowledge_base_results := knowledge_base_results s;
     solution_scores := solution_scores s; escalation_needed := escalation_needed s;
     escalation_reason := escalation_reason s; confidence_score := confidence_score s;
     clarification_requested := clarification_requested s;
     clarification_question := clarification_question s;
     human_response := human_response s; generated_response := generated_response s;
     api_calls_executed := api_calls_executed s;
     notifications_sent := notifications_sent s; ticket_status := ticket_status s;
     stage_logs := stage_logs s; created_at := created_at s; updated_at := x |}.

#[global] Arguments set_updated_at x s /.


(** *** Assignments to the fields of a stage log *)

Definition set_log_abilities_executed (x : list AbilityExecution) (l : StageLog) : StageLog :=
  {| StageLog.stage_name := StageLog.stage_name l;
     StageLog.stage_id := StageLog.stage_id l; StageLog.emoji := StageLog.emoji l;
     StageLog.mode := StageLog.mode l; StageLog.abilities_executed := x;
     StageLog.start_time := StageLog.start_time l;
     StageLog.end_time := StageLog.end_time l; StageLog.success := StageLog.success l;
     StageLog.error := StageLog.error l |}.

#[global] Arguments set_log_abilities_executed x l /.

Definition set_log_end_time (x : option nat) (l : StageLog) : StageLog :=
  {| StageLog.stage_name := StageLog.stage_name l;
     StageLog.stage_id := StageLog.stage_id l; StageLog.emoji := StageLog.emoji l;
     StageLog.mode := StageLog.mode l;
     StageLog.abilities_executed := StageLog.abilities_executed l;
     StageLog.start_time := StageLog.start_time l; StageLog.end_time := x;
     StageLog.success := StageLog.success l; StageLog.error := StageLog.error l |}.

#[global] Arguments set_log_end_time x l /.

Definition set_log_success (x : bool) (l : StageLog) : StageLog :=
  {| StageLog.stage_name := StageLog.stage_name l;
     StageLog.stage_id := StageLog.stage_id l; StageLog.emoji := StageLog.emoji l;
     StageLog.mode := StageLog.mode l;
     StageLog.abilities_executed := StageLog.abilities_executed l;
     StageLog.start_time := StageLog.start_time l;
     StageLog.end_time := StageLog.end_time l; StageLog.success := x;
     StageLog.error := StageLog.error l |}.

#[global] Arguments set_log_success x l /.

Definition set_log_error (x : option string) (l : StageLog) : StageLog :=
  {| StageLog.stage_name := StageLog.stage_name l;
     StageLog.stage_id := StageLog.stage_id l; StageLog.emoji := StageLog.emoji l;
     StageLog.mode := StageLog.mode l;
     StageLog.abilities_executed := StageLog.abilities_executed l;
     StageLog.start_time := StageLog.start_time l;
     StageLog.end_time := StageLog.end_time l; StageLog.success := StageLog.success l;
     StageLog.error := x |}.

#[global] Arguments set_log_error x l /.

(** [CustomerSupportState(input_payload=p)] built at time [t]: every other
    field takes its default. *)
Definition initial_state (p : InputPayload) (t : nat) : CustomerSupportState :=
  {| input_payload := p;
     current_stage := 1;
     processing_complete := false;
     extracted_entities := [];
     normalized_fields := [];
     enriched_data := [];
     knowledge_base_results := VList [];
     solution_scores := [];
     escalation_needed := VBool false;
     escalation_reason := VNone;
     confidence_score := VFloat 0%float;
     clarification_requested := false;
     clarification_question := VNone;
     human_response := VNone;
     generated_response := VNone;
     api_calls_executed := VList [];
     notifications_sent := VList [];
     ticket_status := PENDING;
     stage_logs := [];
     created_at := t;
     updated_at := S t |}.

Definition opt_str (o : option string) : value :=
  match o with Some s => VStr s | None => VNone end.

Definition opt_dict (o : option Dict) : value :=
  match o with Some d => VDict d | None => VNone end.

Definition time_value (t : nat) : value := VInt (Z.of_nat t).

(** [AbilityExecution.dict()] *)
Definition AbilityExecution_dict (a : AbilityExecution) : Dict :=
  [ "ability_name" :-> VStr (AbilityExecution.ability_name a);
    "server_used" :-> VStr (AbilityExecution.server_used a);
    "execution_time" :-> time_value (AbilityExecution.execution_time a);
    "status" :-> VStr (AbilityExecution.status a);
    "result" :-> opt_dict (AbilityExecution.result a);
    "error" :-> opt_str (AbilityExecution.error a) ].

(** [StageLog.dict()] *)
Definition StageLog_dict (l : StageLog) : Dict :=
  [ "stage_name" :-> VStr (StageLog.stage_name l);
    "stage_id" :-> VInt (Z.of_nat (StageLog.stage_id l));
    "emoji" :-> VStr (StageLog.emoji l);
    "mode" :-> VStr (StageMode_value (StageLog.mode l));
    "abilities_executed" :->
      VList (map (fun a => VDict (AbilityExecution_dict a)) (StageLog.abilities_executed l));
    "start_time" :-> time_value (StageLog.start_time l);
    "end_time" :-> match StageLog.end_time l with Some t => time_value t | None => VNone end;
    "success" :-> VBool (StageLog.success l);
    "error" :-> opt_str (StageLog.error l) ].

(** [CustomerSupportState.dict()] *)
Definition CustomerSupportState_dict (s : CustomerSupportState) : Dict :=
  [ "input_payload" :-> VDict (InputPayload_dict (input_payload s));
    "current_stage" :-> VInt (Z.of_nat (current_stage s));
    "processing_complete" :-> VBool (processing_complete s);
    "extracted_entities" :-> VDict (extracted_entities s);
    "normalized_fields" :-> VDict (normalized_fields s);
    "enriched_data" :-> VDict (enriched_data s);
    "knowledge_base_results" :-> knowledge_base_results s;
    "solution_scores" :-> VDict (solution_scores s);
    "escalation_needed" :-> escalation_needed s;
    "escalation_reason" :-> escalation_reason s;
    "confidence_score" :-> confidence_score s;
    "clarification_requested" :-> VBool (clarification_requested s);
    "clarification_question" :-> clarification_question s;
    "human_response" :-> human_response s;
    "generated_response" :-> generated_response s;
    "api_calls_executed" :-> api_calls_executed s;
    "notifications_sent" :-> notifications_sent s;
    "ticket_status" :-> VStr (Status_value (ticket_status s));
    "stage_logs" :-> VList (map (fun l => VDict (StageLog_dict l)) (stage_logs s));
    "created_at" :-> time_value (created_at s);
    "updated_at" :-> time_value (updated_at s) ].

(** ** Providers and the heap *)

(** A client of one remote server.  [aclose_calls] counts the calls of
    [aclose()] on its HTTP connection [self.client]. *)
Module MCPClient.
Record t : Type := {
  server_name : string;
  url : string;
  api_key : string;
  aclose_calls : nat
}.
End MCPClient.
Abbreviation MCPClient := MCPClient.t.

(** [MCPManager]: its dictionary [clients], keyed by server name. *)
Module MCPManager.
Record t : Type := { clients : gmap string MCPClient }.
End MCPManager.
Abbreviation MCPManager := MCPManager.t.

(** The collaborators of the engine: the Python runtime, the language
    model (given the system message and the values interpolated into the
    prompt) and the remote servers (given the server name, the ability
    name, the payload and the time of the call).  The source stands in
    for the servers with canned answers, [_simulate_server_call] below,
    at the place of the HTTP request. *)
Record Env : Type := {
  runtime : Runtime;
  llm_ainvoke : string -> list value -> exn + string;
  server_call : string -> string -> Dict -> nat -> exn + Dict
}.

(** The objects of one agent and one run: the state of the ticket, the
    manager of the providers, the clock, and the list [stage_logs] that
    the dependency-free agent keeps in a local variable of its
    [process_ticket] (the LangGraph engine does not use it). *)
Record Heap : Type := {
  state : CustomerSupportState;
  mcp_manager : MCPManager;
  clock : nat;
  local_stage_logs : list StageLog
}.

Definition with_state (s : CustomerSupportState) (h : Heap) : Heap :=
  {| state := s; mcp_manager := mcp_manager h; clock := clock h;
     local_stage_logs := local_stage_logs h |}.
#[global] Arguments with_state s h /.

Definition tick (h : Heap) : Heap :=
  {| state := state h; mcp_manager := mcp_manager h; clock := S (clock h);
     local_stage_logs := local_stage_logs h |}.
#[global] Arguments tick h /.

(** ** The monad of stage code *)

Inductive outcome (A : Type) : Type :=
  | Return (a : A)
  | Raise (e : exn).
#[global] Arguments Return {A} a.
#[global] Arguments Raise {A} e.

Definition M (A : Type) : Type := Heap -> outcome A * Heap.

Definition ret {A} (a : A) : M A := fun h => (Return a, h).

Definition bind {A B} (c : M A) (k : A -> M B) : M B :=
  fun h => match c h with
           | (Return a, h') => k a h'
           | (Raise e, h') => (Raise e, h')
           end.

Definition raise {A} (e : exn) : M A := fun h => (Raise e, h).

Notation "'let*' x ':=' c 'in' k" := (bind c (fun x => k))
  (at level 10, x name, c at level 100, k at level 200, only parsing).
Notation "c ;; k" := (bind c (fun _ => k))
  (at level 100, k at level 200, right associativity, only parsing).

(** [try: body except Exception as e: handler(e)] *)
Definition try_except {A} (body : M A) (handler : exn -> M A) : M A :=
  fun h => match body h with
           | (Raise e, h') => handler e h'
           | r => r
           end.

(** [try: body finally: final] *)
Definition try_finally {A} (body : M A) (final : M unit) : M A :=
  fun h => match body h with
           | (r, h') => match final h' with
                        | (Return _, h'') => (r, h'')
                        | (Raise e, h'') => (Raise e, h'')
                        end
           end.

(** A computation on values that touches no object. *)
Definition lift {A} (r : exn + A) : M A :=
  match r with
  | inl e => raise e
  | inr a => ret a
  end.

Definition get_state : M CustomerSupportState := fun h => (Return (state h), h).

Definition modify_state (f : CustomerSupportState -> CustomerSupportState) : M unit :=
  fun h => (Return tt, with_state (f (state h)) h).

(** [datetime.now()] *)
Definition now : M nat := fun h => (Return (clock h), tick h).

(** The heap after a computation, and its outcome. *)
Definition exec {A} (c : M A) (h : Heap) : Heap := snd (c h).
Definition eval {A} (c : M A) (h : Heap) : outcome A := fst (c h).

(** ** Ability dispatch ([src/mcp_client.py]) *)

Fixpoint table_get (responses : list (string * Dict)) (k : string) (default : Dict) : Dict :=
  match responses with
  | [] => default
  | (k', d) :: rest => if String.eqb k k' then d else table_get rest k default
  end.

(** [v.lower()], [v.upper()]: methods of [str] only. *)
Definition py_lower (rt : Runtime) (v : value) : exn + string :=
  match v with
  | VStr s => inr (str_lower rt s)
  | _ => inl (AttributeError ("'" +:+ type_name v +:+ "' object has no attribute 'lower'"))
  end.

Definition py_upper (rt : Runtime) (v : value) : exn + string :=
  match v with
  | VStr s => inr (str_upper rt s)
  | _ => inl (AttributeError ("'" +:+ type_name v +:+ "' object has no attribute 'upper'"))
  end.

Definition ability_not_found : Dict :=
  [ "status" :-> VStr "ability_not_found"; "result" :-> VNone ].

Definition unknown_server : Dict :=
  [ "status" :-> VStr "unknown_server"; "result" :-> VNone ].

(** The canned answers of the ATLAS server.  Python builds the whole
    table before it looks the ability up. *)
Definition atlas_responses (payload : Dict) : list (string * Dict) :=
  [ ("extract_entities",
      [ "entities" :-> VDict
          [ "product" :-> VStr "User Account";
            "issue_type" :-> VStr "Authentication";
            "urgency" :-> VStr "High";
            "account_id" :-> VStr "user_12345" ] ]);
    ("enrich_records",
      [ "sla_info" :-> VDict
          [ "response_time" :-> VStr "2 hours";
            "resolution_time" :-> VStr "24 hours" ];
        "historical_tickets" :-> VList
          [ VDict [ "ticket_id" :-> VStr "T-001"; "issue" :-> VStr "Password reset";
                    "resolved" :-> VBool true ];
            VDict [ "ticket_id" :-> VStr "T-002"; "issue" :-> VStr "Account locked";
                    "resolved" :-> VBool true ] ] ]);
    ("clarify_question",
      [ "question" :-> VStr
          "Have you tried using the 'Forgot Password' feature on the login page?" ]);
    ("extract_answer",
      [ "answer" :-> VStr
          "Yes, I tried the forgot password feature but I'm not receiving the reset email." ]);
    ("knowledge_base_search",
      [ "results" :-> VList
          [ VDict [ "title" :-> VStr "Email delivery issues";
                    "content" :-> VStr
                      "Check spam folder, verify email address, contact support if no email received within 10 minutes";
                    "relevance" :-> VFloat 0.95%float ];
            VDict [ "title" :-> VStr "Password reset troubleshooting";
                    "content" :-> VStr
                      "Common issues include blocked emails, incorrect email address, or account lockout";
                    "relevance" :-> VFloat 0.89%float ] ] ]);
    ("escalation_decision",
      [ "escalate" :-> VBool false;
        "reason" :-> VStr "Standard troubleshooting available" ]);
    ("update_ticket",
      [ "ticket_updated" :-> VBool true; "new_status" :-> VStr "In Progress" ]);
    ("close_ticket",
      [ "ticket_closed" :-> VBool true; "closure_reason" :-> VStr "Resolved" ]);
    ("execute_api_calls",
      [ "api_calls" :-> VList
          [ VDict [ "api" :-> VStr "reset_password_email"; "status" :-> VStr "triggered";
                    "response" :-> VStr "Email sent" ];
            VDict [ "api" :-> VStr "unlock_account"; "status" :-> VStr "success";
                    "response" :-> VStr "Account unlocked" ] ] ]);
    ("trigger_notifications",
      [ "notifications" :-> VList
          [ VDict [ "type" :-> VStr "email";
                    "recipient" :-> dict_get payload "email" (VStr "");
                    "status" :-> VStr "sent" ];
            VDict [ "type" :-> VStr "sms";
                    "recipient" :-> dict_get payload "phone" (VStr "");
                    "status" :-> VStr "sent" ] ] ]) ].

(** [MCPClient._atlas_ability_response] *)
Definition _atlas_ability_response (ability_name : string) (payload : Dict) : Dict :=
  table_get (atlas_responses payload) ability_name ability_not_found.

Definition response_text (rt : Runtime) (payload : Dict) : string :=
  "Dear " +:+ py_format rt (dict_get payload "customer_name" (VStr "Customer")) +:+ ",

Thank you for contacting our support team regarding your login issue.

I understand you're having trouble accessing your account due to password authentication issues. Based on our investigation, I've taken the following steps to resolve this:

1. Unlocked your account (it appears to have been temporarily locked due to multiple failed login attempts)
2. Sent a new password reset email to your registered address
3. Verified that our email system is functioning properly

Please check your inbox (and spam folder) for the password reset email. If you don't receive it within 10 minutes, please reply to this ticket and we'll explore alternative solutions.

For immediate assistance with urgent transactions, you can also call our priority support line at 1-800-SUPPORT.

Best regards,
Langie - Customer Support Agent
Ticket ID: " +:+ py_format rt (dict_get payload "ticket_id" (VStr "Unknown")).

(** The canned answers of the COMMON server, built at time [t].  The
    entry of [normalize_fields] calls string methods on fields of the
    payload, and raises when a field is not a string. *)
Definition common_responses (rt : Runtime) (t : nat) (payload : Dict)
  : exn + list (string * Dict) :=
  match py_lower rt (dict_get payload "email" (VStr "")) with
  | inl e => inl e
  | inr lowered =>
      match py_upper rt (dict_get payload "priority" (VStr "")) with
      | inl e => inl e
      | inr upper_priority =>
          inr [ ("parse_request_text",
                  [ "structured_data" :-> VDict
                      [ "issue_category" :-> VStr "Authentication";
                        "priority_level" :-> VStr "High";
                        "keywords" :-> VList [ VStr "login"; VStr "password"; VStr "incorrect";
                                               VStr "urgent"; VStr "transaction" ];
                        "sentiment" :-> VStr "frustrated" ] ]);
                ("normalize_fields",
                  [ "normalized" :-> VDict
                      [ "email" :-> VStr (str_strip rt lowered);
                        "priority" :-> VStr upper_priority;
                        "timestamp" :-> VStr (isoformat rt t) ] ]);
                ("add_flags_calculations",
                  [ "flags" :-> VDict
                      [ "high_priority" :-> VBool true;
                        "sla_risk" :-> VBool false;
                        "escalation_score" :-> VInt 25 ] ]);
                ("solution_evaluation",
                  [ "solutions" :-> VList
                      [ VDict [ "solution" :-> VStr "Send password reset email";
                                "score" :-> VInt 85 ];
                        VDict [ "solution" :-> VStr "Unlock account manually";
                                "score" :-> VInt 92 ];
                        VDict [ "solution" :-> VStr "Escalate to security team";
                                "score" :-> VInt 40 ] ];
                    "best_score" :-> VInt 92 ]);
                ("response_generation",
                  [ "response" :-> VStr (response_text rt payload) ]) ]
      end
  end.

(** [MCPClient._common_ability_response] *)
Definition _common_ability_response (rt : Runtime) (t : nat) (ability_name : string)
    (payload : Dict) : exn + Dict :=
  match common_responses rt t payload with
  | inl e => inl e
  | inr responses => inr (table_get responses ability_name ability_not_found)
  end.

(** [MCPClient._simulate_server_call], for the client of [server_name] *)
Definition _simulate_server_call (rt : Runtime) (server_name ability_name : string)
    (payload : Dict) (t : nat) : exn + Dict :=
  if String.eqb server_name "ATLAS" then inr (_atlas_ability_response ability_name payload)
  else if String.eqb server_name "COMMON" then _common_ability_response rt t ability_name payload
  else inr unknown_server.

(** The environment in which the servers are the simulation of the source. *)
Definition simulated (rt : Runtime) (llm : string -> list value -> exn + string) : Env :=
  {| runtime := rt; llm_ainvoke := llm; server_call := _simulate_server_call rt |}.

(** [MCPClient.execute_ability]: the call of the server takes place at a
    later reading of the clock than [start_time]. *)
Definition MCPClient_execute_ability (env : Env) (self : MCPClient)
    (ability_name : string) (payload : Dict) : M AbilityExecution :=
  let* start_time := now in
  try_except
    (let* t := now in
     let* response := lift (server_call env (MCPClient.server_name self) ability_name payload t) in
     ret {| AbilityExecution.ability_name := ability_name;
            AbilityExecution.server_used := MCPClient.server_name self;
            AbilityExecution.execution_time := start_time;
            AbilityExecution.status := "success";
            AbilityExecution.result := Some response;
            AbilityExecution.error := None |})
    (fun e =>
     ret {| AbilityExecution.ability_name := ability_name;
            AbilityExecution.server_used := MCPClient.server_name self;
            AbilityExecution.execution_time := start_time;
            AbilityExecution.status := "error";
            AbilityExecution.result := None;
            AbilityExecution.error := Some (str_exn e) |}).

(** [MCPManager.__init__], given the two server configurations *)
Definition MCPManager_init (atlas_config common_config : string * string) : MCPManager :=
  {| MCPManager.clients :=
       <["ATLAS" := {| MCPClient.server_name := "ATLAS";
                       MCPClient.url := fst atlas_config;
                       MCPClient.api_key := snd atlas_config;
                       MCPClient.aclose_calls := 0 |}]>
       (<["COMMON" := {| MCPClient.server_name := "COMMON";
                         MCPClient.url := fst common_config;
                         MCPClient.api_key := snd common_config;
                         MCPClient.aclose_calls := 0 |}]> ∅) |}.

(** [MCPManager.execute_ability] *)
Definition MCPManager_execute_ability (env : Env) (server_name ability_name : string)
    (payload : Dict) : M AbilityExecution :=
  fun h =>
    match MCPManager.clients (mcp_manager h) !! server_name with
    | None =>
        (let* t := now in
         ret {| AbilityExecution.ability_name := ability_name;
                AbilityExecution.server_used := server_name;
                AbilityExecution.execution_time := t;
                AbilityExecution.status := "error";
                AbilityExecution.result := None;
                AbilityExecution.error := Some ("Unknown server: " +:+ server_name) |}) h
    | Some client => MCPClient_execute_ability env client ability_name payload h
    end.

Definition aclose (c : MCPClient) : MCPClient :=
  {| MCPClient.server_name := MCPClient.server_name c;
     MCPClient.url := MCPClient.url c;
     MCPClient.api_key := MCPClient.api_key c;
     MCPClient.aclose_calls := S (MCPClient.aclose_calls c) |}.

(** [MCPManager.close]: [aclose()] on the connection of every client *)
Definition MCPManager_close : M unit :=
  fun h =>
    (Return tt,
     {| state := state h;
        mcp_manager := {| MCPManager.clients := aclose <$> MCPManager.clients (mcp_manager h) |};
        clock := clock h;
        local_stage_logs := local_stage_logs h |}).

(** ** Code shared by the two agents *)

Section Shared.

Variable env : Env.

(** [d.update(v)] on a dictionary field of the state, mutated in place. *)
Definition update_field (get : CustomerSupportState -> Dict)
    (set : Dict -> CustomerSupportState -> CustomerSupportState) (v : value) : M unit :=
  let* s := get_state in
  let (d, raised) := pydict_update (runtime env) (get s) v in
  modify_state (set d);;
  match raised with
  | Some e => raise e
  | None => ret tt
  end.

(** [{sol["solution"]: sol["score"] for sol in solutions}], the
    solutions already listed *)
Fixpoint score_table (solutions : list value) (acc : Dict) : exn + Dict :=
  match solutions with
  | [] => inr acc
  | sol :: rest =>
      match py_getitem sol "solution" with
      | inl e => inl e
      | inr k =>
          match py_getitem sol "score" with
          | inl e => inl e
          | inr v =>
              match hashable k with
              | inl e => inl e
              | inr k => score_table rest (pydict_set (runtime env) acc k v)
              end
          end
      end
  end.

Definition solution_table (solutions : value) : exn + Dict :=
  match py_iter (runtime env) solutions with
  | inl e => inl e
  | inr sols => score_table sols []
  end.

(** Validation of the output record (pydantic) *)

(** A field declared [Optional[str]] *)
Definition validate_optional_str (field : string) (v : value) : exn + value :=
  match v with
  | VNone | VStr _ => inr v
  | _ => inl (ValidationError (field +:+ ": Input should be a valid string"))
  end.

(** A field declared [float]; the stored number is kept as it was given. *)
Definition validate_float (field : string) (v : value) : exn + value :=
  match v with
  | VInt _ | VFloat _ => inr v
  | VBool _ | VStr _ =>
      if lax_float (runtime env) v then inr v
      else inl (ValidationError (field +:+ ": Input should be a valid number"))
  | _ => inl (ValidationError (field +:+ ": Input should be a valid number"))
  end.

(** [OutputPayload(...)], with the arguments that the two agents take
    from the final state *)
Definition make_output (p : InputPayload) (final_state : CustomerSupportState)
    (logs : list StageLog) (processing_time completion_time : nat) : exn + OutputPayload :=
  match validate_optional_str "response" (generated_response final_state) with
  | inl e => inl e
  | inr response =>
      match validate_float "confidence_score" (confidence_score final_state) with
      | inl e => inl e
      | inr score =>
          match validate_optional_str "escalation_reason" (escalation_reason final_state) with
          | inl e => inl e
          | inr reason =>
              inr {| OutputPayload.ticket_id := ticket_id p;
                     OutputPayload.status := ticket_status final_state;
                     OutputPayload.response := response;
                     OutputPayload.confidence_score := score;
                     OutputPayload.escalation_reason := reason;
                     OutputPayload.stage_logs := logs;
                     OutputPayload.final_payload := final_state;
                     OutputPayload.processing_time := processing_time;
                     OutputPayload.agent_name := "Langie";
                     OutputPayload.agent_version := "1.0.0";
                     OutputPayload.completion_time := completion_time |}
          end
      end
  end.

End Shared.

(** ** The LangGraph engine ([src/langgraph_agent.py]) *)

Module LangGraphCustomerSupportAgent.
Section Agent.

Variable env : Env.

(** [_log_stage_start]: the new log is appended to [state.stage_logs];
    the result stands for the object [stage_log], by its position. *)
Definition _log_stage_start (stage_name : string) (stage_id : nat) (emoji : string)
    (mode : StageMode) : M nat :=
  let* t := now in
  let stage_log :=
    {| StageLog.stage_name := stage_name;
       StageLog.stage_id := stage_id;
       StageLog.emoji := emoji;
       StageLog.mode := mode;
       StageLog.abilities_executed := [];
       StageLog.start_time := t;
       StageLog.end_time := None;
       StageLog.success := true;
       StageLog.error := None |} in
  let* s := get_state in
  modify_state (fun s => set_stage_logs (stage_logs s ++ [stage_log]) s);;
  modify_state (set_current_stage stage_id);;
  ret (length (stage_logs s)).

(** A mutation of the object [stage_log]. *)
Definition modify_log (stage_log : nat) (f : StageLog -> StageLog) : M unit :=
  modify_state (fun s => set_stage_logs (alter f stage_log (stage_logs s)) s).

(** [_log_stage_complete]; [if error:] holds for a non-empty text. *)
Definition _log_stage_complete (stage_log : nat) (success : bool) (error : option string)
  : M unit :=
  let* t := now in
  modify_log stage_log (set_log_end_time (Some t));;
  modify_log stage_log (set_log_success success);;
  if truthy (opt_str error) then modify_log stage_log (set_log_error error) else ret tt.

(** [_execute_internal_ability] *)
Definition _execute_internal_ability (ability_name : string) (s : CustomerSupportState)
  : Dict :=
  if String.eqb ability_name "accept_payload" then
    [ "status" :-> VStr "payload_accepted";
      "ticket_id" :-> VStr (ticket_id (input_payload s)) ]
  else if String.eqb ability_name "store_answer" then [ "status" :-> VStr "answer_stored" ]
  else if String.eqb ability_name "store_data" then [ "status" :-> VStr "data_stored" ]
  else if String.eqb ability_name "update_payload" then [ "status" :-> VStr "payload_updated" ]
  else if String.eqb ability_name "output_payload" then
    [ "status" :-> VStr "payload_output";
      "final_payload" :-> VDict (CustomerSupportState_dict s) ]
  else [ "status" :-> VStr "unknown_internal_ability" ].

(** The body of the loop of [_execute_abilities] for one ability
    [{"name": ability_name, "server": server}]. *)
Definition execute_one (stage_log : nat) (payload_dict : Dict)
    (ability_name server : string) : M value :=
  if String.eqb server "internal" then
    let* s := get_state in
    ret (VDict (_execute_internal_ability ability_name s))
  else
    let* execution := MCPManager_execute_ability env server ability_name payload_dict in
    modify_log stage_log
      (fun l => set_log_abilities_executed (StageLog.abilities_executed l ++ [execution]) l);;
    ret (opt_dict (AbilityExecution.result execution)).

Fixpoint execute_loop (stage_log : nat) (payload_dict : Dict)
    (abilities : list (string * string)) (results : Dict) : M Dict :=
  match abilities with
  | [] => ret results
  | (ability_name, server) :: rest =>
      let* result := execute_one stage_log payload_dict ability_name server in
      execute_loop stage_log payload_dict rest (dict_set results ability_name result)
  end.

(** [_execute_abilities]; an ability is the pair of its name and server. *)
Definition _execute_abilities (stage_log : nat) (abilities : list (string * string))
  : M Dict :=
  let* s := get_state in
  execute_loop stage_log (InputPayload_dict (input_payload s)) abilities [].

(** The common frame of the eleven stages:
    [try: body; self._log_stage_complete(state, stage_log)
     except Exception as e: self._log_stage_complete(..., success=False, error=str(e))] *)
Definition stage (stage_name : string) (stage_id : nat) (emoji : string) (mode : StageMode)
    (body : nat -> M unit) : M unit :=
  let* stage_log := _log_stage_start stage_name stage_id emoji mode in
  try_except
    (body stage_log;; _log_stage_complete stage_log true None)
    (fun e => _log_stage_complete stage_log false (Some (str_exn e))).

(** [results[k]] *)
Definition item (results : Dict) (k : string) : M value :=
  lift (py_getitem (VDict results) k).

(** Stage 1: INTAKE *)
Definition stage_01_intake : M unit :=
  stage "INTAKE" 1 "📥" ENTRY_ONLY (fun stage_log =>
    let* results := _execute_abilities stage_log [ ("accept_payload", "internal") ] in
    ret tt).

(** Stage 2: UNDERSTAND *)
Definition stage_02_understand : M unit :=
  stage "UNDERSTAND" 2 "🧠" DETERMINISTIC (fun stage_log =>
    let* results := _execute_abilities stage_log
                      [ ("parse_request_text", "COMMON"); ("extract_entities", "ATLAS") ] in
    (if dict_in "parse_request_text" results then
       let* r := item results "parse_request_text" in
       let* v := lift (py_get r "structured_data" (VDict [])) in
       update_field env extracted_entities set_extracted_entities v
     else ret tt);;
    (if dict_in "extract_entities" results then
       let* r := item results "extract_entities" in
       let* v := lift (py_get r "entities" (VDict [])) in
       update_field env extracted_entities set_extracted_entities v
     else ret tt)).

(** The loop [for ability, result in results.items()] of stage 3 *)
Fixpoint prepare_loop (items : Dict) : M unit :=
  match items with
  | [] => ret tt
  | (ability, result) :: rest =>
      (if is_str_key "normalize_fields" ability then
         let* v := lift (py_get result "normalized" (VDict [])) in
         update_field env normalized_fields set_normalized_fields v
       else if is_str_key "enrich_records" ability then
         update_field env enriched_data set_enriched_data result
       else if is_str_key "add_flags_calculations" ability then
         let* v := lift (py_get result "flags" (VDict [])) in
         update_field env enriched_data set_enriched_data v
       else ret tt);;
      prepare_loop rest
  end.

(** Stage 3: PREPARE *)
Definition stage_03_prepare : M unit :=
  stage "PREPARE" 3 "🛠" DETERMINISTIC (fun stage_log =>
    let* results := _execute_abilities stage_log
                      [ ("normalize_fields", "COMMON"); ("enrich_records", "ATLAS");
                        ("add_flags_calculations", "COMMON") ] in
    prepare_loop results).

(** ["YES" in text] *)
Definition contains_YES (text : string) : bool :=
  match String.index 0 "YES" text with Some _ => true | None => false end.

(** The values interpolated into the prompts of stages 4 and 7. *)
Definition ticket_summary (s : CustomerSupportState) : list value :=
  [ VStr (customer_name (input_payload s));
    VStr (query (input_payload s));
    VStr (Priority_value (priority (input_payload s)));
    VDict (extracted_entities s) ].

(** Stage 4: ASK *)
Definition stage_04_ask : M unit :=
  stage "ASK" 4 "❓" HUMAN_INTERACTION (fun stage_log =>
    let* s := get_state in
    let* content := lift (llm_ainvoke env "You are Langie, a structured customer support agent."
                            (ticket_summary s)) in
    let clarification_needed := contains_YES (str_upper (runtime env) content) in
    if clarification_needed then
      let* results := _execute_abilities stage_log [ ("clarify_question", "ATLAS") ] in
      modify_state (set_clarification_requested true);;
      let* q := lift (py_get (dict_get results "clarify_question" (VDict [])) "question" (VStr "")) in
      modify_state (set_clarification_question q)
    else ret tt).

(** Stage 5: WAIT *)
Definition stage_05_wait : M unit :=
  stage "WAIT" 5 "⏳" DETERMINISTIC (fun stage_log =>
    let* results := _execute_abilities stage_log
                      [ ("extract_answer", "ATLAS"); ("store_answer", "internal") ] in
    if dict_in "extract_answer" results then
      let* r := item results "extract_answer" in
      let* v := lift (py_get r "answer" (VStr "")) in
      modify_state (set_human_response v)
    else ret tt).

(** Stage 6: RETRIEVE *)
Definition stage_06_retrieve : M unit :=
  stage "RETRIEVE" 6 "📚" DETERMINISTIC (fun stage_log =>
    let* results := _execute_abilities stage_log
                      [ ("knowledge_base_search", "ATLAS"); ("store_data", "internal") ] in
    if dict_in "knowledge_base_search" results then
      let* r := item results "knowledge_base_search" in
      let* v := lift (py_get r "results" (VList [])) in
      modify_state (set_knowledge_base_results v)
    else ret tt).

(** The escalation rule of stage 7:
    [if state.confidence_score < 90: ...] *)
Definition escalation_rule : M unit :=
  let* s := get_state in
  let* low := lift (py_lt (confidence_score s) 90) in
  if low then
    modify_state (set_escalation_needed (VBool true));;
    modify_state (fun s =>
      set_escalation_reason
        (VStr ("Low confidence score: " +:+ py_format (runtime env) (confidence_score s))) s);;
    modify_state (set_ticket_status ESCALATED)
  else ret tt.

(** Stage 7: DECIDE *)
Definition stage_07_decide : M unit :=
  stage "DECIDE" 7 "⚖" NON_DETERMINISTIC (fun stage_log =>
    let* s := get_state in
    let* n := lift (py_len (runtime env) (knowledge_base_results s)) in
    let* content :=
      lift (llm_ainvoke env
              "You are Langie, making intelligent decisions about customer support resolution."
              (ticket_summary s ++ [VInt (Z.of_nat n)])) in
    let* results := _execute_abilities stage_log
                      [ ("solution_evaluation", "COMMON"); ("escalation_decision", "ATLAS");
                        ("update_payload", "internal") ] in
    (if dict_in "solution_evaluation" results then
       let* r := item results "solution_evaluation" in
       let* solutions := lift (py_get r "solutions" (VList [])) in
       let* scores := lift (solution_table env solutions) in
       modify_state (set_solution_scores scores);;
       let* r := item results "solution_evaluation" in
       let* best := lift (py_get r "best_score" (VInt 0)) in
       modify_state (set_confidence_score best)
     else ret tt);;
    (if dict_in "escalation_decision" results then
       let* r := item results "escalation_decision" in
       let* escalate := lift (py_get r "escalate" (VBool false)) in
       modify_state (set_escalation_needed escalate);;
       let* r := item results "escalation_decision" in
       let* reason := lift (py_get r "reason" (VStr "")) in
       modify_state (set_escalation_reason reason)
     else ret tt);;
    escalation_rule).

(** Stage 8: UPDATE *)
Definition stage_08_update : M unit :=
  stage "UPDATE" 8 "🔄" DETERMINISTIC (fun stage_log =>
    let* results := _execute_abilities stage_log
                      [ ("update_ticket", "ATLAS"); ("close_ticket", "ATLAS") ] in
    let* s := get_state in
    let* high := lift (py_ge (confidence_score s) 90) in
    if high && negb (truthy (escalation_needed s)) then
      modify_state (set_ticket_status RESOLVED)
    else ret tt).

(** Stage 9: CREATE *)
Definition stage_09_create : M unit :=
  stage "CREATE" 9 "✍" DETERMINISTIC (fun stage_log =>
    let* results := _execute_abilities stage_log [ ("response_generation", "COMMON") ] in
    if dict_in "response_generation" results then
      let* r := item results "response_generation" in
      let* v := lift (py_get r "response" (VStr "")) in
      modify_state (set_generated_response v)
    else ret tt).

(** Stage 10: DO *)
Definition stage_10_do : M unit :=
  stage "DO" 10 "🏃" DETERMINISTIC (fun stage_log =>
    let* results := _execute_abilities stage_log
                      [ ("execute_api_calls", "ATLAS"); ("trigger_notifications", "ATLAS") ] in
    (if dict_in "execute_api_calls" results then
       let* r := item results "execute_api_calls" in
       let* v := lift (py_get r "api_calls" (VList [])) in
       modify_state (set_api_calls_executed v)
     else ret tt);;
    (if dict_in "trigger_notifications" results then
       let* r := item results "trigger_notifications" in
       let* v := lift (py_get r "notifications" (VList [])) in
       modify_state (set_notifications_sent v)
     else ret tt)).

(** Stage 11: COMPLETE *)
Definition stage_11_complete : M unit :=
  stage "COMPLETE" 11 "✅" OUTPUT_ONLY (fun stage_log =>
    let* results := _execute_abilities stage_log [ ("output_payload", "internal") ] in
    modify_state (set_processing_complete true);;
    let* t := now in
    modify_state (set_updated_at t)).

(** *** Conditional routing *)

Definition _should_wait (s : CustomerSupportState) : string :=
  if clarification_requested s && negb (truthy (human_response s)) then "wait" else "retrieve".

Definition _should_escalate (s : CustomerSupportState) : string :=
  if truthy (escalation_needed s) then "escalate" else "continue".

(** *** The graph of [_build_workflow] *)

Inductive node : Type :=
  | intake | understand | prepare | ask | wait | retrieve
  | decide | update | create | do | complete.

Inductive target : Type :=
  | Node (n : node)
  | END.

Inductive edge : Type :=
  | Edge (to : target)
  | ConditionalEdges (path : CustomerSupportState -> string) (mapping : list (string * target)).

(** [workflow.add_node] *)
Definition node_action (n : node) : M unit :=
  match n with
  | intake => stage_01_intake
  | understand => stage_02_understand
  | prepare => stage_03_prepare
  | ask => stage_04_ask
  | wait => stage_05_wait
  | retrieve => stage_06_retrieve
  | decide => stage_07_decide
  | update => stage_08_update
  | create => stage_09_create
  | do => stage_10_do
  | complete => stage_11_complete
  end.

(** [workflow.add_edge] and [workflow.add_conditional_edges] *)
Definition edges (n : node) : edge :=
  match n with
  | intake => Edge (Node understand)
  | understand => Edge (Node prepare)
  | prepare => Edge (Node ask)
  | ask => ConditionalEdges _should_wait [ ("wait", Node wait); ("retrieve", Node retrieve) ]
  | wait => Edge (Node retrieve)
  | retrieve => Edge (Node decide)
  | decide => ConditionalEdges _should_escalate [ ("escalate", END); ("continue", Node update) ]
  | update => Edge (Node create)
  | create => Edge (Node do)
  | do => Edge (Node complete)
  | complete => Edge END
  end.

Fixpoint mapping_get (mapping : list (string * target)) (k : string) : option target :=
  match mapping with
  | [] => None
  | (k', t) :: rest => if String.eqb k k' then Some t else mapping_get rest k
  end.

(** The successor of a node in the state reached after it. *)
Definition successor (n : node) (s : CustomerSupportState) : exn + target :=
  match edges n with
  | Edge t => inr t
  | ConditionalEdges path mapping =>
      match mapping_get mapping (path s) with
      | Some t => inr t
      | None => inl (KeyError (path s))
      end
  end.

(** The run of the compiled graph from node [n]; the graph runtime gives
    up after [limit] steps. *)
Fixpoint run_graph (limit : nat) (n : node) : M unit :=
  match limit with
  | 0 => raise (GraphRecursionError "Recursion limit reached")
  | S limit' =>
      node_action n;;
      let* s := get_state in
      let* t := lift (successor n s) in
      match t with
      | END => ret tt
      | Node n' => run_graph limit' n'
      end
  end.

(** The default [recursion_limit] of the graph runtime. *)
Definition recursion_limit : nat := 25.

(** [self.workflow.ainvoke(initial_state)], entered at ["intake"] *)
Definition workflow_ainvoke : M unit := run_graph recursion_limit intake.

(** [CustomerSupportState(input_payload=input_payload)], stored as the
    state of the run *)
Definition new_state (input_payload : InputPayload) : M unit :=
  let* t := now in
  let* _ := now in
  modify_state (fun _ => initial_state input_payload t).

(** [process_ticket] *)
Definition process_ticket (input_payload : InputPayload) : M OutputPayload :=
  let* start_time := now in
  new_state input_payload;;
  try_finally
    (try_except
       (workflow_ainvoke;;
        let* final_state := get_state in
        let* end_time := now in
        let* completion_time := now in
        lift (make_output env input_payload final_state (stage_logs final_state)
                (end_time - start_time) completion_time))
       (fun e => raise e))
    MCPManager_close.

End Agent.
End LangGraphCustomerSupportAgent.

(** ** The dependency-free agent ([src/simple_agent.py]) *)

Definition simple_response_text (rt : Runtime) (payload : Dict) : string :=
  "Dear " +:+ py_format rt (dict_get payload "customer_name" (VStr "Customer")) +:+ ",

Thank you for contacting support regarding your login issue. 

I've identified that your account was temporarily locked due to multiple failed login attempts. I've unlocked your account and sent a password reset email to your registered address.

Please check your inbox (and spam folder) for the reset email. If you don't receive it within 10 minutes, please let us know.

Best regards,
Langie - Customer Support Agent
Ticket: " +:+ py_format rt (dict_get payload "ticket_id" (VStr "N/A")).

(** The table of [SimpleLangGraphAgent._simulate_ability], built at time
    [t] before the ability is looked up. *)
Definition simple_responses (rt : Runtime) (t : nat) (payload : Dict)
  : exn + list (string * Dict) :=
  match hashable (dict_get payload "email" (VStr "")) with
  | inl e => inl e
  | inr hashed =>
  match py_lower rt (dict_get payload "email" (VStr "")) with
  | inl e => inl e
  | inr lowered =>
  match py_upper rt (dict_get payload "priority" (VStr "")) with
  | inl e => inl e
  | inr upper_priority =>
      inr [ ("parse_request_text",
              [ "structured_data" :-> VDict
                  [ "issue_category" :-> VStr "Authentication";
                    "priority_level" :-> VStr "High";
                    "keywords" :-> VList [ VStr "login"; VStr "password"; VStr "incorrect";
                                           VStr "urgent" ];
                    "sentiment" :-> VStr "frustrated" ] ]);
            ("extract_entities",
              [ "entities" :-> VDict
                  [ "product" :-> VStr "User Account";
                    "issue_type" :-> VStr "Authentication";
                    "urgency" :-> VStr "High";
                    "account_id" :-> VStr ("user_" +:+ pretty (py_hash rt hashed `mod` 10000)%Z) ] ]);
            ("normalize_fields",
              [ "normalized" :-> VDict
                  [ "email" :-> VStr (str_strip rt lowered);
                    "priority" :-> VStr upper_priority;
                    "timestamp" :-> VStr (isoformat rt t) ] ]);
            ("enrich_records",
              [ "sla_info" :-> VDict
                  [ "response_time" :-> VStr "2 hours";
                    "resolution_time" :-> VStr "24 hours" ];
                "historical_tickets" :-> VList
                  [ VDict [ "ticket_id" :-> VStr "T-001"; "issue" :-> VStr "Password reset";
                            "resolved" :-> VBool true ] ] ]);
            ("add_flags_calculations",
              [ "flags" :-> VDict
                  [ "high_priority" :-> VBool true;
                    "sla_risk" :-> VBool false;
                    "escalation_score" :-> VInt 25 ] ]);
            ("knowledge_base_search",
              [ "results" :-> VList
                  [ VDict [ "title" :-> VStr "Password reset troubleshooting";
                            "content" :-> VStr "Common solutions for password issues";
                            "relevance" :-> VFloat 0.92%float ] ] ]);
            ("solution_evaluation",
              [ "solutions" :-> VList
                  [ VDict [ "solution" :-> VStr "Password reset email"; "score" :-> VInt 85 ];
                    VDict [ "solution" :-> VStr "Account unlock"; "score" :-> VInt 92 ];
                    VDict [ "solution" :-> VStr "Escalate to security"; "score" :-> VInt 40 ] ];
                "best_score" :-> VInt 92 ]);
            ("response_generation",
              [ "response" :-> VStr (simple_response_text rt payload) ]) ]
  end end end.

(** [SimpleLangGraphAgent._simulate_ability]; the server is not looked at. *)
Definition _simulate_ability (rt : Runtime) (server ability_name : string)
    (payload : Dict) (t : nat) : exn + Dict :=
  match simple_responses rt t payload with
  | inl e => inl e
  | inr responses =>
      inr (table_get responses ability_name
             [ "status" :-> VStr "simulated"; "ability" :-> VStr ability_name ])
  end.

(** The environment in which the abilities are the simulation of
    [src/simple_agent.py]. *)
Definition simple_simulated (rt : Runtime) : Env :=
  {| runtime := rt;
     llm_ainvoke := fun _ _ => inl (Exception "RuntimeError" "no language model");
     server_call := _simulate_ability rt |}.

Module SimpleLangGraphAgent.
Section Agent.

Variable env : Env.

(** [_log_stage]: a new log, held in the local variable [stage_log] *)
Definition _log_stage (stage_name : string) (stage_id : nat) (emoji : string)
    (mode : StageMode) : M StageLog :=
  let* t := now in
  ret {| StageLog.stage_name := stage_name;
         StageLog.stage_id := stage_id;
         StageLog.emoji := emoji;
         StageLog.mode := mode;
         StageLog.abilities_executed := [];
         StageLog.start_time := t;
         StageLog.end_time := None;
         StageLog.success := true;
         StageLog.error := None |}.

(** [_complete_stage], always called with [success=True] *)
Definition _complete_stage (stage_log : StageLog) : M StageLog :=
  let* t := now in
  ret (set_log_success true (set_log_end_time (Some t) stage_log)).

(** [stage_logs.append(stage_log)] *)
Definition append_log (stage_log : StageLog) : M unit :=
  fun h => (Return tt,
            {| state := state h; mcp_manager := mcp_manager h; clock := clock h;
               local_stage_logs := local_stage_logs h ++ [stage_log] |}).

(** [self._complete_stage(stage_log); stage_logs.append(stage_log)] *)
Definition finish (stage_log : StageLog) : M unit :=
  let* stage_log := _complete_stage stage_log in
  append_log stage_log.

(** [await self._simulate_ability(ability_name, server, payload)]; the
    simulation of the source is [_simulate_ability] below. *)
Definition simulate (ability_name server : string) (payload : Dict) : M Dict :=
  let* t := now in
  lift (server_call env server ability_name payload t).

(** [AbilityExecution(..., execution_time=datetime.now(), status="success", result=r)] *)
Definition executed (ability_name server : string) (r : Dict) : M AbilityExecution :=
  let* t := now in
  ret {| AbilityExecution.ability_name := ability_name;
         AbilityExecution.server_used := server;
         AbilityExecution.execution_time := t;
         AbilityExecution.status := "success";
         AbilityExecution.result := Some r;
         AbilityExecution.error := None |}.

Definition stage_1 (input_payload : InputPayload) : M unit :=
  let* stage_log := _log_stage "INTAKE" 1 "📥" ENTRY_ONLY in
  let* a := executed "accept_payload" "internal"
              [ "status" :-> VStr "payload_accepted";
                "ticket_id" :-> VStr (ticket_id input_payload) ] in
  finish (set_log_abilities_executed [a] stage_log).

Definition stage_2 (input_payload : InputPayload) : M unit :=
  let* stage_log := _log_stage "UNDERSTAND" 2 "🧠" DETERMINISTIC in
  let* parse_result := simulate "parse_request_text" "COMMON" (InputPayload_dict input_payload) in
  let* entity_result := simulate "extract_entities" "ATLAS" (InputPayload_dict input_payload) in
  update_field env extracted_entities set_extracted_entities
    (dict_get parse_result "structured_data" (VDict []));;
  update_field env extracted_entities set_extracted_entities
    (dict_get entity_result "entities" (VDict []));;
  let* a1 := executed "parse_request_text" "COMMON" parse_result in
  let* a2 := executed "extract_entities" "ATLAS" entity_result in
  finish (set_log_abilities_executed [a1; a2] stage_log).

Definition stage_3 (input_payload : InputPayload) : M unit :=
  let* stage_log := _log_stage "PREPARE" 3 "🛠" DETERMINISTIC in
  let* norm_result := simulate "normalize_fields" "COMMON" (InputPayload_dict input_payload) in
  let* enrich_result := simulate "enrich_records" "ATLAS" (InputPayload_dict input_payload) in
  let* flags_result :=
    simulate "add_flags_calculations" "COMMON" (InputPayload_dict input_payload) in
  update_field env normalized_fields set_normalized_fields
    (dict_get norm_result "normalized" (VDict []));;
  update_field env enriched_data set_enriched_data (VDict enrich_result);;
  update_field env enriched_data set_enriched_data (dict_get flags_result "flags" (VDict []));;
  let* a1 := executed "normalize_fields" "COMMON" norm_result in
  let* a2 := executed "enrich_records" "ATLAS" enrich_result in
  let* a3 := executed "add_flags_calculations" "COMMON" flags_result in
  finish (set_log_abilities_executed [a1; a2; a3] stage_log).

Definition stage_4 (input_payload : InputPayload) : M unit :=
  let* stage_log := _log_stage "ASK" 4 "❓" HUMAN_INTERACTION in
  let clarification_needed :=
    match priority input_payload with
    | HIGH | CRITICAL => false
    | _ => true
    end in
  (if clarification_needed then
     modify_state (set_clarification_requested true);;
     modify_state (set_clarification_question
       (VStr "Could you provide more details about when this issue started?"))
   else ret tt);;
  finish stage_log.

Definition stage_5 : M unit :=
  let* stage_log := _log_stage "WAIT" 5 "⏳" DETERMINISTIC in
  modify_state (set_human_response
    (VStr "The issue started this morning when I tried to login for an important transaction."));;
  finish stage_log.

Definition stage_6 (input_payload : InputPayload) : M unit :=
  let* stage_log := _log_stage "RETRIEVE" 6 "📚" DETERMINISTIC in
  let* kb_result :=
    simulate "knowledge_base_search" "ATLAS" (InputPayload_dict input_payload) in
  modify_state (set_knowledge_base_results (dict_get kb_result "results" (VList [])));;
  let* a := executed "knowledge_base_search" "ATLAS" kb_result in
  finish (set_log_abilities_executed [a] stage_log).

Definition stage_7 (input_payload : InputPayload) : M unit :=
  let* stage_log := _log_stage "DECIDE" 7 "⚖" NON_DETERMINISTIC in
  let* solution_result :=
    simulate "solution_evaluation" "COMMON" (InputPayload_dict input_payload) in
  modify_state (set_confidence_score (dict_get solution_result "best_score" (VInt 0)));;
  let* scores := lift (solution_table env (dict_get solution_result "solutions" (VList []))) in
  modify_state (set_solution_scores scores);;
  let* s := get_state in
  let* low := lift (py_lt (confidence_score s) 90) in
  (if low then
     modify_state (set_escalation_needed (VBool true));;
     modify_state (fun s =>
       set_escalation_reason
         (VStr ("Low confidence score: " +:+ py_format (runtime env) (confidence_score s)
                  +:+ "%")) s);;
     modify_state (set_ticket_status ESCALATED)
   else
     modify_state (set_ticket_status RESOLVED));;
  let* a := executed "solution_evaluation" "COMMON" solution_result in
  finish (set_log_abilities_executed [a] stage_log).

Definition stage_8 : M unit :=
  let* stage_log := _log_stage "UPDATE" 8 "🔄" DETERMINISTIC in
  finish stage_log.

Definition stage_9 (input_payload : InputPayload) : M unit :=
  let* stage_log := _log_stage "CREATE" 9 "✍" DETERMINISTIC in
  let* response_result :=
    simulate "response_generation" "COMMON" (InputPayload_dict input_payload) in
  modify_state (set_generated_response (dict_get response_result "response" (VStr "")));;
  let* a := executed "response_generation" "COMMON" response_result in
  finish (set_log_abilities_executed [a] stage_log).

Definition stage_10 (input_payload : InputPayload) : M unit :=
  let* stage_log := _log_stage "DO" 10 "🏃" DETERMINISTIC in
  modify_state (set_api_calls_executed
    (VList [ VDict [ "api" :-> VStr "unlock_account"; "status" :-> VStr "success" ];
             VDict [ "api" :-> VStr "send_reset_email"; "status" :-> VStr "sent" ] ]));;
  modify_state (set_notifications_sent
    (VList [ VDict [ "type" :-> VStr "email"; "recipient" :-> VStr (email input_payload);
                     "status" :-> VStr "sent" ] ]));;
  finish stage_log.

Definition stage_11 : M unit :=
  let* stage_log := _log_stage "COMPLETE" 11 "✅" OUTPUT_ONLY in
  modify_state (set_processing_complete true);;
  let* t := now in
  modify_state (set_updated_at t);;
  finish stage_log.

(** The block under [try:] of [process_ticket] *)
Definition stages (input_payload : InputPayload) : M unit :=
  stage_1 input_payload;;
  stage_2 input_payload;;
  stage_3 input_payload;;
  stage_4 input_payload;;
  let* s := get_state in
  (if clarification_requested s then stage_5 else ret tt);;
  stage_6 input_payload;;
  stage_7 input_payload;;
  let* s := get_state in
  (if negb (truthy (escalation_needed s)) then
     stage_8;;
     stage_9 input_payload;;
     stage_10 input_payload
   else ret tt);;
  stage_11.

(** [stage_logs = []] and [state = CustomerSupportState(...)] *)
Definition new_run (input_payload : InputPayload) : M unit :=
  let* t := now in
  let* _ := now in
  fun h => (Return tt,
            {| state := initial_state input_payload t; mcp_manager := mcp_manager h;
               clock := clock h; local_stage_logs := [] |}).

Definition get_local_stage_logs : M (list StageLog) :=
  fun h => (Return (local_stage_logs h), h).

(** [process_ticket] *)
Definition process_ticket (input_payload : InputPayload) : M OutputPayload :=
  let* start_time := now in
  new_run input_payload;;
  try_except
    (stages input_payload)
    (fun e => modify_state (set_ticket_status PENDING));;
  let* end_time := now in
  let* s := get_state in
  let* stage_logs := get_local_stage_logs in
  let* completion_time := now in
  lift (make_output env input_payload s stage_logs (end_time - start_time) completion_time).

End Agent.
End SimpleLangGraphAgent.

(** ** Runs of the LangGraph engine, cut at its two branch points

    [workflow_ainvoke_split] below shows that a run of the graph is
    [run_to_decide], followed by [run_after_decide] unless the state asks
    for escalation. *)

Section Runs.

Variable env : Env.

Import LangGraphCustomerSupportAgent.

(** From ["intake"] to the branch after ["ask"] *)
Definition run_to_ask : M unit :=
  stage_01_intake env;;
  stage_02_understand env;;
  stage_03_prepare env;;
  stage_04_ask env.

(** From ["intake"] to the branch after ["decide"] *)
Definition run_to_decide : M unit :=
  run_to_ask;;
  let* s := get_state in
  (if String.eqb (_should_wait s) "wait" then stage_05_wait env else ret tt);;
  stage_06_retrieve env;;
  stage_07_decide env.

(** From ["update"] to the end *)
Definition run_after_decide : M unit :=
  stage_08_update env;;
  stage_09_create env;;
  stage_10_do env;;
  stage_11_complete env.

End Runs.

(** The numbers of the stages logged, in order. *)
Definition stage_ids (logs : list StageLog) : list nat := map StageLog.stage_id logs.

(** The heap [h] at another time. *)
Definition at_time (t : nat) (h : Heap) : Heap :=
  {| state := state h; mcp_manager := mcp_manager h; clock := t;
     local_stage_logs := local_stage_logs h |}.
#[global] Arguments at_time t h /.

(** The fields of the state that the decision of stage 7 is about. *)
Definition same_decision (s s' : CustomerSupportState) : Prop :=
  ticket_status s' = ticket_status s /\
  confidence_score s' = confidence_score s /\
  escalation_needed s' = escalation_needed s /\
  escalation_reason s' = escalation_reason s.

(** What every stage of the LangGraph engine does besides its own work:
    it returns, leaves the providers alone and appends its one log, closed. *)
Definition stage_effect (k : nat) (h h' : Heap) : Prop :=
  mcp_manager h' = mcp_manager h /\
  local_stage_logs h' = local_stage_logs h /\
  input_payload (state h') = input_payload (state h) /\
  exists lg, stage_logs (state h') = stage_logs (state h) ++ [lg] /\
             StageLog.stage_id lg = k /\
             is_Some (StageLog.end_time lg).

(** The abilities of a server with a canned answer in [src/mcp_client.py]. *)
Definition known_abilities (server_name : string) : list string :=
  if String.eqb server_name "ATLAS" then
    [ "extract_entities"; "enrich_records"; "clarify_question"; "extract_answer";
      "knowledge_base_search"; "escalation_decision"; "update_ticket"; "close_ticket";
      "execute_api_calls"; "trigger_notifications" ]
  else if String.eqb server_name "COMMON" then
    [ "parse_request_text"; "normalize_fields"; "add_flags_calculations";
      "solution_evaluation"; "response_generation" ]
  else [].

(** ** Example environments *)

Definition ascii_upper (c : ascii) : ascii :=
  let n := nat_of_ascii c in
  if (97 <=? n) && (n <=? 122) then ascii_of_nat (n - 32) else c.

Definition ascii_lower (c : ascii) : ascii :=
  let n := nat_of_ascii c in
  if (65 <=? n) && (n <=? 90) then ascii_of_nat (n + 32) else c.

Fixpoint string_map (f : ascii -> ascii) (s : string) : string :=
  match s with
  | EmptyString => EmptyString
  | String c s' => String (f c) (string_map f s')
  end.

Fixpoint lstrip (s : string) : string :=
  match s with
  | String c s' => if Ascii.eqb c " " then lstrip s' else s
  | EmptyString => EmptyString
  end.

Fixpoint characters (s : string) : list string :=
  match s with
  | EmptyString => []
  | String c s' => String c EmptyString :: characters s'
  end.

(** A runtime for texts in ASCII. *)
Definition ascii_runtime : Runtime :=
  {| str_upper := string_map ascii_upper;
     str_lower := string_map ascii_lower;
     str_strip := fun s => String.rev (lstrip (String.rev (lstrip s)));
     str_chars := characters;
     py_repr := fun _ => "...";
     float_key_eq := fun _ _ => false;
     py_hash := fun _ => 0%Z;
     isoformat := fun t => pretty t;
     lax_float := fun _ => false |}.

(** The sample ticket of [create_sample_input]. *)
Definition sample_ticket : InputPayload :=
  {| customer_name := "John Smith";
     email := "john.smith@example.com";
     query := "I can't login to my account. It says my password is incorrect but I'm sure it's right. This is urgent as I need to access my account for an important transaction.";
     priority := HIGH;
     ticket_id := "TICKET-0001" |}.

(** A new agent, before any run: the state is a placeholder that
    [process_ticket] replaces. *)
Definition new_agent : Heap :=
  {| state := initial_state sample_ticket 0;
     mcp_manager := MCPManager_init ("http://localhost:8001", "atlas-key")
                      ("http://localhost:8002", "common-key");
     clock := 0;
     local_stage_logs := [] |}.

Definition llm_no : string -> list value -> exn + string :=
  fun _ _ => inr "NO. The request is clear.".

Definition llm_yes : string -> list value -> exn + string :=
  fun _ _ => inr "YES, the account is not identified.".

(** Servers as in the source, except that [solution_evaluation] answers
    [answer]. *)
Definition servers_with_evaluation (answer : exn + Dict) (server_name ability_name : string)
    (payload : Dict) (t : nat) : exn + Dict :=
  if String.eqb ability_name "solution_evaluation" then answer
  else _simulate_server_call ascii_runtime server_name ability_name payload t.

(** The best solution scores 40. *)
Definition low_score : Env :=
  {| runtime := ascii_runtime;
     llm_ainvoke := llm_no;
     server_call := servers_with_evaluation
       (inr [ "solutions" :-> VList [ VDict [ "solution" :-> VStr "Escalate to security team";
                                               "score" :-> VInt 40 ] ];
              "best_score" :-> VInt 40 ]) |}.

(** The best solution scores 40 and the request for the escalation
    decision times out. *)
Definition low_score_no_verdict : Env :=
  {| runtime := ascii_runtime;
     llm_ainvoke := llm_no;
     server_call := fun server_name ability_name payload t =>
       if String.eqb ability_name "escalation_decision"
       then inl (Exception "TimeoutError" "request timed out")
       else server_call low_score server_name ability_name payload t |}.

(** The evaluation comes back without a score: ["best_score": null]. *)
Definition null_score : Env :=
  {| runtime := ascii_runtime;
     llm_ainvoke := llm_no;
     server_call := servers_with_evaluation
       (inr [ "solutions" :-> VList []; "best_score" :-> VNone ]) |}.

(** The best solution scores 95 and the server asks for escalation. *)
Definition provider_escalates : Env :=
  {| runtime := ascii_runtime;
     llm_ainvoke := llm_no;
     server_call := fun server_name ability_name payload t =>
       if String.eqb ability_name "escalation_decision"
       then inr [ "escalate" :-> VBool true; "reason" :-> VStr "Customer asked for a manager" ]
       else servers_with_evaluation
              (inr [ "solutions" :-> VList []; "best_score" :-> VInt 95 ])
              server_name ability_name payload t |}.

(** The knowledge base is down. *)
Definition knowledge_base_down : Env :=
  {| runtime := ascii_runtime;
     llm_ainvoke := llm_yes;
     server_call := fun server_name ability_name payload t =>
       if String.eqb ability_name "knowledge_base_search"
       then inl (Exception "ConnectError" "All connection attempts failed")
       else _simulate_server_call ascii_runtime server_name ability_name payload t |}.

(** What a run of several stages does besides their own work: the logs
    of the stages [ids] are appended, each closed. *)
Definition run_effect (ids : list nat) (h h' : Heap) : Prop :=
  mcp_manager h' = mcp_manager h /\
  local_stage_logs h' = local_stage_logs h /\
  input_payload (state h') = input_payload (state h) /\
  exists logs, stage_logs (state h') = stage_logs (state h) ++ logs /\
               stage_ids logs = ids /\
               Forall (fun lg => is_Some (StageLog.end_time lg)) logs.

(** The branch after ["ask"] goes to ["wait"]. *)
Definition waits (s : CustomerSupportState) : bool :=
  clarification_requested s && negb (truthy (human_response s)).

(** The abilities of a stage that are dispatched to a server. *)
Definition remote_abilities (abilities : list (string * string)) : list (string * string) :=
  List.filter (fun a => negb (String.eqb (snd a) "internal")) abilities.

(** [stage_log.abilities_executed.append(execution)], for each of [exs] *)
Definition record_executions (exs : list AbilityExecution) (l : StageLog) : StageLog :=
  set_log_abilities_executed (StageLog.abilities_executed l ++ exs) l.

(** The heap [h] at time [t], after the executions [exs] have been
    recorded in the log at position [stage_log]; nothing else differs. *)
Definition recorded (stage_log : nat) (exs : list AbilityExecution) (t : nat) (h : Heap)
  : Heap :=
  at_time t (with_state
    (set_stage_logs (alter (record_executions exs) stage_log (stage_logs (state h)))
       (state h)) h).

(** The heap in which [process_ticket] starts the graph: the state is
    new, the clock has been read three times. *)
Definition start_of_run (input_payload : InputPayload) (h : Heap) : Heap :=
  {| state := initial_state input_payload (S (clock h));
     mcp_manager := mcp_manager h;
     clock := S (S (S (clock h)));
     local_stage_logs := local_stage_logs h |}.

(** The outcome of [process_ticket] when the graph ends in the heap [h']:
    the validated output record, or the validation error. *)
Definition output_of (env : Env) (input_payload : InputPayload) (h h' : Heap)
  : outcome OutputPayload :=
  match make_output env input_payload (state h') (stage_logs (state h'))
          (clock h' - clock h) (S (clock h')) with
  | inl e => Raise e
  | inr o => Return o
  end.

(** The ability has a canned answer on the server. *)
Definition is_known (server_name ability_name : string) : bool :=
  existsb (String.eqb ability_name) (known_abilities server_name).

(** What the simulation answers when it has no canned answer. *)
Definition no_answer (server_name : string) : Dict :=
  if String.eqb server_name "ATLAS" || String.eqb server_name "COMMON"
  then ability_not_found else unknown_server.

(** The ATLAS client of a new agent. *)
Definition atlas_client : MCPClient :=
  {| MCPClient.server_name := "ATLAS"; MCPClient.url := "http://localhost:8001";
     MCPClient.api_key := "atlas-key"; MCPClient.aclose_calls := 0 |}.

(** The text that the escalation rule of the LangGraph engine stores. *)
Definition low_confidence_reason (rt : Runtime) (score : value) : value :=
  VStr ("Low confidence score: " +:+ py_format rt score).

(** The answer to ["escalation_decision"] recorded in a stage log. *)
Definition verdict_of (lg : StageLog) : option Dict :=
  match List.find (fun ex => String.eqb (AbilityExecution.ability_name ex) "escalation_decision")
          (StageLog.abilities_executed lg) with
  | Some ex => AbilityExecution.result ex
  | None => None
  end.

(** What a stage of the dependency-free agent does to the local list of
    logs: it appends its log when it returns, nothing when it raises; and
    it leaves alone the two fields that the branches of the run read,
    unless it is the stage [k] that sets them. *)
Definition simple_effect (k : nat) (h : Heap) (r : outcome unit * Heap) : Prop :=
  (k <> 4 -> clarification_requested (state r.2) = clarification_requested (state h)) /\
  (k <> 7 -> escalation_needed (state r.2) = escalation_needed (state h)) /\
  match r.1 with
  | Return _ => exists lg, local_stage_logs r.2 = local_stage_logs h ++ [lg] /\
                           StageLog.stage_id lg = k
  | Raise _ => local_stage_logs r.2 = local_stage_logs h
  end.

(** The fields of the final state pass the validation of the output
    record: the response and the reason are texts or [None], the score is
    a number. *)
Definition accepted (env : Env) (s : CustomerSupportState) : bool :=
  match validate_optional_str "response" (generated_response s),
        validate_float env "confidence_score" (confidence_score s),
        validate_optional_str "escalation_reason" (escalation_reason s) with
  | inr _, inr _, inr _ => true
  | _, _, _ => false
  end.

(** The heap in which the dependency-free agent enters its [try:] block. *)
Definition simple_start (input_payload : InputPayload) (h : Heap) : Heap :=
  {| state := initial_state input_payload (S (clock h));
     mcp_manager := mcp_manager h;
     clock := S (S (S (clock h)));
     local_stage_logs := [] |}.

(** The last stage logged was closed as a success. *)
Definition last_stage_succeeded (s : CustomerSupportState) : bool :=
  match last (stage_logs s) with
  | Some lg => StageLog.success lg
  | None => false
  end.

(** The answer to ["escalation_decision"] in the last stage logged. *)
Definition last_verdict (s : CustomerSupportState) : option Dict :=
  match last (stage_logs s) with
  | Some lg => verdict_of lg
  | None => None
  end.

(** The heap after DECIDE in the run of the sample ticket with a best
    solution scored 40. *)
Abbreviation low_score_at_decide :=
  (exec (run_to_decide low_score) (start_of_run sample_ticket new_agent)).

(** The stages of the dependency-free agent up to DECIDE: the beginning of
    the block [stages]. *)
Definition simple_to_decide (env : Env) (input_payload : InputPayload) : M unit :=
  SimpleLangGraphAgent.stage_1 input_payload;;
  SimpleLangGraphAgent.stage_2 env input_payload;;
  SimpleLangGraphAgent.stage_3 env input_payload;;
  SimpleLangGraphAgent.stage_4 input_payload;;
  let* s := get_state in
  (if clarification_requested s then SimpleLangGraphAgent.stage_5 else ret tt);;
  SimpleLangGraphAgent.stage_6 env input_payload;;
  SimpleLangGraphAgent.stage_7 env input_payload.

(** The heap after DECIDE in the run of the sample ticket through the
    LangGraph engine with the servers of the source. *)
Abbreviation sample_at_decide :=
  (exec (run_to_decide (simulated ascii_runtime llm_no)) (start_of_run sample_ticket new_agent)).

(** The heap after DECIDE in the run of the sample ticket when the server
    asks for escalation. *)
Abbreviation verdict_at_decide :=
  (exec (run_to_decide provider_escalates) (start_of_run sample_ticket new_agent)).

(** The heap after DECIDE in the run of the sample ticket through the
    dependency-free agent with the answers of the source. *)
Abbreviation simple_sample_at_decide :=
  (exec (simple_to_decide (simple_simulated ascii_runtime) sample_ticket) (simple_start sample_ticket new_agent)).

(** [_log_stage_complete] on one log, at time [t] *)
Definition close_log (t : nat) (success : bool) (error : option string) (l : StageLog)
  : StageLog :=
  (if truthy (opt_str error) then set_log_error error else fun l => l)
    (set_log_success success (set_log_end_time (Some t) l)).

(** The heap [h] after [_log_stage_complete] on the log at position
    [stage_log]: that log is closed, the clock has moved, and nothing
    else differs. *)
Definition closed (stage_log : nat) (success : bool) (error : option string) (h : Heap)
  : Heap :=
  tick (with_state
    (set_stage_logs (alter (close_log (clock h) success error) stage_log (stage_logs (state h)))
       (state h)) h).

(** The state without its logs. *)
Definition fields (s : CustomerSupportState) : CustomerSupportState := set_stage_logs [] s.

(** The body of stage 6. *)
Definition retrieve_body (env : Env) (stage_log : nat) : M unit :=
  let* results := LangGraphCustomerSupportAgent._execute_abilities env stage_log
                    [ ("knowledge_base_search", "ATLAS"); ("store_data", "internal") ] in
  if dict_in "knowledge_base_search" results then
    let* r := LangGraphCustomerSupportAgent.item results "knowledge_base_search" in
    let* v := lift (py_get r "results" (VList [])) in
    modify_state (set_knowledge_base_results v)
  else ret tt.

(** The heap in which the body of stage 6 raises when stage 6 is run in
    a new state and the knowledge base is down. *)
Abbreviation knowledge_base_down_at_raise :=
  (exec (retrieve_body knowledge_base_down 0)
     (exec (LangGraphCustomerSupportAgent._log_stage_start "RETRIEVE" 6 "📚" DETERMINISTIC)
        (start_of_run sample_ticket new_agent))).

(** The computation [c] leaves the four decision fields of the state
    alone, whether it returns or raises. *)
Definition keeps_decision {A} (c : M A) : Prop :=
  forall h, same_decision (state h) (state (c h).2).

(** The number of the stage that a node of the graph runs. *)
Definition stage_number (n : LangGraphCustomerSupportAgent.node) : nat :=
  match n with
  | LangGraphCustomerSupportAgent.intake => 1
  | LangGraphCustomerSupportAgent.understand => 2
  | LangGraphCustomerSupportAgent.prepare => 3
  | LangGraphCustomerSupportAgent.ask => 4
  | LangGraphCustomerSupportAgent.wait => 5
  | LangGraphCustomerSupportAgent.retrieve => 6
  | LangGraphCustomerSupportAgent.decide => 7
  | LangGraphCustomerSupportAgent.update => 8
  | LangGraphCustomerSupportAgent.create => 9
  | LangGraphCustomerSupportAgent.do => 10
  | LangGraphCustomerSupportAgent.complete => 11
  end.

(** The computation [c] leaves the field [f] of the state alone,
    whether it returns or raises. *)
Definition keeps {A B} (f : CustomerSupportState -> B) (c : M A) : Prop :=
  forall h, f (state (c h).2) = f (state h).

(** The priorities for which the dependency-free agent asks for
    clarification: [priority not in [Priority.HIGH, Priority.CRITICAL]]. *)
Definition needs_clarification (p : Priority) : bool :=
  match p with
  | LOW | MEDIUM => true
  | HIGH | CRITICAL => false
  end.

(** The log of stage [k] in [logs] was closed as a success. *)
Definition stage_succeeded (k : nat) (logs : list StageLog) : bool :=
  match List.find (fun lg => Nat.eqb (StageLog.stage_id lg) k) logs with
  | Some lg => StageLog.success lg
  | None => false
  end.

(** The abilities with a canned answer in [SimpleLangGraphAgent._simulate_ability]. *)
Definition simple_known_abilities : list string :=
  [ "parse_request_text"; "extract_entities"; "normalize_fields"; "enrich_records";
    "add_flags_calculations"; "knowledge_base_search"; "solution_evaluation";
    "response_generation" ].

(** The ticket [p] with another query. *)
Definition with_query (text : string) (p : InputPayload) : InputPayload :=
  {| customer_name := customer_name p; email := email p; query := text;
     priority := priority p; ticket_id := ticket_id p |}.

(** The request for the clarifying question fails; the model asks for
    clarification. *)
Definition clarification_down : Env :=
  {| runtime := ascii_runtime;
     llm_ainvoke := llm_yes;
     server_call := fun server_name ability_name payload t =>
       if String.eqb ability_name "clarify_question"
       then inl (Exception "ConnectError" "All connection attempts failed")
       else _simulate_server_call ascii_runtime server_name ability_name payload t |}.

(** ** The custom demo ([simple_demo.py]) *)

(** [s or d] on texts *)
Definition or_default (s d : string) : string := if String.eqb s "" then d else s.

(** [priority_map] of [run_custom_demo] *)
Definition priority_map : list (string * Priority) :=
  [ ("low", LOW); ("medium", MEDIUM); ("high", HIGH); ("critical", CRITICAL) ].

(** [priority_map.get(k, default)] *)
Fixpoint priority_map_get (m : list (string * Priority)) (k : string) (default : Priority)
  : Priority :=
  match m with
  | [] => default
  | (k', p) :: rest => if String.eqb k k' then p else priority_map_get rest k default
  end.

(** The ticket that [run_custom_demo] builds from the four lines typed
    by the user; [id] is the identifier that the default factory of
    [ticket_id] draws. *)
Definition custom_ticket (rt : Runtime) (name mail text level id : string)
  : InputPayload :=
  let customer_name := or_default (str_strip rt name) "Test Customer" in
  let email := or_default (str_strip rt mail) "test@example.com" in
  let query := or_default (str_strip rt text) "I need help with my account" in
  let priority_input := or_default (str_lower rt (str_strip rt level)) "medium" in
  {| customer_name := customer_name;
     email := email;
     query := query;
     priority := priority_map_get priority_map priority_input MEDIUM;
     ticket_id := id |}.

(** [run_custom_demo], up to the call of the agent; the printing of the
    results is omitted. *)
Definition run_custom_demo (rt : Runtime) (name mail text level id : string)
  : M OutputPayload :=
  SimpleLangGraphAgent.process_ticket (simple_simulated rt)
    (custom_ticket rt name mail text level id).

(** The language model has answered the prompt of ASK, built in the
    state [s], with a text that contains YES once in upper case. *)
Definition model_asks (env : Env) (s : CustomerSupportState) : bool :=
  match llm_ainvoke env "You are Langie, a structured customer support agent."
          (LangGraphCustomerSupportAgent.ticket_summary s) with
  | inr content => LangGraphCustomerSupportAgent.contains_YES (str_upper (runtime env) content)
  | inl _ => false
  end.

(** The stages before ASK *)
Definition run_to_prepare (env : Env) : M unit :=
  LangGraphCustomerSupportAgent.stage_01_intake env;;
  LangGraphCustomerSupportAgent.stage_02_understand env;;
  LangGraphCustomerSupportAgent.stage_03_prepare env.

(** * Properties *)

Import LangGraphCustomerSupportAgent.

(** ** Running stage code symbolically *)

Lemma alter_snoc {A} (f : A -> A) (l : list A) (x : A) :
  alter f (length l) (l ++ [x]) = l ++ [f x].
Proof.
  rewrite <- (Nat.add_0_r (length l)), alter_app_r. reflexivity.
Qed.

(** A call through the manager returns an execution record of the
    ability, whatever the server does, and moves nothing but the clock. *)
Lemma MCPManager_execute_ability_returns env server_name ability_name payload h :
  exists ex t,
    MCPManager_execute_ability env server_name ability_name payload h
      = (Return ex, at_time t h) /\
    AbilityExecution.ability_name ex = ability_name.
Proof.
  unfold MCPManager_execute_ability.
  destruct (MCPManager.clients (mcp_manager h) !! server_name) as [client|].
  - unfold MCPClient_execute_ability, bind, now, try_except, lift, ret, raise. simpl.
    destruct (server_call env _ _ _ _); simpl; eauto.
  - unfold bind, now, ret. simpl. eauto.
Qed.

#[global] Arguments MCPManager_execute_ability : simpl never.

Ltac unfold_stage_code :=
  unfold stage, _log_stage_start, _log_stage_complete, _execute_abilities, execute_one,
    modify_log, update_field, item, escalation_rule,
    bind, ret, try_except, lift, raise, get_state, modify_state, now.

Ltac normalise := repeat (progress (unfold_stage_code; simpl; rewrite ?alter_snoc)).

(** One step: name the result of the next call of a provider, or split
    on the innermost value that the code inspects. *)
Ltac run_step :=
  match goal with
  | |- context [MCPManager_execute_ability ?e ?s ?a ?p ?h] =>
      let ex := fresh "ex" in
      let t := fresh "t" in
      let Hrun := fresh "Hrun" in
      let Hname := fresh "Hname" in
      destruct (MCPManager_execute_ability_returns e s a p h) as (ex & t & Hrun & Hname);
      rewrite Hrun; clear Hrun
  | |- context [match ?x with _ => _ end] =>
      lazymatch x with
      | context [match _ with _ => _ end] => fail
      | _ => destruct x eqn:?
      end
  end; normalise.

Ltac run_stage := normalise; repeat run_step.

(** Closes the goal [exists h', c h = (Return tt, h') /\ P h'] once the
    code [c] has been run. *)
Ltac conclude :=
  eexists; split; [reflexivity|]; unfold stage_effect, same_decision; simpl;
  repeat split; eauto.

Section Stages.

Variable env : Env.

Lemma stage_01_quiet h :
  exists h', stage_01_intake env h = (Return tt, h') /\
             stage_effect 1 h h' /\ same_decision (state h) (state h').
Proof. unfold stage_01_intake. run_stage. all: conclude. Qed.

Lemma stage_02_quiet h :
  exists h', stage_02_understand env h = (Return tt, h') /\
             stage_effect 2 h h' /\ same_decision (state h) (state h').
Proof. unfold stage_02_understand. run_stage. all: conclude. Qed.

Lemma stage_03_quiet h :
  exists h', stage_03_prepare env h = (Return tt, h') /\
             stage_effect 3 h h' /\ same_decision (state h) (state h').
Proof. unfold stage_03_prepare. run_stage. all: conclude. Qed.

Lemma stage_04_quiet h :
  exists h', stage_04_ask env h = (Return tt, h') /\
             stage_effect 4 h h' /\ same_decision (state h) (state h').
Proof. unfold stage_04_ask. run_stage. all: conclude. Qed.

Lemma stage_05_quiet h :
  exists h', stage_05_wait env h = (Return tt, h') /\
             stage_effect 5 h h' /\ same_decision (state h) (state h').
Proof. unfold stage_05_wait. run_stage. all: conclude. Qed.

Lemma stage_06_quiet h :
  exists h', stage_06_retrieve env h = (Return tt, h') /\
             stage_effect 6 h h' /\ same_decision (state h) (state h').
Proof. unfold stage_06_retrieve. run_stage. all: conclude. Qed.

Lemma stage_07_effect h :
  exists h', stage_07_decide env h = (Return tt, h') /\ stage_effect 7 h h'.
Proof. unfold stage_07_decide. run_stage. all: conclude. Qed.

Lemma stage_08_effect h :
  exists h', stage_08_update env h = (Return tt, h') /\ stage_effect 8 h h' /\
             confidence_score (state h') = confidence_score (state h) /\
             escalation_needed (state h') = escalation_needed (state h) /\
             escalation_reason (state h') = escalation_reason (state h).
Proof. unfold stage_08_update. run_stage. all: conclude. Qed.

Lemma stage_09_quiet h :
  exists h', stage_09_create env h = (Return tt, h') /\
             stage_effect 9 h h' /\ same_decision (state h) (state h').
Proof. unfold stage_09_create. run_stage. all: conclude. Qed.

Lemma stage_10_quiet h :
  exists h', stage_10_do env h = (Return tt, h') /\
             stage_effect 10 h h' /\ same_decision (state h) (state h').
Proof. unfold stage_10_do. run_stage. all: conclude. Qed.

Lemma stage_11_quiet h :
  exists h', stage_11_complete env h = (Return tt, h') /\
             stage_effect 11 h h' /\ same_decision (state h) (state h').
Proof. unfold stage_11_complete. run_stage. all: conclude. Qed.

End Stages.

(** ** The run of the graph *)

Lemma bind_return {A B} (c : M A) (k : A -> M B) h a h' :
  c h = (Return a, h') -> bind c k h = k a h'.
Proof. unfold bind. intros ->. reflexivity. Qed.

Lemma bind_assoc {A B C} (c : M A) (k : A -> M B) (k' : B -> M C) h :
  bind (bind c k) k' h = bind c (fun a => bind (k a) k') h.
Proof. unfold bind. destruct (c h) as [[a|e] h']; reflexivity. Qed.

(** Runs the first computation of a sequence, given its result [E]. *)
Ltac advance E := rewrite ?bind_assoc; rewrite (bind_return _ _ _ _ _ E); cbv beta.

Section Graph.

Variable env : Env.

(** Every node returns. *)
Lemma node_action_returns n h : exists h', node_action env n h = (Return tt, h').
Proof.
  destruct n; simpl.
  - destruct (stage_01_quiet env h) as (h' & E & _); eauto.
  - destruct (stage_02_quiet env h) as (h' & E & _); eauto.
  - destruct (stage_03_quiet env h) as (h' & E & _); eauto.
  - destruct (stage_04_quiet env h) as (h' & E & _); eauto.
  - destruct (stage_05_quiet env h) as (h' & E & _); eauto.
  - destruct (stage_06_quiet env h) as (h' & E & _); eauto.
  - destruct (stage_07_effect env h) as (h' & E & _); eauto.
  - destruct (stage_08_effect env h) as (h' & E & _); eauto.
  - destruct (stage_09_quiet env h) as (h' & E & _); eauto.
  - destruct (stage_10_quiet env h) as (h' & E & _); eauto.
  - destruct (stage_11_quiet env h) as (h' & E & _); eauto.
Qed.

Lemma run_graph_step limit n h h' :
  node_action env n h = (Return tt, h') ->
  run_graph env (S limit) n h =
    match successor n (state h') with
    | inl e => (Raise e, h')
    | inr END => (Return tt, h')
    | inr (Node n') => run_graph env limit n' h'
    end.
Proof.
  intros E. cbn [run_graph]. unfold bind at 1. rewrite E.
  unfold bind, get_state, lift, raise, ret.
  destruct (successor n (state h')) as [e|[n'|]]; reflexivity.
Qed.

(** A run of the graph is the run to the branch after ["decide"], then
    the rest unless the state asks for escalation. *)
Lemma escalate_route s :
  String.eqb (_should_escalate s) "escalate" = truthy (escalation_needed s).
Proof. unfold _should_escalate. destruct (truthy (escalation_needed s)); reflexivity. Qed.

Lemma wait_route s :
  String.eqb (_should_wait s) "wait"
  = clarification_requested s && negb (truthy (human_response s)).
Proof.
  unfold _should_wait.
  destruct (clarification_requested s && negb (truthy (human_response s))); reflexivity.
Qed.

Lemma successor_decide s :
  successor decide s = inr (if truthy (escalation_needed s) then END else Node update).
Proof.
  unfold successor. simpl. unfold _should_escalate.
  destruct (truthy (escalation_needed s)); reflexivity.
Qed.

Lemma successor_ask s :
  successor ask s
  = inr (Node (if clarification_requested s && negb (truthy (human_response s))
               then wait else retrieve)).
Proof.
  unfold successor. simpl. unfold _should_wait.
  destruct (clarification_requested s && negb (truthy (human_response s))); reflexivity.
Qed.

Lemma workflow_ainvoke_split h :
  workflow_ainvoke env h =
    (run_to_decide env;;
     let* s := get_state in
     if String.eqb (_should_escalate s) "escalate" then ret tt else run_after_decide env) h.
Proof.
  unfold workflow_ainvoke, recursion_limit, run_to_decide, run_to_ask, run_after_decide.
  destruct (node_action_returns intake h) as (h1 & E1).
  destruct (node_action_returns understand h1) as (h2 & E2).
  destruct (node_action_returns prepare h2) as (h3 & E3).
  destruct (node_action_returns ask h3) as (h4 & E4).
  rewrite (run_graph_step _ _ _ _ E1); cbn [successor edges].
  rewrite (run_graph_step _ _ _ _ E2); cbn [successor edges].
  rewrite (run_graph_step _ _ _ _ E3); cbn [successor edges].
  rewrite (run_graph_step _ _ _ _ E4), successor_ask.
  cbn [node_action] in *.
  advance E1. advance E2. advance E3. advance E4.
  advance (eq_refl (get_state h4)). rewrite wait_route.
  assert (Hrest : forall limit h5,
    run_graph env (S (S (S (S (S (S limit)))))) retrieve h5 =
    bind (stage_06_retrieve env) (fun _ => bind (stage_07_decide env) (fun _ =>
      bind get_state (fun s =>
        if String.eqb (_should_escalate s) "escalate" then ret tt
        else bind (stage_08_update env) (fun _ => bind (stage_09_create env) (fun _ =>
             bind (stage_10_do env) (fun _ => stage_11_complete env)))))) h5).
  { intros limit h5.
    destruct (node_action_returns retrieve h5) as (h6 & E6).
    destruct (node_action_returns decide h6) as (h7 & E7).
    rewrite (run_graph_step _ _ _ _ E6); cbn [successor edges].
    rewrite (run_graph_step _ _ _ _ E7), successor_decide.
    cbn [node_action] in *.
    advance E6. advance E7. advance (eq_refl (get_state h7)). rewrite escalate_route.
    cbn [state fst snd].
    destruct (truthy (escalation_needed (state h7))); [reflexivity|].
    destruct (node_action_returns update h7) as (h8 & E8).
    destruct (node_action_returns create h8) as (h9 & E9).
    destruct (node_action_returns do h9) as (h10 & E10).
    destruct (node_action_returns complete h10) as (h11 & E11).
    rewrite (run_graph_step _ _ _ _ E8); cbn [successor edges].
    rewrite (run_graph_step _ _ _ _ E9); cbn [successor edges].
    rewrite (run_graph_step _ _ _ _ E10); cbn [successor edges].
    rewrite (run_graph_step _ _ _ _ E11); cbn [successor edges].
    cbn [node_action] in *.
    advance E8. advance E9. advance E10.
    symmetry; exact E11. }
  destruct (clarification_requested (state h4) && negb (truthy (human_response (state h4)))).
  - destruct (node_action_returns wait h4) as (h5 & E5).
    rewrite (run_graph_step _ _ _ _ E5); cbn [successor edges].
    cbn [node_action] in *.
    advance E5. rewrite ?bind_assoc. exact (Hrest 14 h5).
  - advance (eq_refl (ret tt h4)). rewrite ?bind_assoc. exact (Hrest 15 h4).
Qed.

End Graph.


(** ** Sequences of stages *)

Lemma run_effect_refl h : run_effect [] h h.
Proof.
  repeat split. exists []. rewrite app_nil_r. repeat split. constructor.
Qed.

Lemma run_effect_stage k h h' : stage_effect k h h' -> run_effect [k] h h'.
Proof.
  intros (Hm & Hl & Hi & lg & Hlogs & Hid & Hend).
  repeat split; trivial. exists [lg]. repeat split; trivial.
  - unfold stage_ids. simpl. rewrite Hid. reflexivity.
  - repeat constructor. exact Hend.
Qed.

Lemma run_effect_trans a b h h' h'' :
  run_effect a h h' -> run_effect b h' h'' -> run_effect (a ++ b) h h''.
Proof.
  intros (Hm & Hl & Hi & la & Hla & Hida & Ha) (Hm' & Hl' & Hi' & lb & Hlb & Hidb & Hb).
  repeat split; try congruence.
  exists (la ++ lb). repeat split.
  - rewrite Hlb, Hla, app_assoc. reflexivity.
  - unfold stage_ids in *. rewrite map_app. congruence.
  - apply Forall_app. split; assumption.
Qed.

Lemma same_decision_refl s : same_decision s s.
Proof. repeat split. Qed.

Lemma same_decision_trans s s' s'' :
  same_decision s s' -> same_decision s' s'' -> same_decision s s''.
Proof.
  intros (H1 & H2 & H3 & H4) (H1' & H2' & H3' & H4'). repeat split; congruence.
Qed.

Section RunEffects.

Variable env : Env.

Lemma run_to_ask_effect h :
  exists h4, run_to_ask env h = (Return tt, h4) /\
             run_effect [1; 2; 3; 4] h h4 /\ same_decision (state h) (state h4).
Proof.
  unfold run_to_ask.
  destruct (stage_01_quiet env h) as (h1 & E1 & S1 & D1).
  destruct (stage_02_quiet env h1) as (h2 & E2 & S2 & D2).
  destruct (stage_03_quiet env h2) as (h3 & E3 & S3 & D3).
  destruct (stage_04_quiet env h3) as (h4 & E4 & S4 & D4).
  exists h4. advance E1. advance E2. advance E3. split; [exact E4|]. split.
  - apply (run_effect_trans [1] [2; 3; 4] h h1 h4); [apply run_effect_stage, S1|].
    apply (run_effect_trans [2] [3; 4] h1 h2 h4); [apply run_effect_stage, S2|].
    apply (run_effect_trans [3] [4] h2 h3 h4); apply run_effect_stage; assumption.
  - eauto using same_decision_trans.
Qed.

(** The run to the branch after ["decide"]: [h4] is the heap at the
    branch after ["ask"], [h6] the heap in which stage 7 starts. *)
Lemma run_to_decide_effect h :
  exists h4 h6 h7,
    run_to_ask env h = (Return tt, h4) /\
    stage_07_decide env h6 = (Return tt, h7) /\
    run_to_decide env h = (Return tt, h7) /\
    run_effect ([1; 2; 3; 4] ++ (if waits (state h4) then [5] else []) ++ [6]) h h6 /\
    same_decision (state h) (state h6) /\
    stage_effect 7 h6 h7.
Proof.
  destruct (run_to_ask_effect h) as (h4 & E4 & R4 & D4).
  assert (exists h5, (if waits (state h4) then stage_05_wait env else ret tt) h4 = (Return tt, h5)
                     /\ run_effect (if waits (state h4) then [5] else []) h4 h5
                     /\ same_decision (state h4) (state h5)) as (h5 & E5 & R5 & D5).
  { destruct (waits (state h4)).
    - destruct (stage_05_quiet env h4) as (h5 & E5 & S5 & D5).
      exists h5. auto using run_effect_stage.
    - exists h4. auto using run_effect_refl, same_decision_refl. }
  destruct (stage_06_quiet env h5) as (h6 & E6 & S6 & D6).
  destruct (stage_07_effect env h6) as (h7 & E7 & S7).
  exists h4, h6, h7. split; [exact E4|]. split; [exact E7|]. split.
  - unfold run_to_decide. advance E4. advance (eq_refl (get_state h4)).
    rewrite wait_route. fold (waits (state h4)). advance E5. advance E6. exact E7.
  - split; [|split; [|exact S7]].
    + eapply run_effect_trans; [exact R4|].
      eapply run_effect_trans; [exact R5|]. apply run_effect_stage, S6.
    + eauto using same_decision_trans.
Qed.

Lemma run_after_decide_effect h7 :
  exists h8 h11,
    stage_08_update env h7 = (Return tt, h8) /\
    run_after_decide env h7 = (Return tt, h11) /\
    run_effect [8; 9; 10; 11] h7 h11 /\
    same_decision (state h8) (state h11).
Proof.
  destruct (stage_08_effect env h7) as (h8 & E8 & S8 & _).
  destruct (stage_09_quiet env h8) as (h9 & E9 & S9 & D9).
  destruct (stage_10_quiet env h9) as (h10 & E10 & S10 & D10).
  destruct (stage_11_quiet env h10) as (h11 & E11 & S11 & D11).
  exists h8, h11. split; [exact E8|]. split.
  - unfold run_after_decide. advance E8. advance E9. advance E10. exact E11.
  - split.
    + apply (run_effect_trans [8] [9; 10; 11] h7 h8 h11); [apply run_effect_stage, S8|].
      apply (run_effect_trans [9] [10; 11] h8 h9 h11); [apply run_effect_stage, S9|].
      apply (run_effect_trans [10] [11] h9 h10 h11); apply run_effect_stage; assumption.
    + eauto using same_decision_trans.
Qed.

(** The whole run of the graph: [h7] is the heap at the branch after
    ["decide"], where the run ends if the state asks for escalation. *)
Lemma workflow_ainvoke_effect h :
  exists h4 h7 h',
    run_to_ask env h = (Return tt, h4) /\
    run_to_decide env h = (Return tt, h7) /\
    workflow_ainvoke env h = (Return tt, h') /\
    run_effect ([1; 2; 3; 4] ++ (if waits (state h4) then [5] else []) ++ [6; 7]) h h7 /\
    run_effect (if truthy (escalation_needed (state h7)) then [] else [8; 9; 10; 11]) h7 h' /\
    (truthy (escalation_needed (state h7)) = true -> h' = h7).
Proof.
  destruct (run_to_decide_effect h) as (h4 & h6 & h7 & E4 & E7 & Erun & R6 & D6 & S7).
  assert (R7 : run_effect ([1; 2; 3; 4] ++ (if waits (state h4) then [5] else []) ++ [6; 7]) h h7).
  { replace ([1; 2; 3; 4] ++ (if waits (state h4) then [5] else []) ++ [6; 7])
      with (([1; 2; 3; 4] ++ (if waits (state h4) then [5] else []) ++ [6]) ++ [7]).
    - eapply run_effect_trans; [exact R6|]. apply run_effect_stage, S7.
    - destruct (waits (state h4)); reflexivity. }
  destruct (truthy (escalation_needed (state h7))) eqn:Hesc.
  - exists h4, h7, h7. rewrite Hesc. split; [exact E4|]. split; [exact Erun|]. split.
    { rewrite workflow_ainvoke_split. advance Erun. advance (eq_refl (get_state h7)).
      rewrite escalate_route, Hesc. reflexivity. }
    split; [exact R7|]. split; [apply run_effect_refl|reflexivity].
  - destruct (run_after_decide_effect h7) as (h8 & h11 & E8 & Eafter & R11 & D11).
    exists h4, h7, h11. rewrite Hesc. split; [exact E4|]. split; [exact Erun|]. split.
    { rewrite workflow_ainvoke_split. advance Erun. advance (eq_refl (get_state h7)).
      rewrite escalate_route, Hesc. exact Eafter. }
    split; [exact R7|]. split; [exact R11|discriminate].
Qed.

End RunEffects.


(** ** The ability registry *)

(** C5: the registry's [execute_ability] never raises.  For every
    provider id and ability name it returns an execution record: for an
    unknown provider id, and when the handler of the provider raises, the
    record has the status ["error"] and carries the text of the error. *)
Theorem C5_execute_ability_never_raises (env : Env) (server_name ability_name : string)
    (payload : Dict) (h : Heap) :
  exists ex t,
    MCPManager_execute_ability env server_name ability_name payload h
      = (Return ex, at_time t h) /\
    AbilityExecution.ability_name ex = ability_name /\
    match MCPManager.clients (mcp_manager h) !! server_name with
    | None =>
        AbilityExecution.status ex = "error" /\
        AbilityExecution.error ex = Some ("Unknown server: " +:+ server_name) /\
        AbilityExecution.result ex = None
    | Some client =>
        match server_call env (MCPClient.server_name client) ability_name payload
                (S (clock h)) with
        | inl e =>
            AbilityExecution.status ex = "error" /\
            AbilityExecution.error ex = Some (str_exn e) /\
            AbilityExecution.result ex = None
        | inr response =>
            AbilityExecution.status ex = "success" /\
            AbilityExecution.result ex = Some response /\
            AbilityExecution.error ex = None
        end
    end.
Proof.
  unfold MCPManager_execute_ability.
  destruct (MCPManager.clients (mcp_manager h) !! server_name) as [client|].
  - unfold MCPClient_execute_ability, bind, now, try_except, lift, ret, raise. simpl.
    destruct (server_call env _ _ _ _); simpl; eauto 10.
  - unfold bind, now, ret. simpl. eauto 10.
Qed.

Lemma record_executions_nil l : record_executions [] l = l.
Proof. destruct l. unfold record_executions. simpl. rewrite app_nil_r. reflexivity. Qed.

Lemma record_executions_app exs exs' l :
  record_executions exs' (record_executions exs l) = record_executions (exs ++ exs') l.
Proof. unfold record_executions. simpl. rewrite app_assoc. reflexivity. Qed.

Lemma recorded_nothing stage_log h : recorded stage_log [] (clock h) h = h.
Proof.
  unfold recorded.
  rewrite (list_alter_id (record_executions [])) by (intros; apply record_executions_nil).
  destruct h as [s m c l]. destruct s. reflexivity.
Qed.

Lemma recorded_more stage_log exs exs' t t' h :
  recorded stage_log exs' t' (recorded stage_log exs t h) = recorded stage_log (exs ++ exs') t' h.
Proof.
  unfold recorded. simpl. rewrite list_alter_alter_eq.
  rewrite (list_alter_ext (record_executions exs' ∘ record_executions exs)
             (record_executions (exs ++ exs')) (stage_logs (state h)) (stage_logs (state h)));
    [reflexivity| |reflexivity].
  intros. apply record_executions_app.
Qed.

Section Abilities.

Variable env : Env.

(** One ability: an internal one changes nothing; a remote one records
    its execution in the log [stage_log] and moves the clock. *)
Lemma execute_one_effect stage_log payload ability_name server h :
  exists result t exs,
    execute_one env stage_log payload ability_name server h
      = (Return result, recorded stage_log exs t h) /\
    map AbilityExecution.ability_name exs
      = map fst (remote_abilities [(ability_name, server)]) /\
    (exs = [] -> t = clock h).
Proof.
  unfold execute_one, remote_abilities. cbn [List.filter snd].
  destruct (String.eqb server "internal"); cbn [negb].
  - exists (VDict (_execute_internal_ability ability_name (state h))), (clock h), [].
    split; [|split; reflexivity]. rewrite recorded_nothing. reflexivity.
  - destruct (MCPManager_execute_ability_returns env server ability_name payload h)
      as (ex & t & Hrun & Hname).
    exists (opt_dict (AbilityExecution.result ex)), t, [ex].
    split; [|split; [simpl; rewrite Hname; reflexivity|discriminate]].
    unfold bind. rewrite Hrun. reflexivity.
Qed.

Lemma execute_loop_effect stage_log payload abilities :
  forall results h,
  exists results' t exs,
    execute_loop env stage_log payload abilities results h
      = (Return results', recorded stage_log exs t h) /\
    map AbilityExecution.ability_name exs = map fst (remote_abilities abilities) /\
    (exs = [] -> t = clock h).
Proof.
  induction abilities as [|[ability_name server] rest IH]; intros results h.
  - exists results, (clock h), []. split; [|split; reflexivity].
    rewrite recorded_nothing. reflexivity.
  - destruct (execute_one_effect stage_log payload ability_name server h)
      as (result & t & exs & Hone & Hnames & Ht).
    cbn [execute_loop]. unfold bind at 1. rewrite Hone.
    match goal with |- context [execute_loop _ _ _ _ ?r ?h1] =>
      destruct (IH r h1) as (results' & t' & exs' & Hloop & Hnames' & Ht') end.
    rewrite Hloop, recorded_more. exists results', t', (exs ++ exs').
    split; [reflexivity|]. split.
    + rewrite map_app, Hnames, Hnames'. unfold remote_abilities. cbn [List.filter snd].
      destruct (negb (String.eqb server "internal")); reflexivity.
    + intros [-> ->]%app_eq_nil. rewrite (Ht' eq_refl). exact (Ht eq_refl).
Qed.

Lemma remote_abilities_none abilities :
  forallb (fun a => String.eqb (snd a) "internal") abilities = true ->
  remote_abilities abilities = [].
Proof.
  induction abilities as [|a rest IH]; [reflexivity|].
  cbn [forallb]. intros [Ha Hrest]%andb_prop. unfold remote_abilities. cbn [List.filter].
  rewrite Ha. exact (IH Hrest).
Qed.

End Abilities.

(** C9: only the abilities dispatched to a server other than
    ["internal"] leave an execution record.  [_execute_abilities] changes
    the state in one place only, the log of its stage, to which it appends
    one record per remote ability, in order; so the logs of INTAKE and of
    COMPLETE, whose abilities are all internal, have no execution record. *)
Theorem C9_internal_abilities_leave_no_record (env : Env) (stage_log : nat)
    (abilities : list (string * string)) (h : Heap) :
  (exists results t exs,
     _execute_abilities env stage_log abilities h
       = (Return results, recorded stage_log exs t h) /\
     map AbilityExecution.ability_name exs = map fst (remote_abilities abilities) /\
     (if forallb (fun a => String.eqb (snd a) "internal") abilities
      then exs = [] /\ recorded stage_log exs t h = h
      else True)) /\
  (exists lg,
     stage_logs (state (exec (stage_01_intake env) h)) = stage_logs (state h) ++ [lg] /\
     StageLog.stage_id lg = 1 /\ StageLog.abilities_executed lg = []) /\
  (exists lg,
     stage_logs (state (exec (stage_11_complete env) h)) = stage_logs (state h) ++ [lg] /\
     StageLog.stage_id lg = 11 /\ StageLog.abilities_executed lg = []).
Proof.
  split; [|split].
  - unfold _execute_abilities. unfold bind at 1. unfold get_state.
    destruct (execute_loop_effect env stage_log (InputPayload_dict (input_payload (state h)))
                abilities [] h) as (results & t & exs & Hrun & Hnames & Ht).
    exists results, t, exs. split; [exact Hrun|]. split; [exact Hnames|].
    destruct (forallb _ abilities) eqn:Hall; [|exact I].
    rewrite (remote_abilities_none _ Hall) in Hnames.
    apply map_eq_nil in Hnames. subst exs. split; [reflexivity|].
    rewrite (Ht eq_refl). apply recorded_nothing.
  - unfold exec, stage_01_intake. run_stage. simpl. eexists. split; [reflexivity|].
    split; reflexivity.
  - unfold exec, stage_11_complete. run_stage. simpl. eexists. split; [reflexivity|].
    split; reflexivity.
Qed.


(** ** The entry point *)

(** [process_ticket] runs the graph from a new state, builds the output
    record from the state in which the graph ends, and closes the
    providers whether the record was built or not. *)
Lemma process_ticket_run env input_payload h :
  exists h',
    workflow_ainvoke env (start_of_run input_payload h) = (Return tt, h') /\
    process_ticket env input_payload h
      = (output_of env input_payload h h',
         exec MCPManager_close (at_time (S (S (clock h'))) h')).
Proof.
  destruct (workflow_ainvoke_effect env (start_of_run input_payload h))
    as (h4 & h7 & h' & _ & _ & Erun & _).
  exists h'. split; [exact Erun|].
  unfold process_ticket, new_state, try_finally, try_except, output_of.
  unfold bind at 1. unfold now at 1. cbv beta iota.
  unfold bind at 1. unfold bind at 1. unfold now at 1. cbv beta iota.
  unfold bind at 1. unfold now at 1. cbv beta iota.
  unfold modify_state at 1. cbv beta iota.
  change (with_state _ _) with (start_of_run input_payload h).
  unfold bind at 1. rewrite Erun.
  unfold bind, get_state, now, lift, raise, ret, MCPManager_close, exec. simpl.
  destruct (make_output env input_payload (state h') (stage_logs (state h')) _ _);
    reflexivity.
Qed.

(** C8: after [process_ticket], whether it returned an output record or
    raised, [aclose()] has been called exactly once more on the connection
    of every client registered in the manager. *)
Theorem C8_every_provider_closed_once (env : Env) (input_payload : InputPayload)
    (h : Heap) (server_name : string) :
  MCPManager.clients (mcp_manager (exec (process_ticket env input_payload) h)) !! server_name
  = aclose <$> (MCPManager.clients (mcp_manager h) !! server_name).
Proof.
  destruct (process_ticket_run env input_payload h) as (h' & Erun & Eprocess).
  destruct (workflow_ainvoke_effect env (start_of_run input_payload h))
    as (h4 & h7 & h'' & _ & _ & Erun' & R7 & R11 & _).
  rewrite Erun in Erun'. injection Erun' as <-.
  unfold exec at 1. rewrite Eprocess. unfold exec, MCPManager_close. simpl.
  destruct R7 as (M7 & _). destruct R11 as (M11 & _).
  rewrite M11, M7. simpl. apply lookup_fmap.
Qed.


(** ** Unknown abilities *)

Lemma table_get_unknown responses k default :
  existsb (String.eqb k) (map fst responses) = false -> table_get responses k default = default.
Proof.
  induction responses as [|[k' d] rest IH]; [reflexivity|].
  cbn [map fst existsb table_get]. intros [Hk Hrest]%orb_false_elim.
  rewrite Hk. exact (IH Hrest).
Qed.

Lemma common_responses_ticket rt t input_payload :
  exists responses,
    common_responses rt t (InputPayload_dict input_payload) = inr responses /\
    map fst responses = known_abilities "COMMON".
Proof. eexists. split; reflexivity. Qed.

(** The simulated servers answer an unknown ability with the
    "not found" dictionary, at any time, for the payload of any ticket. *)
Lemma _simulate_server_call_unknown rt server_name ability_name input_payload t :
  is_known server_name ability_name = false ->
  _simulate_server_call rt server_name ability_name (InputPayload_dict input_payload) t
  = inr (no_answer server_name).
Proof.
  unfold is_known, known_abilities, _simulate_server_call, no_answer.
  destruct (String.eqb server_name "ATLAS").
  - intros Hk. unfold _atlas_ability_response. rewrite table_get_unknown; [reflexivity|].
    exact Hk.
  - destruct (String.eqb server_name "COMMON"); [|reflexivity].
    intros Hk. unfold _common_ability_response.
    destruct (common_responses_ticket rt t input_payload) as (responses & -> & Hnames).
    rewrite table_get_unknown; [reflexivity|]. rewrite Hnames. exact Hk.
Qed.

(** C7: executing an ability that the servers do not know returns an
    execution record with the status ["success"] whose result is the
    structured "not found" dictionary; executing it a second time returns
    the same result, and the two calls leave the heap as it was but for the
    clock. *)
Theorem C7_unknown_ability_not_found (rt : Runtime)
    (llm : string -> list value -> exn + string) (input_payload : InputPayload)
    (server_name ability_name : string) (client : MCPClient) (h : Heap) :
  MCPManager.clients (mcp_manager h) !! server_name = Some client ->
  is_known (MCPClient.server_name client) ability_name = false ->
  exists ex1 ex2 t1 t2,
    MCPManager_execute_ability (simulated rt llm) server_name ability_name
      (InputPayload_dict input_payload) h = (Return ex1, at_time t1 h) /\
    MCPManager_execute_ability (simulated rt llm) server_name ability_name
      (InputPayload_dict input_payload) (at_time t1 h) = (Return ex2, at_time t2 h) /\
    AbilityExecution.result ex1 = Some (no_answer (MCPClient.server_name client)) /\
    AbilityExecution.result ex2 = AbilityExecution.result ex1 /\
    AbilityExecution.status ex1 = "success" /\ AbilityExecution.status ex2 = "success" /\
    AbilityExecution.error ex1 = None /\ AbilityExecution.error ex2 = None.
Proof.
  intros Hclient Hunknown.
  assert (Hcall : forall h0, mcp_manager h0 = mcp_manager h ->
    exists ex t,
      MCPManager_execute_ability (simulated rt llm) server_name ability_name
        (InputPayload_dict input_payload) h0 = (Return ex, at_time t h0) /\
      AbilityExecution.result ex = Some (no_answer (MCPClient.server_name client)) /\
      AbilityExecution.status ex = "success" /\ AbilityExecution.error ex = None).
  { intros h0 Hmanager.
    unfold MCPManager_execute_ability. rewrite Hmanager, Hclient.
    unfold MCPClient_execute_ability, bind, now, try_except, lift, ret, raise. simpl.
    rewrite _simulate_server_call_unknown by exact Hunknown.
    do 2 eexists. repeat split. }
  destruct (Hcall h eq_refl) as (ex1 & t1 & E1 & R1 & S1 & Err1).
  destruct (Hcall (at_time t1 h) eq_refl) as (ex2 & t2 & E2 & R2 & S2 & Err2).
  exists ex1, ex2, t1, t2. repeat split; trivial. congruence.
Qed.

Lemma C7_unknown_ability_not_found_witness :
  MCPManager.clients (mcp_manager new_agent) !! "ATLAS" = Some atlas_client /\
  is_known "ATLAS" "refund_order" = false /\
  exists ex1 ex2 t1 t2,
    MCPManager_execute_ability (simulated ascii_runtime llm_no) "ATLAS" "refund_order"
      (InputPayload_dict sample_ticket) new_agent = (Return ex1, at_time t1 new_agent) /\
    MCPManager_execute_ability (simulated ascii_runtime llm_no) "ATLAS" "refund_order"
      (InputPayload_dict sample_ticket) (at_time t1 new_agent)
      = (Return ex2, at_time t2 new_agent) /\
    AbilityExecution.result ex1 = Some ability_not_found /\
    AbilityExecution.result ex2 = AbilityExecution.result ex1 /\
    AbilityExecution.status ex1 = "success" /\ AbilityExecution.status ex2 = "success" /\
    AbilityExecution.error ex1 = None /\ AbilityExecution.error ex2 = None.
Proof.
  split; [vm_compute; reflexivity|]. split; [reflexivity|].
  apply (C7_unknown_ability_not_found ascii_runtime llm_no sample_ticket "ATLAS"
           "refund_order" atlas_client new_agent); vm_compute; reflexivity.
Defined.


(** ** The decision of stage 7 and its use by stage 8 *)

Section Decision.

Variable env : Env.

Ltac use_comparisons :=
  repeat match goal with
         | H : py_lt _ _ = _ |- _ => rewrite H
         | H : py_ge _ _ = _ |- _ => rewrite H
         | H : truthy _ = _ |- _ => rewrite H
         end.

(** Stage 7, by the outcome of its body.  When the log of the stage is
    closed as a success, the escalation rule has been applied to the score
    that the stage stored: a score below 90 has forced the escalation.
    When it is closed as a failure, the status is as it was. *)
Lemma stage_07_rule h :
  exists h' lg,
    stage_07_decide env h = (Return tt, h') /\
    stage_logs (state h') = stage_logs (state h) ++ [lg] /\
    StageLog.stage_id lg = 7 /\
    (if StageLog.success lg then
       match py_lt (confidence_score (state h')) 90 with
       | inr true =>
           escalation_needed (state h') = VBool true /\
           escalation_reason (state h')
             = low_confidence_reason (runtime env) (confidence_score (state h')) /\
           ticket_status (state h') = ESCALATED
       | inr false => ticket_status (state h') = ticket_status (state h)
       | inl _ => False
       end
     else ticket_status (state h') = ticket_status (state h)).
Proof.
  unfold stage_07_decide. run_stage.
  all: do 2 eexists; split; [reflexivity|]; simpl; split; [reflexivity|]; split; [reflexivity|].
  all: simpl; use_comparisons; auto.
Qed.

(** Stage 8 sets the status to [RESOLVED] exactly when the score is at
    least 90 and the state does not ask for escalation. *)
Lemma stage_08_rule h :
  exists h',
    stage_08_update env h = (Return tt, h') /\
    ticket_status (state h')
    = match py_ge (confidence_score (state h)) 90 with
      | inr true => if truthy (escalation_needed (state h)) then ticket_status (state h)
                    else RESOLVED
      | _ => ticket_status (state h)
      end.
Proof.
  unfold stage_08_update. run_stage.
  all: eexists; split; [reflexivity|]; simpl; use_comparisons; auto.
  all: simpl in *; congruence.
Qed.

(** Stage 7 started with the default score: when it has stored an
    integer score of at least 90 and the server has answered the request
    for the escalation decision, the state holds the verdict and the reason
    of the server, and the status is as it was. *)
Lemma stage_07_verdict h :
  exists h' lg,
    stage_07_decide env h = (Return tt, h') /\
    stage_logs (state h') = stage_logs (state h) ++ [lg] /\
    forall n d,
      confidence_score (state h) = VFloat 0%float ->
      confidence_score (state h') = VInt n -> (90 <= n)%Z ->
      verdict_of lg = Some d ->
      escalation_needed (state h') = dict_get d "escalate" (VBool false) /\
      escalation_reason (state h') = dict_get d "reason" (VStr "") /\
      ticket_status (state h') = ticket_status (state h) /\
      StageLog.success lg = true.
Proof.
  unfold stage_07_decide. run_stage.
  all: do 2 eexists; split; [reflexivity|]; simpl; split; [reflexivity|].
  all: intros score verdict Hdefault Hscore Hhigh Hverdict; unfold verdict_of in Hverdict; simpl in *.
  all: try congruence.
  all: repeat match goal with H : AbilityExecution.ability_name _ = _ |- _ =>
                rewrite H in Hverdict; simpl in Hverdict end.
  all: try congruence.
  all: rewrite Hverdict in *; simpl in *; subst; simpl in *.
  all: repeat match goal with
              | H : inr _ = inr _ |- _ => injection H as H
              | H : inl _ = inr _ |- _ => discriminate H
              | H : inr _ = inl _ |- _ => discriminate H
              | H : (_ <? _)%Z = true |- _ => apply Z.ltb_lt in H
              end; subst.
  all: try lia.
  all: auto.
Qed.

End Decision.


(** ** The dependency-free agent *)

Ltac unfold_simple_code :=
  unfold SimpleLangGraphAgent._log_stage, SimpleLangGraphAgent._complete_stage,
    SimpleLangGraphAgent.append_log, SimpleLangGraphAgent.finish,
    SimpleLangGraphAgent.simulate, SimpleLangGraphAgent.executed, update_field,
    bind, ret, try_except, lift, raise, get_state, modify_state, now.

Ltac run_simple_step :=
  match goal with
  | |- context [match ?x with _ => _ end] =>
      lazymatch x with
      | context [match _ with _ => _ end] => fail
      | _ => destruct x eqn:?
      end
  end; repeat (progress (unfold_simple_code; simpl)).

Ltac run_simple := repeat (progress (unfold_simple_code; simpl)); repeat run_simple_step.

Ltac conclude_simple :=
  unfold simple_effect; simpl; repeat split; try congruence; eauto.

Section SimpleStages.

Variable env : Env.
Variable input_payload : InputPayload.

Lemma simple_stage_1 h : simple_effect 1 h (SimpleLangGraphAgent.stage_1 input_payload h).
Proof. unfold SimpleLangGraphAgent.stage_1. run_simple. all: conclude_simple. Qed.

Lemma simple_stage_2 h : simple_effect 2 h (SimpleLangGraphAgent.stage_2 env input_payload h).
Proof. unfold SimpleLangGraphAgent.stage_2. run_simple. all: conclude_simple. Qed.

Lemma simple_stage_3 h : simple_effect 3 h (SimpleLangGraphAgent.stage_3 env input_payload h).
Proof. unfold SimpleLangGraphAgent.stage_3. run_simple. all: conclude_simple. Qed.

Lemma simple_stage_4 h :
  simple_effect 4 h (SimpleLangGraphAgent.stage_4 input_payload h) /\
  SimpleLangGraphAgent.stage_4 input_payload h
  = (Return tt, exec (SimpleLangGraphAgent.stage_4 input_payload) h).
Proof. unfold exec, SimpleLangGraphAgent.stage_4. run_simple. all: conclude_simple. Qed.

Lemma simple_stage_5 h : simple_effect 5 h (SimpleLangGraphAgent.stage_5 h).
Proof. unfold SimpleLangGraphAgent.stage_5. run_simple. all: conclude_simple. Qed.

Lemma simple_stage_6 h : simple_effect 6 h (SimpleLangGraphAgent.stage_6 env input_payload h).
Proof. unfold SimpleLangGraphAgent.stage_6. run_simple. all: conclude_simple. Qed.

Lemma simple_stage_7 h : simple_effect 7 h (SimpleLangGraphAgent.stage_7 env input_payload h).
Proof. unfold SimpleLangGraphAgent.stage_7. run_simple. all: conclude_simple. Qed.

Lemma simple_stage_8 h : simple_effect 8 h (SimpleLangGraphAgent.stage_8 h).
Proof. unfold SimpleLangGraphAgent.stage_8. run_simple. all: conclude_simple. Qed.

Lemma simple_stage_9 h : simple_effect 9 h (SimpleLangGraphAgent.stage_9 env input_payload h).
Proof. unfold SimpleLangGraphAgent.stage_9. run_simple. all: conclude_simple. Qed.

Lemma simple_stage_10 h : simple_effect 10 h (SimpleLangGraphAgent.stage_10 input_payload h).
Proof. unfold SimpleLangGraphAgent.stage_10. run_simple. all: conclude_simple. Qed.

Lemma simple_stage_11 h : simple_effect 11 h (SimpleLangGraphAgent.stage_11 h).
Proof. unfold SimpleLangGraphAgent.stage_11. run_simple. all: conclude_simple. Qed.

(** Runs the next stage of the block [E : bind c k h = (r, hf)], whose
    effect is [Heffect]: either it raises, and so does the block, or it
    returns in a new heap. *)
Ltac simple_next Heffect E :=
  let E' := fresh "E" in
  let S' := fresh "S" in
  match type of E with
  | bind ?c _ ?hcur = _ =>
      pose proof (Heffect hcur) as S';
      unfold bind at 1 in E;
      destruct (c hcur) as [[[]|?] ?] eqn:E';
      [ | injection E as <- <-; intros; discriminate ];
      destruct S' as (? & ? & ? & ? & ?); simpl in *
  end.

Ltac simple_read E := unfold bind at 1 in E; unfold get_state at 1 in E; cbv beta iota in E.

Ltac use_frames :=
  repeat match goal with
         | H : ?k <> ?j -> _ |- _ =>
             first [ specialize (H ltac:(discriminate)) | clear H ]
         end.

(** The last stage of the block [E : stage_11 h = (r, hf)]. *)
Ltac simple_last Heffect E :=
  let S' := fresh "S" in
  match type of E with
  | ?c ?hcur = (_, ?hf) =>
      pose proof (Heffect hcur) as S'; rewrite E in S';
      destruct S' as (? & ? & ?); intros ->; simpl in *;
      use_frames;
      repeat match goal with H : exists _, _ |- _ => destruct H as (? & ? & ?) end;
      eexists; split;
      [ repeat match goal with H : local_stage_logs _ = _ |- _ => rewrite H; clear H end;
        rewrite <- !app_assoc; reflexivity
      | first [ replace (clarification_requested (state hf)) with true by congruence
              | replace (clarification_requested (state hf)) with false by congruence ];
        first [ replace (truthy (escalation_needed (state hf))) with true by congruence
              | replace (truthy (escalation_needed (state hf))) with false by congruence ];
        unfold stage_ids; simpl; congruence ]
  end.

(** The stages after the branch on clarification. *)
Ltac simple_rest E :=
  simple_next simple_stage_6 E;
  simple_next simple_stage_7 E;
  simple_read E;
  match type of E with
  | context [truthy (escalation_needed (state ?h7))] =>
      destruct (truthy (escalation_needed (state h7))) eqn:?
  end; simpl in E;
  [ unfold bind at 1 in E; unfold ret at 1 in E; simple_last simple_stage_11 E
  | rewrite ?bind_assoc in E; simple_next simple_stage_8 E;
    rewrite ?bind_assoc in E; simple_next simple_stage_9 E;
    simple_next simple_stage_10 E;
    simple_last simple_stage_11 E ].

(** A run of the block under [try:] that does not raise logs the stages
    1 to 4, 5 if clarification was requested, 6 and 7, 8 to 10 unless the
    state asks for escalation, and 11. *)
Lemma simple_stages_logs h :
  eval (SimpleLangGraphAgent.stages env input_payload) h = Return tt ->
  let h' := exec (SimpleLangGraphAgent.stages env input_payload) h in
  exists logs,
    local_stage_logs h' = local_stage_logs h ++ logs /\
    stage_ids logs
    = [1; 2; 3; 4] ++ (if clarification_requested (state h') then [5] else []) ++ [6; 7]
      ++ (if truthy (escalation_needed (state h')) then [] else [8; 9; 10]) ++ [11].
Proof.
  unfold eval, exec.
  destruct (SimpleLangGraphAgent.stages env input_payload h) as [r hf] eqn:E.
  simpl. unfold SimpleLangGraphAgent.stages in E.
  simple_next simple_stage_1 E.
  simple_next simple_stage_2 E.
  simple_next simple_stage_3 E.
  simple_next (fun h => proj1 (simple_stage_4 h)) E.
  simple_read E.
  match type of E with context [clarification_requested (state ?h4)] =>
    destruct (clarification_requested (state h4)) eqn:Hasked end.
  - simple_next simple_stage_5 E. simple_rest E.
  - unfold bind at 1 in E. unfold ret at 1 in E. simple_rest E.
Qed.

End SimpleStages.


(** ** The stage logs of a run *)

Lemma start_of_run_logs input_payload h :
  stage_logs (state (start_of_run input_payload h)) = [].
Proof. reflexivity. Qed.

Lemma exec_eq {A} (c : M A) h r h' : c h = (r, h') -> exec c h = h'.
Proof. unfold exec. intros ->. reflexivity. Qed.

Lemma eval_eq {A} (c : M A) h r h' : c h = (r, h') -> eval c h = r.
Proof. unfold eval. intros ->. reflexivity. Qed.

(** The logs of a run of the graph from a new state. *)
Lemma workflow_ainvoke_logs env input_payload h :
  let h0 := start_of_run input_payload h in
  let h4 := exec (run_to_ask env) h0 in
  let h7 := exec (run_to_decide env) h0 in
  let h' := exec (workflow_ainvoke env) h0 in
  stage_ids (stage_logs (state h'))
  = [1; 2; 3; 4] ++ (if waits (state h4) then [5] else []) ++ [6; 7]
    ++ (if truthy (escalation_needed (state h7)) then [] else [8; 9; 10; 11]) /\
  stage_ids (stage_logs (state h7))
  = [1; 2; 3; 4] ++ (if waits (state h4) then [5] else []) ++ [6; 7] /\
  Forall (fun lg => is_Some (StageLog.end_time lg)) (stage_logs (state h')).
Proof.
  intros h0 h4 h7 h'.
  destruct (workflow_ainvoke_effect env h0) as (h4' & h7' & h'' & E4 & E7 & E & R7 & R & _).
  subst h4 h7 h'. rewrite (exec_eq _ _ _ _ E4), (exec_eq _ _ _ _ E7), (exec_eq _ _ _ _ E).
  destruct R7 as (_ & _ & _ & logs7 & L7 & I7 & C7).
  destruct R as (_ & _ & _ & logs & L & I & C).
  unfold h0 in L7. rewrite start_of_run_logs, app_nil_l in L7.
  rewrite L, L7. unfold stage_ids in *. rewrite map_app, I7, I.
  split; [|split].
  - rewrite <- !app_assoc. reflexivity.
  - reflexivity.
  - apply Forall_app. split; assumption.
Qed.

(** The entry point of the dependency-free agent runs its stages from a
    new state, resets the status if they raise, and builds the output
    record from the state and the local list of logs. *)
Lemma simple_process_ticket_run env input_payload h :
  let r := SimpleLangGraphAgent.stages env input_payload (simple_start input_payload h) in
  let h1 := match r.1 with
            | Return _ => r.2
            | Raise _ => with_state (set_ticket_status PENDING (state r.2)) r.2
            end in
  SimpleLangGraphAgent.process_ticket env input_payload h
  = (match make_output env input_payload (state h1) (local_stage_logs h1)
             (clock h1 - clock h) (S (clock h1)) with
     | inl e => Raise e
     | inr o => Return o
     end,
     at_time (S (S (clock h1))) h1).
Proof.
  unfold SimpleLangGraphAgent.process_ticket, SimpleLangGraphAgent.new_run,
    SimpleLangGraphAgent.get_local_stage_logs, try_except, simple_start,
    modify_state, bind, now, get_state, lift, raise, ret.
  simpl.
  match goal with |- context [SimpleLangGraphAgent.stages env input_payload ?h0] =>
    destruct (SimpleLangGraphAgent.stages env input_payload h0) as [[[]|e] h1] end; simpl;
    match goal with |- context [make_output ?a ?b ?c ?d ?e ?f] =>
      destruct (make_output a b c d e f) end; reflexivity.
Qed.




(** ** The output record *)

(** The output record carries the fields of the final state, or the
    validation fails because a field is not accepted. *)
Lemma make_output_fields env input_payload s logs processing_time completion_time :
  match make_output env input_payload s logs processing_time completion_time with
  | inr o =>
      accepted env s = true /\
      OutputPayload.ticket_id o = ticket_id input_payload /\
      OutputPayload.status o = ticket_status s /\
      OutputPayload.response o = generated_response s /\
      OutputPayload.confidence_score o = confidence_score s /\
      OutputPayload.escalation_reason o = escalation_reason s /\
      OutputPayload.stage_logs o = logs /\
      OutputPayload.final_payload o = s
  | inl e => accepted env s = false /\ exn_class e = "ValidationError"
  end.
Proof.
  unfold make_output, accepted, validate_optional_str, validate_float.
  destruct (generated_response s), (confidence_score s), (escalation_reason s);
    try destruct (lax_float (runtime env) _); simpl; auto 10.
Qed.

(** ** Escalation *)


Lemma stage_07_last env h :
  exists lg, last (stage_logs (state (exec (stage_07_decide env) h))) = Some lg /\
             stage_logs (state (exec (stage_07_decide env) h)) = stage_logs (state h) ++ [lg].
Proof.
  destruct (stage_07_effect env h) as (h' & E & _ & _ & _ & lg & L & _).
  rewrite (exec_eq _ _ _ _ E), L. exists lg. split; [apply last_snoc|reflexivity].
Qed.

(** The run to the branch after ["decide"] ends with stage 7, entered
    with the decision fields as [process_ticket] initialised them. *)
Lemma run_to_decide_last env input_payload h :
  exists h6,
    exec (run_to_decide env) (start_of_run input_payload h) = exec (stage_07_decide env) h6 /\
    ticket_status (state h6) = PENDING /\
    confidence_score (state h6) = VFloat 0%float /\
    escalation_needed (state h6) = VBool false /\
    escalation_reason (state h6) = VNone.
Proof.
  destruct (run_to_decide_effect env (start_of_run input_payload h))
    as (h4 & h6 & h7 & _ & E7 & Erun & _ & (D1 & D2 & D3 & D4) & _).
  exists h6. rewrite (exec_eq _ _ _ _ Erun), (exec_eq _ _ _ _ E7).
  rewrite D1, D2, D3, D4. repeat split.
Qed.

(** A run that asks for escalation after ["decide"] ends there. *)
Lemma escalation_exit env h :
  truthy (escalation_needed (state (exec (run_to_decide env) h))) = true ->
  exec (workflow_ainvoke env) h = exec (run_to_decide env) h.
Proof.
  destruct (workflow_ainvoke_effect env h) as (h4 & h7 & h' & _ & E7 & E & _ & _ & Hexit).
  rewrite (exec_eq _ _ _ _ E7), (exec_eq _ _ _ _ E). exact Hexit.
Qed.

(** A run that does not ask for escalation goes on with stages 8 to 11. *)
Lemma continuation env h :
  truthy (escalation_needed (state (exec (run_to_decide env) h))) = false ->
  exec (workflow_ainvoke env) h = exec (run_after_decide env) (exec (run_to_decide env) h).
Proof.
  intros Hno.
  destruct (run_to_decide_effect env h) as (h4 & h6 & h7 & _ & _ & E7 & _).
  rewrite (exec_eq _ _ _ _ E7) in *.
  unfold exec at 1. rewrite workflow_ainvoke_split.
  advance E7. advance (eq_refl (get_state h7)). rewrite escalate_route, Hno. reflexivity.
Qed.

(** The rule of stage 7 in the dependency-free agent: a score below 90
    forces the escalation, with a reason that ends with a percent sign;
    any other score that compares with 90 resolves the ticket at once. *)
Lemma simple_stage_7_rule env input_payload h :
  match SimpleLangGraphAgent.stage_7 env input_payload h with
  | (Return _, h') =>
      match py_lt (confidence_score (state h')) 90 with
      | inr true =>
          escalation_needed (state h') = VBool true /\
          escalation_reason (state h')
          = VStr ("Low confidence score: "
                    +:+ py_format (runtime env) (confidence_score (state h')) +:+ "%") /\
          ticket_status (state h') = ESCALATED
      | inr false =>
          ticket_status (state h') = RESOLVED /\
          escalation_needed (state h') = escalation_needed (state h)
      | inl _ => False
      end
  | (Raise _, h') => ticket_status (state h') = ticket_status (state h)
  end.
Proof.
  unfold SimpleLangGraphAgent.stage_7. run_simple.
  all: simpl;
    repeat match goal with H : py_lt _ _ = _ |- _ => rewrite H end; auto.
  all: congruence.
Qed.




(** ** Resolution *)

Lemma bind_ext {A B} (c : M A) (k k' : A -> M B) h :
  (forall a h', k a h' = k' a h') -> bind c k h = bind c k' h.
Proof. intros Hk. unfold bind. destruct (c h) as [[a|e] h']; [apply Hk|reflexivity]. Qed.

(** The block of the dependency-free agent begins with [simple_to_decide]. *)
Lemma simple_stages_split env input_payload h :
  SimpleLangGraphAgent.stages env input_payload h
  = (simple_to_decide env input_payload;;
     let* s := get_state in
     (if negb (truthy (escalation_needed s)) then
        SimpleLangGraphAgent.stage_8;;
        SimpleLangGraphAgent.stage_9 env input_payload;;
        SimpleLangGraphAgent.stage_10 input_payload
      else ret tt);;
     SimpleLangGraphAgent.stage_11) h.
Proof.
  unfold SimpleLangGraphAgent.stages, simple_to_decide.
  rewrite bind_assoc. apply bind_ext. intros _ h1.
  rewrite bind_assoc. apply bind_ext. intros _ h2.
  rewrite bind_assoc. apply bind_ext. intros _ h3.
  rewrite bind_assoc. apply bind_ext. intros _ h4.
  rewrite bind_assoc. apply bind_ext. intros s h5.
  rewrite bind_assoc. apply bind_ext. intros _ h6.
  rewrite bind_assoc. apply bind_ext. intros _ h7.
  reflexivity.
Qed.








(** ** Failures of stages *)

Lemma _log_stage_complete_run stage_log success error h :
  _log_stage_complete stage_log success error h
  = (Return tt, closed stage_log success error h).
Proof.
  unfold _log_stage_complete, closed, close_log, modify_log, bind, now, modify_state, ret.
  simpl. destruct (truthy (opt_str error)); simpl;
    rewrite ?list_alter_alter_eq; reflexivity.
Qed.

(** A stage returns, whatever its body does: when the body raises, the
    heap is the one at the raise with the log of the stage closed as a
    failure. *)
Lemma stage_run stage_name stage_id emoji mode body h :
  let stage_log := length (stage_logs (state h)) in
  let h1 := exec (_log_stage_start stage_name stage_id emoji mode) h in
  stage stage_name stage_id emoji mode body h
  = match body stage_log h1 with
    | (Return _, h2) => (Return tt, closed stage_log true None h2)
    | (Raise e, h2) => (Return tt, closed stage_log false (Some (str_exn e)) h2)
    end.
Proof.
  unfold stage, try_except, exec, bind.
  change (_log_stage_start stage_name stage_id emoji mode h)
    with (Return (length (stage_logs (state h))),
          snd (_log_stage_start stage_name stage_id emoji mode h)).
  cbv beta iota.
  destruct (body _ _) as [[[]|e] h2]; rewrite _log_stage_complete_run; reflexivity.
Qed.

Lemma stage_06_retrieve_body env :
  stage_06_retrieve env = stage "RETRIEVE" 6 "📚" DETERMINISTIC (retrieve_body env).
Proof. reflexivity. Qed.





(** ** The output step *)




(** * Further properties of the code *)

(** ** What the final status says *)

(** The decision fields after stage 7 of a run from a new state: the
    status is PENDING or ESCALATED, and it is ESCALATED only by the
    low-confidence rule. *)
Lemma status_after_decide env input_payload h :
  let h7 := exec (run_to_decide env) (start_of_run input_payload h) in
  ticket_status (state h7) = PENDING \/
  (ticket_status (state h7) = ESCALATED /\
   py_lt (confidence_score (state h7)) 90 = inr true /\
   escalation_needed (state h7) = VBool true /\
   escalation_reason (state h7)
   = low_confidence_reason (runtime env) (confidence_score (state h7))).
Proof.
  intros h7. subst h7.
  destruct (run_to_decide_last env input_payload h) as (h6 & -> & Hstatus & _).
  destruct (stage_07_rule env h6) as (h7 & lg & E7 & _ & _ & Hrule).
  rewrite (exec_eq _ _ _ _ E7).
  destruct (StageLog.success lg).
  - destruct (py_lt (confidence_score (state h7)) 90) as [e|[|]]; [tauto| |].
    + right. tauto.
    + left. congruence.
  - left. congruence.
Qed.

(** The status at the end of the graph, by the exit taken. *)
Lemma status_at_end env input_payload h :
  let h0 := start_of_run input_payload h in
  let h7 := exec (run_to_decide env) h0 in
  let h' := exec (workflow_ainvoke env) h0 in
  confidence_score (state h') = confidence_score (state h7) /\
  escalation_needed (state h') = escalation_needed (state h7) /\
  escalation_reason (state h') = escalation_reason (state h7) /\
  ticket_status (state h')
  = if truthy (escalation_needed (state h7)) then ticket_status (state h7)
    else match py_ge (confidence_score (state h7)) 90 with
         | inr true => RESOLVED
         | _ => ticket_status (state h7)
         end.
Proof.
  intros h0 h7 h'. subst h7 h'.
  destruct (truthy (escalation_needed (state (exec (run_to_decide env) h0)))) eqn:Hesc.
  - rewrite (escalation_exit env h0 Hesc). repeat split.
  - rewrite (continuation env h0 Hesc).
    set (h7 := exec (run_to_decide env) h0) in *.
    destruct (run_after_decide_effect env h7) as (h8 & h11 & E8 & E11 & _ & (D1 & D2 & D3 & D4)).
    destruct (stage_08_effect env h7) as (h8' & E8' & _ & K2 & K3 & K4).
    rewrite E8 in E8'. injection E8' as <-.
    destruct (stage_08_rule env h7) as (h8' & E8' & Hrule).
    rewrite E8 in E8'. injection E8' as <-.
    rewrite (exec_eq _ _ _ _ E11), D1, D2, D3, D4, K2, K3, K4, Hrule, Hesc.
    repeat split.
Qed.



(** X2: a ticket is ESCALATED at the end of a run of the graph only by
    the low-confidence rule: the score is below 90, the state asks for
    escalation with the reason of the rule, and the run has ended after
    DECIDE, without UPDATE. *)
Theorem X2_escalated_only_by_low_score (env : Env) (input_payload : InputPayload)
    (h : Heap) :
  let h' := exec (workflow_ainvoke env) (start_of_run input_payload h) in
  ticket_status (state h') = ESCALATED ->
  py_lt (confidence_score (state h')) 90 = inr true /\
  escalation_needed (state h') = VBool true /\
  escalation_reason (state h')
  = low_confidence_reason (runtime env) (confidence_score (state h')) /\
  h' = exec (run_to_decide env) (start_of_run input_payload h) /\
  ~ In 8 (stage_ids (stage_logs (state h'))).
Proof.
  intros h' Hescalated. subst h'.
  destruct (status_at_end env input_payload h) as (Hscore & Hesc & Hreason & Hstatus).
  destruct (workflow_ainvoke_logs env input_payload h) as (Hids & _).
  cbv zeta in *. rewrite Hids, Hscore, Hesc, Hreason. rewrite Hstatus in Hescalated.
  pose proof (status_after_decide env input_payload h) as H7. cbv zeta in H7.
  assert (H7' : ticket_status
                  (state (exec (run_to_decide env) (start_of_run input_payload h)))
                = ESCALATED).
  { destruct (truthy (escalation_needed _)); [exact Hescalated|].
    destruct (py_ge _ 90) as [e|[|]]; [exact Hescalated|discriminate|exact Hescalated]. }
  destruct H7 as [H7|(_ & Hlow & Hneeded & Hrule)]; [congruence|].
  rewrite Hneeded. cbn [truthy].
  split; [exact Hlow|]. split; [reflexivity|]. split; [exact Hrule|]. split.
  - apply escalation_exit. rewrite Hneeded. reflexivity.
  - rewrite app_nil_r. destruct (waits _); simpl; intuition discriminate.
Qed.

Lemma X2_escalated_only_by_low_score_witness :
  ticket_status
    (state (exec (workflow_ainvoke low_score) (start_of_run sample_ticket new_agent)))
  = ESCALATED /\
  escalation_needed
    (state (exec (workflow_ainvoke low_score) (start_of_run sample_ticket new_agent)))
  = VBool true.
Proof.
  assert (Hescalated : ticket_status
            (state (exec (workflow_ainvoke low_score)
                      (start_of_run sample_ticket new_agent))) = ESCALATED)
    by (vm_compute; reflexivity).
  destruct (X2_escalated_only_by_low_score low_score sample_ticket new_agent Hescalated)
    as (_ & Hneeded & _).
  split; [exact Hescalated|exact Hneeded].
Defined.

(** ** The final status in the dependency-free agent *)

Lemma keeps_decision_bind {A B} (c : M A) (k : A -> M B) :
  keeps_decision c -> (forall a, keeps_decision (k a)) -> keeps_decision (bind c k).
Proof.
  intros Hc Hk h. unfold bind. specialize (Hc h).
  destruct (c h) as [[a|e] h1]; [|exact Hc].
  exact (same_decision_trans _ _ _ Hc (Hk a h1)).
Qed.

Lemma keeps_decision_ret {A} (a : A) : keeps_decision (ret a).
Proof. intros h. apply same_decision_refl. Qed.

Lemma keeps_decision_get_state : keeps_decision get_state.
Proof. intros h. apply same_decision_refl. Qed.

Ltac keep_simple stage :=
  intros h; unfold stage; run_simple; unfold same_decision; simpl; repeat split.

Lemma simple_stage_1_keeps p : keeps_decision (SimpleLangGraphAgent.stage_1 p).
Proof. keep_simple SimpleLangGraphAgent.stage_1. Qed.

Lemma simple_stage_2_keeps env p : keeps_decision (SimpleLangGraphAgent.stage_2 env p).
Proof. keep_simple SimpleLangGraphAgent.stage_2. Qed.

Lemma simple_stage_3_keeps env p : keeps_decision (SimpleLangGraphAgent.stage_3 env p).
Proof. keep_simple SimpleLangGraphAgent.stage_3. Qed.

Lemma simple_stage_4_keeps p : keeps_decision (SimpleLangGraphAgent.stage_4 p).
Proof. keep_simple SimpleLangGraphAgent.stage_4. Qed.

Lemma simple_stage_5_keeps : keeps_decision SimpleLangGraphAgent.stage_5.
Proof. keep_simple SimpleLangGraphAgent.stage_5. Qed.

Lemma simple_stage_6_keeps env p : keeps_decision (SimpleLangGraphAgent.stage_6 env p).
Proof. keep_simple SimpleLangGraphAgent.stage_6. Qed.

Lemma simple_stage_8_keeps : keeps_decision SimpleLangGraphAgent.stage_8.
Proof. keep_simple SimpleLangGraphAgent.stage_8. Qed.

Lemma simple_stage_9_keeps env p : keeps_decision (SimpleLangGraphAgent.stage_9 env p).
Proof. keep_simple SimpleLangGraphAgent.stage_9. Qed.

Lemma simple_stage_10_keeps p : keeps_decision (SimpleLangGraphAgent.stage_10 p).
Proof. keep_simple SimpleLangGraphAgent.stage_10. Qed.

Lemma simple_stage_11_keeps : keeps_decision SimpleLangGraphAgent.stage_11.
Proof. keep_simple SimpleLangGraphAgent.stage_11. Qed.

(** The block of the dependency-free agent around its stage 7. *)
Lemma simple_stages_around_decide env p h :
  SimpleLangGraphAgent.stages env p h
  = ((SimpleLangGraphAgent.stage_1 p;;
      SimpleLangGraphAgent.stage_2 env p;;
      SimpleLangGraphAgent.stage_3 env p;;
      SimpleLangGraphAgent.stage_4 p;;
      let* s := get_state in
      (if clarification_requested s then SimpleLangGraphAgent.stage_5 else ret tt);;
      SimpleLangGraphAgent.stage_6 env p);;
     SimpleLangGraphAgent.stage_7 env p;;
     let* s := get_state in
     (if negb (truthy (escalation_needed s)) then
        SimpleLangGraphAgent.stage_8;;
        SimpleLangGraphAgent.stage_9 env p;;
        SimpleLangGraphAgent.stage_10 p
      else ret tt);;
     SimpleLangGraphAgent.stage_11) h.
Proof.
  unfold SimpleLangGraphAgent.stages.
  rewrite bind_assoc. apply bind_ext. intros _ h1.
  rewrite bind_assoc. apply bind_ext. intros _ h2.
  rewrite bind_assoc. apply bind_ext. intros _ h3.
  rewrite bind_assoc. apply bind_ext. intros _ h4.
  rewrite bind_assoc. apply bind_ext. intros s h5.
  rewrite bind_assoc. reflexivity.
Qed.

Lemma simple_before_decide_keeps env p :
  keeps_decision
    (SimpleLangGraphAgent.stage_1 p;;
     SimpleLangGraphAgent.stage_2 env p;;
     SimpleLangGraphAgent.stage_3 env p;;
     SimpleLangGraphAgent.stage_4 p;;
     let* s := get_state in
     (if clarification_requested s then SimpleLangGraphAgent.stage_5 else ret tt);;
     SimpleLangGraphAgent.stage_6 env p).
Proof.
  apply keeps_decision_bind; [apply simple_stage_1_keeps|intros _].
  apply keeps_decision_bind; [apply simple_stage_2_keeps|intros _].
  apply keeps_decision_bind; [apply simple_stage_3_keeps|intros _].
  apply keeps_decision_bind; [apply simple_stage_4_keeps|intros _].
  apply keeps_decision_bind; [apply keeps_decision_get_state|intros s].
  apply keeps_decision_bind; [|intros _; apply simple_stage_6_keeps].
  destruct (clarification_requested s);
    [apply simple_stage_5_keeps|apply keeps_decision_ret].
Qed.

Lemma simple_after_decide_keeps env p :
  keeps_decision
    (let* s := get_state in
     (if negb (truthy (escalation_needed s)) then
        SimpleLangGraphAgent.stage_8;;
        SimpleLangGraphAgent.stage_9 env p;;
        SimpleLangGraphAgent.stage_10 p
      else ret tt);;
     SimpleLangGraphAgent.stage_11).
Proof.
  apply keeps_decision_bind; [apply keeps_decision_get_state|intros s].
  apply keeps_decision_bind; [|intros _; apply simple_stage_11_keeps].
  destruct (negb (truthy (escalation_needed s))); [|apply keeps_decision_ret].
  apply keeps_decision_bind; [apply simple_stage_8_keeps|intros _].
  apply keeps_decision_bind; [apply simple_stage_9_keeps|intros _].
  apply simple_stage_10_keeps.
Qed.

(** The decision fields at the end of the block, when it returns: they
    are the ones that stage 7 has set by its rule. *)
Lemma simple_status_at_end env p h :
  eval (SimpleLangGraphAgent.stages env p) (simple_start p h) = Return tt ->
  let s := state (exec (SimpleLangGraphAgent.stages env p) (simple_start p h)) in
  match py_lt (confidence_score s) 90 with
  | inr true =>
      ticket_status s = ESCALATED /\ escalation_needed s = VBool true /\
      escalation_reason s
      = VStr ("Low confidence score: " +:+ py_format (runtime env) (confidence_score s) +:+ "%")
  | inr false => ticket_status s = RESOLVED /\ escalation_needed s = VBool false
  | inl _ => False
  end.
Proof.
  unfold eval, exec.
  destruct (SimpleLangGraphAgent.stages env p (simple_start p h)) as [r hf] eqn:E.
  cbn [fst snd]. intros ->. cbv zeta.
  rewrite simple_stages_around_decide in E.
  pose proof (simple_before_decide_keeps env p (simple_start p h)) as (_ & _ & B3 & _).
  match type of E with bind ?c _ _ = _ =>
    unfold bind at 1 in E; destruct (c (simple_start p h)) as [[[]|e] h6] end;
    [|discriminate E].
  cbn in B3.
  pose proof (simple_stage_7_rule env p h6) as Hrule.
  unfold bind at 1 in E.
  destruct (SimpleLangGraphAgent.stage_7 env p h6) as [[[]|e] h7]; [|discriminate E].
  pose proof (simple_after_decide_keeps env p h7) as A.
  unfold keeps_decision in A. rewrite E in A. destruct A as (A1 & A2 & A3 & A4).
  cbn [snd] in *. rewrite A1, A2, A3, A4.
  destruct (py_lt (confidence_score (state h7)) 90) as [e|[|]]; [exact Hrule| |].
  - tauto.
  - destruct Hrule as (Hstatus & Hneeded). split; [exact Hstatus|]. congruence.
Qed.

(** X3: in the dependency-free agent, a run whose stages all return
    ends ESCALATED or RESOLVED, never PENDING, and the score decides which:
    below 90 the ticket is ESCALATED, the state asks for escalation with the
    reason of the rule and UPDATE is not logged; otherwise the ticket is
    RESOLVED, no escalation is asked and UPDATE is logged. *)
Theorem X3_simple_status_follows_score (env : Env) (input_payload : InputPayload)
    (h : Heap) :
  eval (SimpleLangGraphAgent.stages env input_payload) (simple_start input_payload h)
  = Return tt ->
  let hs := exec (SimpleLangGraphAgent.stages env input_payload)
              (simple_start input_payload h) in
  ticket_status (state hs) <> PENDING /\
  match py_lt (confidence_score (state hs)) 90 with
  | inr true =>
      ticket_status (state hs) = ESCALATED /\
      escalation_needed (state hs) = VBool true /\
      escalation_reason (state hs)
      = VStr ("Low confidence score: "
                +:+ py_format (runtime env) (confidence_score (state hs)) +:+ "%") /\
      ~ In 8 (stage_ids (local_stage_logs hs))
  | inr false =>
      ticket_status (state hs) = RESOLVED /\
      escalation_needed (state hs) = VBool false /\
      In 8 (stage_ids (local_stage_logs hs))
  | inl _ => False
  end.
Proof.
  intros Hreturn hs.
  pose proof (simple_status_at_end env input_payload h Hreturn) as Hend.
  destruct (simple_stages_logs env input_payload _ Hreturn) as (logs & Hlogs & Hids).
  fold hs in Hend, Hlogs, Hids. cbv zeta in Hend. clearbody hs.
  rewrite Hlogs. cbn [simple_start local_stage_logs app]. rewrite Hids.
  destruct (py_lt (confidence_score (state hs)) 90) as [e|[|]]; [contradiction| |].
  - destruct Hend as (Hstatus & Hneeded & Hreason). rewrite Hneeded. cbn [truthy].
    split; [congruence|]. split; [exact Hstatus|]. split; [reflexivity|].
    split; [exact Hreason|].
    destruct (clarification_requested _); simpl; intuition discriminate.
  - destruct Hend as (Hstatus & Hneeded). rewrite Hneeded. cbn [truthy].
    split; [congruence|]. split; [exact Hstatus|]. split; [reflexivity|].
    destruct (clarification_requested _); simpl; tauto.
Qed.

Lemma X3_simple_status_follows_score_witness :
  eval (SimpleLangGraphAgent.stages low_score sample_ticket)
    (simple_start sample_ticket new_agent) = Return tt /\
  ticket_status
    (state (exec (SimpleLangGraphAgent.stages low_score sample_ticket)
              (simple_start sample_ticket new_agent))) <> PENDING.
Proof.
  assert (Hreturn : eval (SimpleLangGraphAgent.stages low_score sample_ticket)
                      (simple_start sample_ticket new_agent) = Return tt)
    by (vm_compute; reflexivity).
  destruct (X3_simple_status_follows_score low_score sample_ticket new_agent Hreturn)
    as (Hstatus & _).
  split; [exact Hreturn|exact Hstatus].
Defined.

(** X4: no run ends with the status CLOSED: the output record of the
    LangGraph engine is PENDING, RESOLVED or ESCALATED, and so is the one
    of the dependency-free agent, which is PENDING exactly when its stages
    have raised. *)
Theorem X4_status_never_closed (env : Env) (input_payload : InputPayload) (h : Heap) :
  match eval (process_ticket env input_payload) h with
  | Return o => OutputPayload.status o <> CLOSED
  | Raise _ => True
  end /\
  match eval (SimpleLangGraphAgent.process_ticket env input_payload) h with
  | Return o =>
      OutputPayload.status o <> CLOSED /\
      (OutputPayload.status o = PENDING <->
       eval (SimpleLangGraphAgent.stages env input_payload) (simple_start input_payload h)
       <> Return tt)
  | Raise _ => True
  end.
Proof.
  split.
  - destruct (process_ticket_run env input_payload h) as (h' & Erun & Eprocess).
    rewrite (eval_eq _ _ _ _ Eprocess). unfold output_of.
    pose proof (make_output_fields env input_payload (state h') (stage_logs (state h'))
                  (clock h' - clock h) (S (clock h'))) as Hfields.
    destruct (make_output _ _ _ _ _ _) as [e|o]; [exact I|].
    destruct Hfields as (_ & _ & -> & _).
    destruct (status_at_end env input_payload h) as (_ & _ & _ & Hstatus).
    pose proof (status_after_decide env input_payload h) as H7.
    cbv zeta in *. rewrite (exec_eq _ _ _ _ Erun) in Hstatus. rewrite Hstatus.
    destruct (truthy _); [|destruct (py_ge _ 90) as [e|[|]]];
      try discriminate; destruct H7 as [H7|(H7 & _)]; congruence.
  - rewrite (eval_eq _ _ _ _ (simple_process_ticket_run env input_payload h)).
    match goal with |- context [make_output ?a ?b ?c ?d ?e ?f] =>
      pose proof (make_output_fields a b c d e f) as Hfields;
      destruct (make_output a b c d e f) as [e'|o] end; [exact I|].
    destruct Hfields as (_ & _ & -> & _).
    pose proof (simple_status_at_end env input_payload h) as Hend.
    unfold eval, exec in *.
    destruct (SimpleLangGraphAgent.stages env input_payload (simple_start input_payload h))
      as [[[]|e] hs]; cbn [fst snd] in *.
    + specialize (Hend eq_refl). cbv zeta in Hend.
      destruct (py_lt _ 90) as [e|[|]]; [contradiction| |];
        destruct Hend as (-> & _); (split; [discriminate|]); split; intros; congruence.
    + simpl. split; [discriminate|]. split; [discriminate|reflexivity].
Qed.

(** ** The graph runs forward *)

Lemma successor_forward n s :
  match successor n s with
  | inr END => True
  | inr (Node n') => stage_number n < stage_number n'
  | inl _ => False
  end.
Proof.
  destruct n; try (cbn; lia).
  - rewrite successor_ask. destruct (_ && _); cbn; lia.
  - rewrite successor_decide. destruct (truthy _); cbn; [exact I|lia].
Qed.

Lemma stage_number_bound n : 1 <= stage_number n <= 11.
Proof. destruct n; cbn; lia. Qed.

Lemma run_graph_enough env limit :
  forall limit' n h,
    11 < limit + stage_number n -> 11 < limit' + stage_number n ->
    run_graph env limit n h = run_graph env limit' n h /\
    exists h', run_graph env limit n h = (Return tt, h').
Proof.
  induction limit as [|limit IH]; intros limit' n h Hlimit Hlimit'.
  - pose proof (stage_number_bound n). lia.
  - destruct limit' as [|limit']; [pose proof (stage_number_bound n); lia|].
    destruct (node_action_returns env n h) as (h1 & E1).
    rewrite !(run_graph_step env _ n h h1 E1).
    pose proof (successor_forward n (state h1)) as Hforward.
    destruct (successor n (state h1)) as [e|[n'|]]; [contradiction| |].
    + apply IH; lia.
    + split; [reflexivity|]. exists h1. reflexivity.
Qed.



(** ** The results of a stage's abilities *)

Lemma is_str_key_eq k v : is_str_key k v = true -> v = VStr k.
Proof.
  destruct v; cbn; try discriminate. intros H%String.eqb_eq. congruence.
Qed.

(** Lookup after an assignment. *)
Lemma dict_lookup_set d k v name :
  dict_lookup (dict_set d k v) name
  = if String.eqb name k then Some v else dict_lookup d name.
Proof.
  induction d as [|[k0 v0] d IH]; cbn.
  - reflexivity.
  - destruct (is_str_key k k0) eqn:Hk; cbn.
    + apply is_str_key_eq in Hk. subst k0. cbn. destruct (String.eqb name k); reflexivity.
    + rewrite IH. destruct (is_str_key name k0) eqn:Hname; [|reflexivity].
      apply is_str_key_eq in Hname. subst k0. cbn in Hk.
      destruct (String.eqb name k) eqn:E; [|reflexivity].
      apply String.eqb_eq in E. subst name. rewrite String.eqb_refl in Hk. discriminate.
Qed.

Lemma dict_in_set d k v name :
  dict_in name (dict_set d k v) = String.eqb name k || dict_in name d.
Proof.
  unfold dict_in. rewrite dict_lookup_set. destruct (String.eqb name k); reflexivity.
Qed.

Lemma execute_one_returns env stage_log payload ability_name server h :
  exists result h', execute_one env stage_log payload ability_name server h
                    = (Return result, h').
Proof.
  destruct (execute_one_effect env stage_log payload ability_name server h)
    as (result & t & exs & E & _). eauto.
Qed.

Lemma execute_loop_keys env stage_log payload abilities :
  forall results h,
  exists results' h',
    execute_loop env stage_log payload abilities results h = (Return results', h') /\
    forall name, dict_in name results' = true <->
                 dict_in name results = true \/ In name (map fst abilities).
Proof.
  induction abilities as [|[ability_name server] rest IH]; intros results h.
  - exists results, h. split; [reflexivity|]. cbn. tauto.
  - destruct (execute_one_returns env stage_log payload ability_name server h)
      as (result & h1 & E1).
    cbn [execute_loop]. unfold bind at 1. rewrite E1.
    destruct (IH (dict_set results ability_name result) h1) as (results' & h' & E & Hkeys).
    exists results', h'. split; [exact E|]. intros name. rewrite Hkeys, dict_in_set.
    cbn [map fst In]. rewrite orb_true_iff, String.eqb_eq. intuition congruence.
Qed.

(** X6: [_execute_abilities] returns, for every list of abilities and
    every server behaviour, a dictionary whose keys are exactly the names
    of the abilities asked for: a failed remote ability still has its key
    (with the value [None]), so the tests ["name" in results] of the stages
    always hold. *)
Theorem X6_results_hold_every_ability (env : Env) (stage_log : nat)
    (abilities : list (string * string)) (h : Heap) :
  exists results h',
    _execute_abilities env stage_log abilities h = (Return results, h') /\
    forall name, dict_in name results = true <-> In name (map fst abilities).
Proof.
  unfold _execute_abilities. unfold bind at 1. unfold get_state.
  destruct (execute_loop_keys env stage_log (InputPayload_dict (input_payload (state h)))
              abilities [] h) as (results & h' & E & Hkeys).
  exists results, h'. split; [exact E|]. intros name. rewrite Hkeys. cbn. intuition discriminate.
Qed.

(** ** The registry of servers *)

Lemma MCPManager_init_clients atlas_config common_config server_name :
  MCPManager.clients (MCPManager_init atlas_config common_config) !! server_name
  = if String.eqb server_name "ATLAS" then
      Some {| MCPClient.server_name := "ATLAS"; MCPClient.url := fst atlas_config;
              MCPClient.api_key := snd atlas_config; MCPClient.aclose_calls := 0 |}
    else if String.eqb server_name "COMMON" then
      Some {| MCPClient.server_name := "COMMON"; MCPClient.url := fst common_config;
              MCPClient.api_key := snd common_config; MCPClient.aclose_calls := 0 |}
    else None.
Proof.
  unfold MCPManager_init. cbn [MCPManager.clients].
  destruct (String.eqb server_name "ATLAS") eqn:Ha.
  - apply String.eqb_eq in Ha. subst. apply lookup_insert_eq.
  - apply String.eqb_neq in Ha. rewrite lookup_insert_ne by congruence.
    destruct (String.eqb server_name "COMMON") eqn:Hc.
    + apply String.eqb_eq in Hc. subst. apply lookup_insert_eq.
    + apply String.eqb_neq in Hc. rewrite lookup_insert_ne by congruence.
      apply lookup_empty.
Qed.

(** X7: the manager that [MCPManager.__init__] builds knows exactly the
    servers ["ATLAS"] and ["COMMON"], by these very names.  A call for one
    of them reaches the server of that name, and the record returned names
    the server and the ability asked for; a call for any other name (also
    ["atlas"], or ["internal"]) reaches no server and returns the record
    of the error ["Unknown server: ..."]. *)
Theorem X7_registry_knows_two_servers (env : Env) (atlas_config common_config : string * string)
    (server_name ability_name : string) (payload : Dict) (h : Heap) :
  mcp_manager h = MCPManager_init atlas_config common_config ->
  exists ex t,
    MCPManager_execute_ability env server_name ability_name payload h
      = (Return ex, at_time t h) /\
    AbilityExecution.ability_name ex = ability_name /\
    AbilityExecution.server_used ex = server_name /\
    AbilityExecution.execution_time ex = clock h /\
    if String.eqb server_name "ATLAS" || String.eqb server_name "COMMON" then
      match server_call env server_name ability_name payload (S (clock h)) with
      | inl e =>
          AbilityExecution.status ex = "error" /\
          AbilityExecution.error ex = Some (str_exn e) /\
          AbilityExecution.result ex = None
      | inr response =>
          AbilityExecution.status ex = "success" /\
          AbilityExecution.result ex = Some response /\
          AbilityExecution.error ex = None
      end
    else
      AbilityExecution.status ex = "error" /\
      AbilityExecution.error ex = Some ("Unknown server: " +:+ server_name) /\
      AbilityExecution.result ex = None.
Proof.
  intros Hmanager. unfold MCPManager_execute_ability.
  rewrite Hmanager, MCPManager_init_clients.
  destruct (String.eqb server_name "ATLAS") eqn:Ha; cbn [orb].
  - apply String.eqb_eq in Ha. subst server_name.
    unfold MCPClient_execute_ability, bind, now, try_except, lift, ret, raise.
    cbn. destruct (server_call env _ _ _ _); cbn; eauto 12.
  - destruct (String.eqb server_name "COMMON") eqn:Hc.
    + apply String.eqb_eq in Hc. subst server_name.
      unfold MCPClient_execute_ability, bind, now, try_except, lift, ret, raise.
      cbn. destruct (server_call env _ _ _ _); cbn; eauto 12.
    + unfold bind, now, ret. cbn. eauto 12.
Qed.

Lemma X7_registry_knows_two_servers_witness :
  mcp_manager new_agent
  = MCPManager_init ("http://localhost:8001", "atlas-key") ("http://localhost:8002", "common-key") /\
  exists ex t,
    MCPManager_execute_ability low_score "atlas" "extract_entities"
      (InputPayload_dict sample_ticket) new_agent = (Return ex, at_time t new_agent) /\
    AbilityExecution.error ex = Some "Unknown server: atlas".
Proof.
  assert (Hmanager : mcp_manager new_agent
                     = MCPManager_init ("http://localhost:8001", "atlas-key")
                         ("http://localhost:8002", "common-key")) by reflexivity.
  destruct (X7_registry_knows_two_servers low_score _ _ "atlas" "extract_entities"
              (InputPayload_dict sample_ticket) new_agent Hmanager)
    as (ex & t & Hrun & _ & _ & _ & _ & Herror & _).
  split; [exact Hmanager|]. exists ex, t. split; [exact Hrun|exact Herror].
Defined.

(** ** The table of the COMMON server *)

(** X8: the simulated COMMON server builds its whole table of answers,
    with the lowered email and the upper-cased priority of the payload,
    before it looks the ability up.  So it answers an ability, known or
    not, if and only if the email and the priority of the payload are
    strings (a missing one counts as the empty string); otherwise every
    ability fails with an AttributeError, also the abilities whose answer
    reads neither field. *)
Theorem X8_common_table_is_built_first (rt : Runtime) (t : nat) (ability_name : string)
    (payload : Dict) :
  match _common_ability_response rt t ability_name payload with
  | inr answer =>
      (exists e, dict_get payload "email" (VStr "") = VStr e) /\
      (exists p, dict_get payload "priority" (VStr "") = VStr p) /\
      (is_known "COMMON" ability_name = false -> answer = ability_not_found)
  | inl e =>
      exn_class e = "AttributeError" /\
      ((forall s, dict_get payload "email" (VStr "") <> VStr s) \/
       (forall s, dict_get payload "priority" (VStr "") <> VStr s))
  end.
Proof.
  unfold _common_ability_response, common_responses, py_lower, py_upper.
  destruct (dict_get payload "email" (VStr "")) as [| | | |e| |];
    try (split; [reflexivity|left; intros s; discriminate]).
  destruct (dict_get payload "priority" (VStr "")) as [| | | |p| |];
    try (split; [reflexivity|right; intros s; discriminate]).
  split; [eauto|]. split; [eauto|].
  intros Hunknown. apply table_get_unknown. exact Hunknown.
Qed.

(** ** Clarification in the dependency-free agent *)

Lemma keeps_bind {A B C} (f : CustomerSupportState -> C) (c : M A) (k : A -> M B) :
  keeps f c -> (forall a, keeps f (k a)) -> keeps f (bind c k).
Proof.
  intros Hc Hk h. unfold bind. specialize (Hc h).
  destruct (c h) as [[a|e] h1]; [|exact Hc].
  cbn [snd] in Hc. rewrite <- Hc. apply Hk.
Qed.

Lemma keeps_ret {A C} (f : CustomerSupportState -> C) (a : A) : keeps f (ret a).
Proof. intros h. reflexivity. Qed.

Lemma keeps_get_state {C} (f : CustomerSupportState -> C) : keeps f get_state.
Proof. intros h. reflexivity. Qed.

Lemma simple_stage_4_asks p h :
  clarification_requested (state (SimpleLangGraphAgent.stage_4 p h).2)
  = needs_clarification (priority p) || clarification_requested (state h).
Proof.
  unfold SimpleLangGraphAgent.stage_4. destruct (priority p); run_simple; reflexivity.
Qed.

Lemma simple_before_ask_keeps env p :
  keeps clarification_requested
    (SimpleLangGraphAgent.stage_1 p;;
     SimpleLangGraphAgent.stage_2 env p;;
     SimpleLangGraphAgent.stage_3 env p).
Proof.
  apply keeps_bind; [intros h; apply (simple_stage_1 p h); discriminate|intros _].
  apply keeps_bind; [intros h; apply (simple_stage_2 env p h); discriminate|intros _].
  intros h. apply (simple_stage_3 env p h). discriminate.
Qed.

(** The stages after stage 4 leave [clarification_requested] alone. *)
Lemma simple_after_ask_keeps env p :
  keeps clarification_requested
    (let* s := get_state in
     (if clarification_requested s then SimpleLangGraphAgent.stage_5 else ret tt);;
     SimpleLangGraphAgent.stage_6 env p;;
     SimpleLangGraphAgent.stage_7 env p;;
     let* s := get_state in
     (if negb (truthy (escalation_needed s)) then
        SimpleLangGraphAgent.stage_8;;
        SimpleLangGraphAgent.stage_9 env p;;
        SimpleLangGraphAgent.stage_10 p
      else ret tt);;
     SimpleLangGraphAgent.stage_11).
Proof.
  apply keeps_bind; [apply keeps_get_state|intros s].
  apply keeps_bind; [|intros _].
  { destruct (clarification_requested s); [|apply keeps_ret].
    intros h. apply (simple_stage_5 h). discriminate. }
  apply keeps_bind; [intros h; apply (simple_stage_6 env p h); discriminate|intros _].
  apply keeps_bind; [intros h; apply (simple_stage_7 env p h); discriminate|intros _].
  apply keeps_bind; [apply keeps_get_state|intros s'].
  apply keeps_bind; [|intros _; intros h; apply (simple_stage_11 h); discriminate].
  destruct (negb (truthy (escalation_needed s'))); [|apply keeps_ret].
  apply keeps_bind; [intros h; apply (simple_stage_8 h); discriminate|intros _].
  apply keeps_bind; [intros h; apply (simple_stage_9 env p h); discriminate|intros _].
  intros h. apply (simple_stage_10 p h). discriminate.
Qed.

(** The block of the dependency-free agent around its stage 4. *)
Lemma simple_stages_around_ask env p h :
  SimpleLangGraphAgent.stages env p h
  = ((SimpleLangGraphAgent.stage_1 p;;
      SimpleLangGraphAgent.stage_2 env p;;
      SimpleLangGraphAgent.stage_3 env p);;
     SimpleLangGraphAgent.stage_4 p;;
     let* s := get_state in
     (if clarification_requested s then SimpleLangGraphAgent.stage_5 else ret tt);;
     SimpleLangGraphAgent.stage_6 env p;;
     SimpleLangGraphAgent.stage_7 env p;;
     let* s := get_state in
     (if negb (truthy (escalation_needed s)) then
        SimpleLangGraphAgent.stage_8;;
        SimpleLangGraphAgent.stage_9 env p;;
        SimpleLangGraphAgent.stage_10 p
      else ret tt);;
     SimpleLangGraphAgent.stage_11) h.
Proof.
  unfold SimpleLangGraphAgent.stages.
  rewrite bind_assoc. apply bind_ext. intros _ h1.
  rewrite bind_assoc. reflexivity.
Qed.

(** X9: in the dependency-free agent, whatever the abilities answer,
    a run whose stages return has asked for clarification, and has logged
    WAIT, exactly for the tickets of priority LOW or MEDIUM. *)
Theorem X9_simple_wait_by_priority (env : Env) (input_payload : InputPayload) (h : Heap) :
  eval (SimpleLangGraphAgent.stages env input_payload) (simple_start input_payload h)
  = Return tt ->
  let hs := exec (SimpleLangGraphAgent.stages env input_payload)
              (simple_start input_payload h) in
  clarification_requested (state hs) = needs_clarification (priority input_payload) /\
  (In 5 (stage_ids (local_stage_logs hs)) <->
   priority input_payload = LOW \/ priority input_payload = MEDIUM).
Proof.
  intros Hreturn hs.
  destruct (simple_stages_logs env input_payload _ Hreturn) as (logs & Hlogs & Hids).
  fold hs in Hlogs, Hids.
  assert (Hasked : clarification_requested (state hs)
                   = needs_clarification (priority input_payload)).
  { subst hs. clear Hlogs Hids. unfold eval, exec in *.
    destruct (SimpleLangGraphAgent.stages env input_payload (simple_start input_payload h))
      as [r hf] eqn:E.
    cbn [fst snd] in *. subst r. rewrite simple_stages_around_ask in E.
    pose proof (simple_before_ask_keeps env input_payload (simple_start input_payload h))
      as K3.
    match type of E with bind ?c _ _ = _ =>
      unfold bind at 1 in E;
      destruct (c (simple_start input_payload h)) as [[[]|e] h3] end; [|discriminate E].
    cbn in K3.
    pose proof (simple_stage_4_asks input_payload h3) as K4.
    unfold bind at 1 in E.
    destruct (SimpleLangGraphAgent.stage_4 input_payload h3) as [[[]|e] h4];
      [|discriminate E].
    pose proof (simple_after_ask_keeps env input_payload h4) as K.
    rewrite E in K. cbn [snd] in *. rewrite K, K4, K3. apply orb_false_r. }
  split; [exact Hasked|].
  rewrite Hlogs. cbn [simple_start local_stage_logs app]. rewrite Hids, Hasked.
  clearbody hs.
  destruct (priority input_payload), (truthy (escalation_needed (state hs))); cbn;
    intuition discriminate.
Qed.

Lemma X9_simple_wait_by_priority_witness :
  eval (SimpleLangGraphAgent.stages low_score sample_ticket)
    (simple_start sample_ticket new_agent) = Return tt /\
  clarification_requested
    (state (exec (SimpleLangGraphAgent.stages low_score sample_ticket)
              (simple_start sample_ticket new_agent))) = false.
Proof.
  assert (Hreturn : eval (SimpleLangGraphAgent.stages low_score sample_ticket)
                      (simple_start sample_ticket new_agent) = Return tt)
    by (vm_compute; reflexivity).
  destruct (X9_simple_wait_by_priority low_score sample_ticket new_agent Hreturn)
    as (Hasked & _).
  split; [exact Hreturn|exact Hasked].
Defined.

(** ** The simulation of the dependency-free agent *)

(** X10: with the simulation that [src/simple_agent.py] ships, the
    dependency-free agent never takes its escalation branch nor its
    [except] branch.  For every ticket, on every runtime, [process_ticket]
    returns a record with the status RESOLVED, the score 92, no escalation
    reason and the canned response; every stage succeeds, and the stages
    logged are all eleven for a ticket of priority LOW or MEDIUM, all but
    WAIT otherwise. *)
Theorem X10_simple_simulation_always_resolves (rt : Runtime) (input_payload : InputPayload)
    (h : Heap) :
  match eval (SimpleLangGraphAgent.process_ticket (simple_simulated rt) input_payload) h with
  | Return o =>
      OutputPayload.status o = RESOLVED /\
      OutputPayload.confidence_score o = VInt 92 /\
      OutputPayload.escalation_reason o = VNone /\
      OutputPayload.response o
      = VStr (simple_response_text rt (InputPayload_dict input_payload)) /\
      stage_ids (OutputPayload.stage_logs o)
      = [1; 2; 3; 4]
        ++ (if needs_clarification (priority input_payload) then [5] else [])
        ++ [6; 7; 8; 9; 10; 11] /\
      Forall (fun lg => StageLog.success lg = true) (OutputPayload.stage_logs o) /\
      escalation_needed (OutputPayload.final_payload o) = VBool false /\
      processing_complete (OutputPayload.final_payload o) = true
  | Raise _ => False
  end.
Proof.
  destruct input_payload as [name mail text level ticket]. destruct level.
  all: cbv -[pretty simple_response_text Z.modulo Nat.sub].
  all: repeat split; repeat constructor.
Qed.

(** ** The servers that the source simulates *)

(** Splits on the next answer of the language model that the result [E]
    of a phase waits for: it raises, with an empty text or not, or it
    returns a text, with or without YES. *)
Ltac split_answer E :=
  match type of E with
  | context [match ?llm ?a ?b with inl _ => _ | inr _ => _ end] =>
      destruct (llm a b) as [[? [|? ?]]|?] eqn:?
  | context [match ?x with Some _ => _ | None => _ end] => destruct x eqn:?
  end.

(** Runs the next phase [c] of the run [H : bind c k hcur = _]. *)
Ltac compute_phase H :=
  match type of H with
  | bind ?c _ ?hcur = _ =>
      let r := fresh "r" in
      let R := fresh "R" in
      let E := fresh "E" in
      remember (c hcur) as r eqn:R; pose proof R as E; vm_compute in E;
      repeat (split_answer E; vm_compute in E);
      subst r; rewrite (bind_return _ _ _ _ _ E) in H; cbv beta in H; clear E
  end.

(** A run of the graph in five phases: the stages before ASK, ASK, the
    stages between ASK and DECIDE, DECIDE, and the stages after it. *)
Lemma workflow_ainvoke_phases env h :
  workflow_ainvoke env h
  = ((stage_01_intake env;; stage_02_understand env;; stage_03_prepare env);;
     stage_04_ask env;;
     (let* s := get_state in
      (if String.eqb (_should_wait s) "wait" then stage_05_wait env else ret tt);;
      stage_06_retrieve env);;
     stage_07_decide env;;
     let* s := get_state in
     if String.eqb (_should_escalate s) "escalate" then ret tt else run_after_decide env) h.
Proof.
  rewrite workflow_ainvoke_split. unfold run_to_decide, run_to_ask.
  rewrite ?bind_assoc. apply bind_ext. intros _ h1. cbv beta.
  rewrite ?bind_assoc. apply bind_ext. intros _ h2. cbv beta.
  rewrite ?bind_assoc. apply bind_ext. intros _ h3. cbv beta.
  rewrite ?bind_assoc. apply bind_ext. intros _ h4. cbv beta.
  rewrite ?bind_assoc. apply bind_ext. intros s h5. cbv beta.
  rewrite ?bind_assoc. apply bind_ext. intros _ h6. cbv beta.
  rewrite ?bind_assoc. reflexivity.
Qed.

(** X11: with the servers that [src/mcp_client.py] simulates, the
    LangGraph engine never takes the escalation exit.  For every ticket,
    every runtime and every language model, answering or failing,
    [process_ticket] returns a record: the state does not ask for
    escalation, all the stages from RETRIEVE to COMPLETE are logged (WAIT
    too if clarification was requested), every stage but ASK and DECIDE,
    which call the model, succeeds, and the response is the canned one.
    When DECIDE succeeds the ticket is RESOLVED with the score 92, and the
    record still carries the reason of the server's verdict; when DECIDE
    fails the ticket stays PENDING with the default score.  The second
    notification is an SMS to an empty recipient, as the payload of a
    ticket has no phone. *)
Theorem X11_builtin_servers_never_escalate (rt : Runtime)
    (llm : string -> list value -> exn + string)
    (atlas_config common_config : string * string) (input_payload : InputPayload)
    (h : Heap) :
  mcp_manager h = MCPManager_init atlas_config common_config ->
  match eval (process_ticket (simulated rt llm) input_payload) h with
  | Return o =>
      escalation_needed (OutputPayload.final_payload o) = VBool false /\
      OutputPayload.status o
      = (if stage_succeeded 7 (OutputPayload.stage_logs o) then RESOLVED else PENDING) /\
      OutputPayload.confidence_score o
      = (if stage_succeeded 7 (OutputPayload.stage_logs o) then VInt 92
         else VFloat 0%float) /\
      OutputPayload.escalation_reason o
      = (if stage_succeeded 7 (OutputPayload.stage_logs o)
         then VStr "Standard troubleshooting available" else VNone) /\
      stage_ids (OutputPayload.stage_logs o)
      = [1; 2; 3; 4]
        ++ (if clarification_requested (OutputPayload.final_payload o) then [5] else [])
        ++ [6; 7; 8; 9; 10; 11] /\
      notifications_sent (OutputPayload.final_payload o)
      = VList [ VDict [ "type" :-> VStr "email";
                        "recipient" :-> VStr (email input_payload);
                        "status" :-> VStr "sent" ];
                VDict [ "type" :-> VStr "sms"; "recipient" :-> VStr "";
                        "status" :-> VStr "sent" ] ] /\
      OutputPayload.response o
      = VStr (response_text rt (InputPayload_dict input_payload)) /\
      Forall (fun lg => StageLog.success lg = true \/ StageLog.stage_id lg = 4
                        \/ StageLog.stage_id lg = 7) (OutputPayload.stage_logs o)
  | Raise _ => False
  end.
Proof.
  intros Hmanager.
  destruct (process_ticket_run (simulated rt llm) input_payload h)
    as (h' & Erun & Eprocess).
  rewrite (eval_eq _ _ _ _ Eprocess). clear Eprocess.
  rewrite workflow_ainvoke_phases in Erun.
  destruct h as [s m c l]. cbn in Hmanager. subst m.
  destruct input_payload as [name mail text level ticket].
  destruct rt as [upper lower strip chars repr float_eq hash iso lax].
  destruct atlas_config as [atlas_url atlas_key].
  destruct common_config as [common_url common_key].
  compute_phase Erun.
  compute_phase Erun.
  all: compute_phase Erun.
  all: compute_phase Erun.
  all: vm_compute in Erun; injection Erun as <-.
  all: match goal with |- match ?r with Return _ => _ | Raise _ => _ end =>
         let v := eval vm_compute in r in change r with v; cbv beta iota end.
  all: do 6 (split; [reflexivity|]).
  all: split; [vm_compute; reflexivity|].
  all: cbv [OutputPayload.stage_logs];
    repeat (apply Forall_cons_2; [cbn; auto|]); apply Forall_nil_2.
Qed.

Lemma X11_builtin_servers_never_escalate_witness :
  mcp_manager new_agent
  = MCPManager_init ("http://localhost:8001", "atlas-key")
      ("http://localhost:8002", "common-key") /\
  match eval (process_ticket (simulated ascii_runtime llm_yes) sample_ticket) new_agent with
  | Return o => escalation_needed (OutputPayload.final_payload o) = VBool false
  | Raise _ => False
  end.
Proof.
  assert (Hmanager : mcp_manager new_agent
                     = MCPManager_init ("http://localhost:8001", "atlas-key")
                         ("http://localhost:8002", "common-key")) by reflexivity.
  pose proof (X11_builtin_servers_never_escalate ascii_runtime llm_yes _ _ sample_ticket
                new_agent Hmanager) as Hrun.
  split; [exact Hmanager|].
  destruct (eval (process_ticket (simulated ascii_runtime llm_yes) sample_ticket) new_agent)
    as [o|e]; [|exact Hrun].
  destruct Hrun as (Hquiet & _). exact Hquiet.
Defined.

(** ** What the simulations read *)

(** X12: the simulation of the dependency-free agent answers every
    ability for the payload of every ticket: it never raises, it does not
    look at the server, and an ability without a canned answer gets the
    dictionary [{"status": "simulated", "ability": name}], which echoes
    its name. *)
Theorem X12_simple_simulation_answers (rt : Runtime) (server server' ability_name : string)
    (input_payload : InputPayload) (t : nat) :
  exists answer,
    _simulate_ability rt server ability_name (InputPayload_dict input_payload) t
    = inr answer /\
    _simulate_ability rt server' ability_name (InputPayload_dict input_payload) t
    = inr answer /\
    (existsb (String.eqb ability_name) simple_known_abilities = false ->
     answer = [ "status" :-> VStr "simulated"; "ability" :-> VStr ability_name ]) /\
    (existsb (String.eqb ability_name) simple_known_abilities = true ->
     dict_in "status" answer = false).
Proof.
  unfold _simulate_ability, simple_responses. cbn [InputPayload_dict dict_get dict_lookup
    is_str_key String.eqb Ascii.eqb Bool.eqb hashable py_lower py_upper].
  eexists. split; [reflexivity|]. split; [reflexivity|]. split.
  - intros Hunknown. apply table_get_unknown. exact Hunknown.
  - unfold simple_known_abilities. cbn [existsb table_get].
    repeat (destruct (String.eqb ability_name _); [intros _; reflexivity|]).
    discriminate.
Qed.

(** X13: neither simulation reads the query of the ticket: for every
    server, ability and time, two tickets that differ only by their
    query get the same answer, from the servers of [src/mcp_client.py] and
    from the simulation of the dependency-free agent. *)
Theorem X13_simulations_ignore_the_query (rt : Runtime) (server_name ability_name : string)
    (input_payload : InputPayload) (text : string) (t : nat) :
  _simulate_server_call rt server_name ability_name
    (InputPayload_dict (with_query text input_payload)) t
  = _simulate_server_call rt server_name ability_name (InputPayload_dict input_payload) t /\
  _simulate_ability rt server_name ability_name
    (InputPayload_dict (with_query text input_payload)) t
  = _simulate_ability rt server_name ability_name (InputPayload_dict input_payload) t.
Proof.
  split.
  - unfold _simulate_server_call.
    destruct (String.eqb server_name "ATLAS"); [reflexivity|].
    destruct (String.eqb server_name "COMMON"); reflexivity.
  - reflexivity.
Qed.

(** ** A failure while ASK applies its results *)

(** X14: ASK sets [clarification_requested] before it reads the
    question out of the results.  So when the model asks for clarification
    and the request for the question fails, the stage fails (the result of
    the ability is [None], which has no [get]) and stores no question, but
    clarification stays requested, and the branch after ASK leads to WAIT
    unless a human response is there. *)
Theorem X14_clarification_survives_failure (env : Env) (h : Heap) (content : string)
    (client : MCPClient) (e : exn) :
  llm_ainvoke env "You are Langie, a structured customer support agent."
    (ticket_summary (state h)) = inr content ->
  contains_YES (str_upper (runtime env) content) = true ->
  MCPManager.clients (mcp_manager h) !! "ATLAS" = Some client ->
  server_call env (MCPClient.server_name client) "clarify_question"
    (InputPayload_dict (input_payload (state h))) (S (S (clock h))) = inl e ->
  exists h' lg,
    stage_04_ask env h = (Return tt, h') /\
    clarification_requested (state h') = true /\
    clarification_question (state h') = clarification_question (state h) /\
    stage_logs (state h') = stage_logs (state h) ++ [lg] /\
    StageLog.success lg = false /\
    StageLog.error lg = Some "'NoneType' object has no attribute 'get'" /\
    (truthy (human_response (state h)) = false -> _should_wait (state h') = "wait").
Proof.
  intros Hllm Hyes Hclient Hcall.
  unfold ticket_summary in Hllm.
  unfold stage_04_ask. normalise. unfold ticket_summary. simpl.
  rewrite Hllm. normalise. rewrite Hyes. normalise.
  unfold MCPManager_execute_ability. simpl. rewrite Hclient.
  unfold MCPClient_execute_ability. normalise. rewrite Hcall. normalise.
  do 2 eexists. split; [reflexivity|]. simpl.
  split; [reflexivity|]. split; [reflexivity|]. split; [reflexivity|].
  split; [reflexivity|]. split; [reflexivity|].
  intros Hnone. unfold _should_wait. simpl. rewrite Hnone. reflexivity.
Qed.

(** X14, when the ATLAS server fails on ["clarify_question"] in the first
    run of a new agent. *)
Lemma X14_clarification_survives_failure_witness :
  contains_YES (str_upper ascii_runtime "YES, the account is not identified.") = true /\
  exists h' lg,
    stage_04_ask clarification_down (start_of_run sample_ticket new_agent) = (Return tt, h') /\
    clarification_requested (state h') = true /\
    stage_logs (state h') = [lg] /\
    StageLog.success lg = false.
Proof.
  assert (Hllm : llm_ainvoke clarification_down
                   "You are Langie, a structured customer support agent."
                   (ticket_summary (state (start_of_run sample_ticket new_agent)))
                 = inr "YES, the account is not identified.") by reflexivity.
  assert (Hyes : contains_YES (str_upper (runtime clarification_down)
                                 "YES, the account is not identified.") = true)
    by (vm_compute; reflexivity).
  assert (Hclient : MCPManager.clients (mcp_manager (start_of_run sample_ticket new_agent))
                      !! "ATLAS" = Some atlas_client) by (vm_compute; reflexivity).
  assert (Hcall : server_call clarification_down (MCPClient.server_name atlas_client)
                    "clarify_question"
                    (InputPayload_dict
                       (input_payload (state (start_of_run sample_ticket new_agent))))
                    (S (S (clock (start_of_run sample_ticket new_agent))))
                  = inl (Exception "ConnectError" "All connection attempts failed"))
    by reflexivity.
  destruct (X14_clarification_survives_failure clarification_down
              (start_of_run sample_ticket new_agent) _ atlas_client _
              Hllm Hyes Hclient Hcall)
    as (h' & lg & Hrun & Hasked & _ & Hlogs & Hfailed & _).
  split; [exact Hyes|]. exists h', lg.
  split; [exact Hrun|]. split; [exact Hasked|]. split; [exact Hlogs|exact Hfailed].
Defined.

(** ** The bookkeeping fields of the state *)

Section Bookkeeping.

Variable env : Env.

Ltac keep_stage stage := intros h; unfold stage; run_stage; reflexivity.

Lemma stage_01_keeps_complete : keeps processing_complete (stage_01_intake env).
Proof. keep_stage stage_01_intake. Qed.

Lemma stage_02_keeps_complete : keeps processing_complete (stage_02_understand env).
Proof. keep_stage stage_02_understand. Qed.

Lemma stage_03_keeps_complete : keeps processing_complete (stage_03_prepare env).
Proof. keep_stage stage_03_prepare. Qed.

Lemma stage_04_keeps_complete : keeps processing_complete (stage_04_ask env).
Proof. keep_stage stage_04_ask. Qed.

Lemma stage_05_keeps_complete : keeps processing_complete (stage_05_wait env).
Proof. keep_stage stage_05_wait. Qed.

Lemma stage_06_keeps_complete : keeps processing_complete (stage_06_retrieve env).
Proof. keep_stage stage_06_retrieve. Qed.

Lemma stage_07_keeps_complete : keeps processing_complete (stage_07_decide env).
Proof. keep_stage stage_07_decide. Qed.

Lemma stage_07_current h : current_stage (state (exec (stage_07_decide env) h)) = 7.
Proof. unfold exec, stage_07_decide. run_stage. all: reflexivity. Qed.

Lemma stage_11_books h :
  current_stage (state (exec (stage_11_complete env) h)) = 11 /\
  processing_complete (state (exec (stage_11_complete env) h)) = true.
Proof. unfold exec, stage_11_complete. run_stage. all: split; reflexivity. Qed.

Lemma run_to_decide_keeps_complete : keeps processing_complete (run_to_decide env).
Proof.
  unfold run_to_decide, run_to_ask.
  apply keeps_bind; [|intros _].
  { apply keeps_bind; [apply stage_01_keeps_complete|intros _].
    apply keeps_bind; [apply stage_02_keeps_complete|intros _].
    apply keeps_bind; [apply stage_03_keeps_complete|intros _].
    apply stage_04_keeps_complete. }
  apply keeps_bind; [apply keeps_get_state|intros s].
  apply keeps_bind; [|intros _].
  { destruct (String.eqb (_should_wait s) "wait");
      [apply stage_05_keeps_complete|apply keeps_ret]. }
  apply keeps_bind; [apply stage_06_keeps_complete|intros _].
  apply stage_07_keeps_complete.
Qed.

Lemma run_after_decide_last h7 :
  exists h10, exec (run_after_decide env) h7 = exec (stage_11_complete env) h10.
Proof.
  destruct (node_action_returns env update h7) as (h8 & E8).
  destruct (node_action_returns env create h8) as (h9 & E9).
  destruct (node_action_returns env do h9) as (h10 & E10).
  cbn [node_action] in *. exists h10. unfold exec, run_after_decide.
  advance E8. advance E9. advance E10. reflexivity.
Qed.

End Bookkeeping.



(** ** The custom demo *)

Lemma priority_map_round_trip p : priority_map_get priority_map (Priority_value p) MEDIUM = p.
Proof. destruct p; reflexivity. Qed.

Lemma priority_map_default k :
  Forall (fun p => k <> Priority_value p) [LOW; MEDIUM; HIGH; CRITICAL] ->
  priority_map_get priority_map k MEDIUM = MEDIUM.
Proof.
  intros Hk. unfold priority_map. cbn [priority_map_get].
  repeat match goal with |- context [String.eqb k ?s] =>
    destruct (String.eqb_spec k s) as [->|_] end; try reflexivity.
  all: exfalso; repeat match goal with
         | H : Forall _ (_ :: _) |- _ => apply Forall_cons_1 in H; destruct H as [? H]
         end; cbn in *; congruence.
Qed.


(** ** When WAIT runs *)

Section Waiting.

Variable env : Env.

Ltac keep_stage stage := intros h; unfold stage; run_stage; reflexivity.

Lemma stage_01_keeps_asked : keeps clarification_requested (stage_01_intake env).
Proof. keep_stage stage_01_intake. Qed.

Lemma stage_02_keeps_asked : keeps clarification_requested (stage_02_understand env).
Proof. keep_stage stage_02_understand. Qed.

Lemma stage_03_keeps_asked : keeps clarification_requested (stage_03_prepare env).
Proof. keep_stage stage_03_prepare. Qed.

Lemma stage_01_keeps_response : keeps human_response (stage_01_intake env).
Proof. keep_stage stage_01_intake. Qed.

Lemma stage_02_keeps_response : keeps human_response (stage_02_understand env).
Proof. keep_stage stage_02_understand. Qed.

Lemma stage_03_keeps_response : keeps human_response (stage_03_prepare env).
Proof. keep_stage stage_03_prepare. Qed.

Lemma stage_04_keeps_response : keeps human_response (stage_04_ask env).
Proof. keep_stage stage_04_ask. Qed.

(** ASK requests clarification exactly when the model says YES, whether
    the request for the question succeeds or not. *)
Lemma stage_04_asks h :
  clarification_requested (state (stage_04_ask env h).2)
  = model_asks env (state h) || clarification_requested (state h).
Proof.
  unfold stage_04_ask, model_asks, ticket_summary. normalise.
  destruct (llm_ainvoke env _ _) as [e|content]; normalise.
  - repeat run_step; reflexivity.
  - destruct (contains_YES (str_upper (runtime env) content)); normalise;
      repeat run_step; reflexivity.
Qed.

Lemma run_to_prepare_keeps {B} (f : CustomerSupportState -> B) :
  keeps f (stage_01_intake env) -> keeps f (stage_02_understand env) ->
  keeps f (stage_03_prepare env) -> keeps f (run_to_prepare env).
Proof.
  intros K1 K2 K3. unfold run_to_prepare.
  apply keeps_bind; [exact K1|intros _]. apply keeps_bind; [exact K2|intros _]. exact K3.
Qed.

Lemma run_to_ask_after_prepare h :
  exec (run_to_ask env) h = exec (stage_04_ask env) (exec (run_to_prepare env) h).
Proof.
  unfold exec, run_to_ask, run_to_prepare.
  destruct (node_action_returns env intake h) as (h1 & E1).
  destruct (node_action_returns env understand h1) as (h2 & E2).
  destruct (node_action_returns env prepare h2) as (h3 & E3).
  cbn [node_action] in *.
  advance E1. advance E2. advance E3.
  rewrite (bind_return _ _ _ _ _ E1). cbv beta.
  rewrite (bind_return _ _ _ _ _ E2). cbv beta. rewrite E3. reflexivity.
Qed.

End Waiting.

